(** * StoryGrinder: provider clients, token budgets and the tool-run handler

    A shallow embedding of the streaming core of StoryGrinder:
    - [client-claude.js]: the Claude client ([calculateTokenBudgets],
      [countTokens], [streamWithThinking]);
    - [client-openai.js] and [client_openai_completions.js]: the two OpenAI
      clients ([streamWithThinking]);
    - [main.js]: the ['start-tool-run'] IPC handler, and [preload.js]:
      [stopTool].

    Token counts are JavaScript numbers holding integers; they are modelled
    as [Z] (the code never divides, so no fractional value arises). *)

From Stdlib Require Import ZArith QArith Lia.
From stdpp Require Import base gmap strings list.

Local Open Scope Z_scope.

(** ** JavaScript results: a value or a thrown [Error] with its message *)

Inductive Result (A : Type) : Type :=
| Ok (a : A)
| Throw (message : string).
Arguments Ok {A} a.
Arguments Throw {A} message.

Definition is_ok {A} (r : Result A) : bool :=
  match r with Ok _ => true | Throw _ => false end.

Definition nl : string := String (Ascii.ascii_of_nat 10) EmptyString.

(** Truthiness of a string-valued property that may be [null]/[undefined]:
    only a non-empty string is truthy. *)
Definition truthy (s : option string) : bool :=
  match s with
  | Some (String _ _) => true
  | _ => false
  end.

(** What a call of [streamWithThinking] did: the texts handed to [onText],
    the provider requests made, and how the promise settled. *)
Record Outcome (O K : Type) : Type := mkOutcome {
  outputs : list O;
  calls : list K;
  result : Result unit
}.
Arguments mkOutcome {O K} _ _ _.
Arguments outputs {O K} _.
Arguments calls {O K} _.
Arguments result {O K} _.

(** ** Model listings *)

Module Models.

(** A model object of [models.list()]; the clients read its [id]. *)
Record ModelInfo : Type := mkModelInfo {
  id : option string
}.

(** What [client.models.list()] settles to: an exception, or a page whose
    [data] may be absent. *)
Definition ModelsList : Type := Result (option (list ModelInfo)).

End Models.

(** ** The Claude client's configuration and token budgets *)

Module Claude.

Record Config : Type := mkConfig {
  max_retries : Z;
  request_timeout : Z;
  context_window : Z;
  thinking_budget_tokens : Z;
  betas_max_tokens : Z;
  desired_output_tokens : Z;
  model_name : string;
  max_thinking_budget : Z;
  max_tokens : Z
}.

(** The defaults of the constructor ([this.config = { ... , ...config }]). *)
Definition default_config : Config := {|
  max_retries := 1;
  request_timeout := 300;
  context_window := 200000;
  thinking_budget_tokens := 32000;
  betas_max_tokens := 128000;
  desired_output_tokens := 8000;
  model_name := "claude-3-7-sonnet-20250219";
  max_thinking_budget := 20000;
  max_tokens := 32000
|}.

(** The object returned by [calculateTokenBudgets]. *)
Record TokenBudgets : Type := mkBudgets {
  contextWindow : Z;
  promptTokens : Z;
  availableTokens : Z;
  maxTokens : Z;
  thinkingBudget : Z;
  desiredOutputTokens : Z;
  betasMaxTokens : Z;
  configuredThinkingBudget : Z;
  capThinkingBudget : bool;
  isPromptTooLarge : bool
}.

(** [calculateTokenBudgets(promptTokens)], statement by statement. *)
Definition calculateTokenBudgets (c : Config) (promptTokens : Z) : TokenBudgets :=
  let contextWindow := context_window c in
  let desiredOutputTokens := desired_output_tokens c in
  let configuredThinkingBudget := thinking_budget_tokens c in
  let betasMaxTokens := betas_max_tokens c in
  let maxThinkingBudget := max_thinking_budget c in
  let availableTokens := contextWindow - promptTokens in
  let maxTokens0 := Z.min availableTokens betasMaxTokens in
  let maxTokens := if maxTokens0 >? contextWindow then availableTokens else maxTokens0 in
  let thinkingBudget0 := maxTokens - desiredOutputTokens in
  let capThinkingBudget := thinkingBudget0 >? maxThinkingBudget in
  let thinkingBudget := if capThinkingBudget then maxThinkingBudget else thinkingBudget0 in
  let isPromptTooLarge := thinkingBudget <? configuredThinkingBudget in
  {| contextWindow := contextWindow;
     promptTokens := promptTokens;
     availableTokens := availableTokens;
     maxTokens := maxTokens;
     thinkingBudget := thinkingBudget;
     desiredOutputTokens := desiredOutputTokens;
     betasMaxTokens := betasMaxTokens;
     configuredThinkingBudget := configuredThinkingBudget;
     capThinkingBudget := capThinkingBudget;
     isPromptTooLarge := isPromptTooLarge |}.

(** The configuration of the worked scenario: a 200,000-token window, a hard
    output limit of 32,000, 8,000 desired visible tokens, a preferred
    (configured) thinking budget of 20,000, and any ceiling on the thinking
    budget. *)
Definition scenario_config (ceiling : Z) : Config := {|
  max_retries := 1;
  request_timeout := 300;
  context_window := 200000;
  thinking_budget_tokens := 20000;
  betas_max_tokens := 32000;
  desired_output_tokens := 8000;
  model_name := "claude-3-7-sonnet-20250219";
  max_thinking_budget := ceiling;
  max_tokens := 32000
|}.

(** *** The client object *)

Record Client : Type := mkClient {
  config : Config;
  client : bool;                      (* [this.client] holds an SDK client *)
  apiKeyMissing : bool;
  manuscriptContent : option string   (* [null]/[undefined] as [None] *)
}.

(** [new AiApiService(config)], [apiKeyFromEnv] being
    [process.env.ANTHROPIC_API_KEY]. Without a key the constructor returns
    early: no SDK client and no manuscript field are set. *)
Definition construct (cfg : Config) (apiKeyFromEnv : option string) : Client :=
  if truthy apiKeyFromEnv
  then {| config := cfg; client := true; apiKeyMissing := false;
          manuscriptContent := None |}
  else {| config := cfg; client := false; apiKeyMissing := true;
          manuscriptContent := None |}.

(** [!this.client || this.apiKeyMissing] *)
Definition notInitialized (c : Client) : bool :=
  negb (client c) || apiKeyMissing c.

(** [content.trim()] is empty: every character is white space or a line
    terminator of ECMAScript. A string holds the UTF-8 bytes of the
    JavaScript string, so a character is one, two or three bytes here:
    - U+0009 to U+000D and U+0020, one byte each; *)
Definition is_space (a : Ascii.ascii) : bool :=
  let n := Ascii.nat_of_ascii a in
  ((9 <=? n)%nat && (n <=? 13)%nat) || (n =? 32)%nat.

(** - U+00A0, the no-break space (C2 A0); *)
Definition is_space2 (a b : Ascii.ascii) : bool :=
  (Ascii.nat_of_ascii a =? 194)%nat && (Ascii.nat_of_ascii b =? 160)%nat.

(** - U+1680 (E1 9A 80); U+2000 to U+200A, U+2028, U+2029 and U+202F
      (E2 80 80 to E2 80 8A, E2 80 A8, E2 80 A9, E2 80 AF); U+205F
      (E2 81 9F); U+3000 (E3 80 80); U+FEFF, the byte order mark
      (EF BB BF). *)
Definition is_space3 (a b c : Ascii.ascii) : bool :=
  let x := Ascii.nat_of_ascii a in
  let y := Ascii.nat_of_ascii b in
  let z := Ascii.nat_of_ascii c in
  ((x =? 225) && (y =? 154) && (z =? 128))%nat
  || ((x =? 226) && (y =? 128)
      && (((128 <=? z) && (z <=? 138)) || (z =? 168) || (z =? 169) || (z =? 175)))%nat
  || ((x =? 226) && (y =? 129) && (z =? 159))%nat
  || ((x =? 227) && (y =? 128) && (z =? 128))%nat
  || ((x =? 239) && (y =? 187) && (z =? 191))%nat.

Fixpoint trims_to_empty (s : string) : bool :=
  match s with
  | EmptyString => true
  | String a s1 =>
      if is_space a then trims_to_empty s1
      else
        match s1 with
        | EmptyString => false
        | String b s2 =>
            if is_space2 a b then trims_to_empty s2
            else
              match s2 with
              | EmptyString => false
              | String c s3 =>
                  if is_space3 a b c then trims_to_empty s3 else false
              end
        end
  end.

(** The entries pushed on [messages] by [prepareFileAndCache]. *)
Inductive Message : Type :=
| MsgLoading                         (* "Loading manuscript file..." *)
| MsgLoaded                          (* "Manuscript file loaded successfully" *)
| MsgLength (content : string).      (* "Manuscript length: n characters" *)

(** [prepareFileAndCache(manuscriptFile)]: [readFile] is the outcome of
    [fs.readFile]. Returns the client and the [messages] and [errors]
    arrays. *)
Definition prepareFileAndCache (c : Client) (readFile : Result string)
  : Client * list Message * list string :=
  let failed (m : string) :=
    ({| config := config c; client := client c; apiKeyMissing := apiKeyMissing c;
        manuscriptContent := None |},
     [MsgLoading], ["Error loading manuscript: " +:+ m]) in
  match readFile with
  | Throw m => failed m
  | Ok content =>
      if trims_to_empty content then failed "Manuscript file is empty"
      else
        ({| config := config c; client := client c; apiKeyMissing := apiKeyMissing c;
            manuscriptContent := Some content |},
         [MsgLoading; MsgLoaded; MsgLength content],
         [])
  end.

(** [clearFilesAndCaches()] *)
Definition clearFilesAndCaches (c : Client) : Client :=
  {| config := config c; client := client c; apiKeyMissing := apiKeyMissing c;
     manuscriptContent := None |}.

(** [close()] *)
Definition close (c : Client) : Client :=
  {| config := config c; client := false; apiKeyMissing := apiKeyMissing c;
     manuscriptContent := None |}.

(** *** The Anthropic SDK, as far as the client uses it *)

(** The request object [modelOptions] of [messages.stream]. *)
Record ModelOptions : Type := mkModelOptions {
  mo_model : string;
  mo_max_tokens : Z;
  mo_content : string;           (* [messages: [{role: "user", content}]] *)
  mo_budget_tokens : Z           (* [thinking: {type: "enabled", budget_tokens}] *)
}.

Inductive ContentBlock : Type := ThinkingBlock | TextBlock | OtherBlock.

Inductive Delta : Type :=
| ThinkingDelta (thinking : string)
| TextDelta (text : string)
| OtherDelta.

Inductive StreamEvent : Type :=
| ContentBlockStart (content_block : ContentBlock)
| ContentBlockDelta (delta : Delta)
| MessageStop
| OtherEvent.

(** What [messages.stream(...).withResponse()] yields: a rejection, or the
    response headers and the events of the stream, which may itself fail
    after its last event. *)
Inductive StreamResponse : Type :=
| StreamRejected (message : string)
| StreamOpened (headers : list (string * string)) (events : list StreamEvent)
               (failure : option string).

Record Sdk : Type := mkSdk {
  (* [messages.countTokens({model, messages, thinking})]:
     [input_tokens], or an exception *)
  sdk_countTokens : string -> string -> Z -> Result Z;
  sdk_stream : ModelOptions -> StreamResponse
}.

(** The requests a call makes to the provider, in order. *)
Inductive SdkCall : Type :=
| CallCountTokens (model text : string) (budget_tokens : Z)
| CallStream (request : ModelOptions).

(** One constructor per [onText(...)] call site, with the values the text
    is built from. *)
Inductive Output : Type :=
| OutWarning (promptTokens : Z)         (* "WARNING: Prompt is very large (n tokens)..." *)
| OutRateLimitsBanner                   (* "=== FYI: Rate Limits ===" *)
| OutHeader (name value : string)       (* "name: value" *)
| OutBlankLine
| OutThinkingBanner                     (* "Thinking..." *)
| OutRespondingBanner                   (* "Responding..." *)
| OutThinking (thinking : string)
| OutText (text : string)
| OutMetaData (model : string) (promptTokens maxTokens thinkingBudget : Z).

(** [countTokens(text)]: -1 without a client or when the request fails. *)
Definition countTokens (sdk : Sdk) (c : Client) (text : string) : Z * list SdkCall :=
  if notInitialized c then (-1, [])
  else
    let model := model_name (config c) in
    let budget := thinking_budget_tokens (config c) in
    (match sdk_countTokens sdk model text budget with
     | Ok input_tokens => input_tokens
     | Throw _ => -1
     end,
     [CallCountTokens model text budget]).

(** [name.toLowerCase().includes(...)] on header names (ASCII). *)
Definition to_lower (a : Ascii.ascii) : Ascii.ascii :=
  let n := Ascii.nat_of_ascii a in
  if ((65 <=? n)%nat && (n <=? 90)%nat) then Ascii.ascii_of_nat (n + 32) else a.

Fixpoint toLowerCase (s : string) : string :=
  match s with
  | EmptyString => EmptyString
  | String a s' => String (to_lower a) (toLowerCase s')
  end.

Fixpoint includes (s sub : string) : bool :=
  String.prefix sub s ||
  match s with
  | EmptyString => false
  | String _ s' => includes s' sub
  end.

Definition isRateLimitHeader (name : string) : bool :=
  includes (toLowerCase name) "rate" || includes (toLowerCase name) "limit".

Definition rateLimitOutputs (headers : list (string * string)) : list Output :=
  [OutRateLimitsBanner]
  ++ map (fun h => OutHeader (fst h) (snd h))
         (filter (fun h => isRateLimitHeader (fst h) = true) headers)
  ++ [OutBlankLine].

Record StreamOptions : Type := mkStreamOptions {
  includeThinking : bool
}.

(** The flags [isThinking] and [isResponding] of the stream loop. *)
Record LoopState : Type := mkLoopState {
  isThinking : bool;
  isResponding : bool
}.

(** One iteration of [for await (const event of stream)]. *)
Definition processEvent (c : Client) (includeMetaData : bool) (options : StreamOptions)
    (promptTokens : Z) (budgets : TokenBudgets)
    (st : LoopState) (event : StreamEvent) : LoopState * list Output :=
  match event with
  | ContentBlockStart ThinkingBlock =>
      if isThinking st then (st, [])
      else ({| isThinking := true; isResponding := isResponding st |}, [OutThinkingBanner])
  | ContentBlockStart TextBlock =>
      if isResponding st then (st, [])
      else ({| isThinking := isThinking st; isResponding := true |}, [OutRespondingBanner])
  | ContentBlockStart OtherBlock => (st, [])
  | ContentBlockDelta (ThinkingDelta thinking) =>
      (st, if includeThinking options then [OutThinking thinking] else [])
  | ContentBlockDelta (TextDelta text) => (st, [OutText text])
  | ContentBlockDelta OtherDelta => (st, [])
  | MessageStop =>
      (st, if includeMetaData
           then [OutMetaData (model_name (config c)) promptTokens
                             (maxTokens budgets) (thinkingBudget budgets)]
           else [])
  | OtherEvent => (st, [])
  end.

Fixpoint streamLoop (c : Client) (includeMetaData : bool) (options : StreamOptions)
    (promptTokens : Z) (budgets : TokenBudgets)
    (st : LoopState) (events : list StreamEvent) : list Output :=
  match events with
  | [] => []
  | event :: rest =>
      let '(st', out) := processEvent c includeMetaData options promptTokens budgets st event in
      out ++ streamLoop c includeMetaData options promptTokens budgets st' rest
  end.

(** The prompt sent: the manuscript, when one is loaded and [noCache] is
    off, is put in front of the instruction. *)
Definition fullPrompt (c : Client) (prompt : string) (noCache : bool) : string :=
  match manuscriptContent c with
  | Some content =>
      if truthy (Some content) && negb noCache
      then "=== MANUSCRIPT ===" +:+ nl +:+ content +:+ nl
           +:+ "=== END MANUSCRIPT ===" +:+ nl +:+ nl +:+ prompt
      else prompt
  | None => prompt
  end.

(** The request built by [streamWithThinking]: [max_tokens] and
    [budget_tokens] are read from the configuration (the lines taking them
    from [budgets] are commented out in the source). *)
Definition modelOptions (c : Client) (content : string) : ModelOptions :=
  {| mo_model := model_name (config c);
     mo_max_tokens := max_tokens (config c);
     mo_content := content;
     mo_budget_tokens := max_thinking_budget (config c) |}.

(** [streamWithThinking(prompt, onText, noCache, includeMetaData, options)] *)
Definition streamWithThinking (sdk : Sdk) (c : Client) (prompt : string)
    (noCache includeMetaData : bool) (options : StreamOptions)
  : Outcome Output SdkCall :=
  if notInitialized c
  then mkOutcome [] [] (Throw "Claude API client not initialized - API key missing")
  else
    let full := fullPrompt c prompt noCache in
    let '(promptTokens, counted) := countTokens sdk c full in
    let budgets := calculateTokenBudgets (config c) promptTokens in
    let warning := if isPromptTooLarge budgets then [OutWarning promptTokens] else [] in
    let request := modelOptions c full in
    match sdk_stream sdk request with
    | StreamRejected message =>
        mkOutcome warning (counted ++ [CallStream request]) (Throw message)
    | StreamOpened headers events failure =>
        let limits := if includeMetaData then rateLimitOutputs headers else [] in
        let streamed :=
          streamLoop c includeMetaData options promptTokens budgets
                     {| isThinking := false; isResponding := false |} events in
        mkOutcome (warning ++ limits ++ streamed)
                  (counted ++ [CallStream request])
                  (match failure with
                   | Some message => Throw message
                   | None => Ok tt
                   end)
    end.

(** *** Listing models, verifying access, recreating the client *)

(** [isChatCompatible(model)]: every Claude model is. *)
Definition isChatCompatible (model : Models.ModelInfo) : bool := true.

(** [getAvailableModels()]: the models and whether [models.list()] was
    requested. *)
Definition getAvailableModels (c : Client) (listing : Models.ModelsList)
  : list Models.ModelInfo * bool :=
  if apiKeyMissing c || negb (client c) then ([], false)
  else
    match listing with
    | Ok data =>
        (List.filter isChatCompatible (default [] data), true)
    | Throw _ => ([], true)
    end.

(** [m.id === this.config.model_name] *)
Definition hasId (name : string) (m : Models.ModelInfo) : bool :=
  match Models.id m with
  | Some i => String.eqb i name
  | None => false
  end.

(** [verifyAiAPI()]: the verdict and whether [models.list()] was
    requested. *)
Definition verifyAiAPI (c : Client) (listing : Models.ModelsList) : bool * bool :=
  if apiKeyMissing c || negb (client c) then (false, false)
  else
    match listing with
    | Ok (Some data) => (existsb (hasId (model_name (config c))) data, true)
    | Ok None => (false, true)
    | Throw _ => (false, true)
    end.

(** [recreate()], [apiKey] being [process.env.ANTHROPIC_API_KEY] at that
    time: the client is closed first; [apiKeyMissing] is only ever set, never
    cleared. *)
Definition recreate (c : Client) (apiKey : option string) : Client :=
  let closed := close c in
  if truthy apiKey
  then {| config := config closed; client := true;
          apiKeyMissing := apiKeyMissing closed;
          manuscriptContent := manuscriptContent closed |}
  else {| config := config closed; client := client closed;
          apiKeyMissing := true;
          manuscriptContent := manuscriptContent closed |}.

(** What [streamWithThinking] does without a client: nothing is printed or
    requested, and the call throws. *)
Definition keyMissingOutcome : Outcome Output SdkCall :=
  mkOutcome [] [] (Throw "Claude API client not initialized - API key missing").

(** The texts of a stream, for stating what the loop forwards. *)
Fixpoint textDeltas (events : list StreamEvent) : list string :=
  match events with
  | [] => []
  | ContentBlockDelta (TextDelta text) :: rest => text :: textDeltas rest
  | _ :: rest => textDeltas rest
  end.

Fixpoint thinkingDeltas (events : list StreamEvent) : list string :=
  match events with
  | [] => []
  | ContentBlockDelta (ThinkingDelta thinking) :: rest => thinking :: thinkingDeltas rest
  | _ :: rest => thinkingDeltas rest
  end.

Fixpoint textOutputs (outs : list Output) : list string :=
  match outs with
  | [] => []
  | OutText text :: rest => text :: textOutputs rest
  | _ :: rest => textOutputs rest
  end.

Fixpoint thinkingOutputs (outs : list Output) : list string :=
  match outs with
  | [] => []
  | OutThinking thinking :: rest => thinking :: thinkingOutputs rest
  | _ :: rest => thinkingOutputs rest
  end.

Definition isBanner (o : Output) : bool :=
  match o with
  | OutThinkingBanner | OutRespondingBanner => true
  | _ => false
  end.

Definition isThinkingBanner (o : Output) : bool :=
  match o with OutThinkingBanner => true | _ => false end.

Definition isRespondingBanner (o : Output) : bool :=
  match o with OutRespondingBanner => true | _ => false end.

(** The outputs printed only on request: rate limits and metadata. *)
Definition isMetaOutput (o : Output) : bool :=
  match o with
  | OutRateLimitsBanner | OutHeader _ _ | OutBlankLine | OutMetaData _ _ _ _ => true
  | _ => false
  end.

End Claude.

(** ** The OpenAI client (Responses API), [client-openai.js] *)

Module OpenAI.

Record Client : Type := mkClient {
  model_name : string;
  client : bool;
  apiKeyMissing : bool;
  prompt : option string;     (* [this.prompt]: the manuscript *)
  temp : Q
}.

(** [new AiApiService(config)]; without a key the constructor returns
    before [prompt] and [temp] are set (such a client never builds a
    request, so the value of [temp] is then immaterial). *)
Definition construct (model : string) (apiKeyFromEnv : option string) : Client :=
  if truthy apiKeyFromEnv
  then {| model_name := model; client := true; apiKeyMissing := false;
          prompt := None; temp := (3 # 10)%Q |}
  else {| model_name := model; client := false; apiKeyMissing := true;
          prompt := None; temp := (3 # 10)%Q |}.

Definition default_model : string := "gpt-4.1-2025-04-14".

Definition notInitialized (c : Client) : bool :=
  negb (client c) || apiKeyMissing c.

(** [prepareFileAndCache(manuscriptFile)]: the client, [messages], [errors]. *)
Definition prepareFileAndCache (c : Client) (readFile : Result string)
  : Client * list string * list string :=
  match readFile with
  | Ok fileContent =>
      ({| model_name := model_name c; client := client c;
          apiKeyMissing := apiKeyMissing c; prompt := Some fileContent; temp := temp c |},
       ["Manuscript file loaded successfully."], [])
  | Throw m =>
      ({| model_name := model_name c; client := client c;
          apiKeyMissing := apiKeyMissing c; prompt := None; temp := temp c |},
       [], ["File read error: " +:+ m])
  end.

Record Request : Type := mkRequest {
  rq_user : string;
  rq_model : string;
  rq_instructions : string;
  rq_input : string;
  rq_stream : bool;
  rq_temperature : Q
}.

Inductive Event : Type :=
| OutputTextDelta (delta : string)     (* 'response.output_text.delta' *)
| OutputTextDone                       (* 'response.output_text.done' *)
| OtherEvent.

Inductive Response : Type :=
| CreateRejected (message : string)
| Created (events : list Event) (failure : option string).

Definition Sdk : Type := Request -> Response.

Inductive Output : Type :=
| OutDelta (delta : string)
| OutMetaData (model : string).

Record StreamOptions : Type := mkStreamOptions {
  temperature : option Q;
  includeMetaData : bool
}.

(** [options.temperature || fallback]: [undefined] and 0 are falsy. *)
Definition temperatureOr (t : option Q) (fallback : Q) : Q :=
  match t with
  | Some q => if Qeq_bool q 0 then fallback else q
  | None => fallback
  end.

(** The [for await] loop; the flag tells whether it left through [break]. *)
Fixpoint streamLoop (c : Client) (options : StreamOptions) (events : list Event)
  : list Output * bool :=
  match events with
  | [] => ([], false)
  | OutputTextDelta delta :: rest =>
      let '(out, broke) := streamLoop c options rest in (OutDelta delta :: out, broke)
  | OutputTextDone :: _ =>
      (if includeMetaData options then [OutMetaData (model_name c)] else [], true)
  | OtherEvent :: rest => streamLoop c options rest
  end.

Definition fullInput (manuscript instruction : string) : string :=
  "=== MANUSCRIPT ===" +:+ nl +:+ manuscript +:+ nl
  +:+ "=== MANUSCRIPT ===" +:+ nl +:+ instruction.

(** [streamWithThinking(prompt, onText, options)] *)
Definition streamWithThinking (sdk : Sdk) (c : Client) (instruction : string)
    (options : StreamOptions) : Outcome Output Request :=
  if notInitialized c
  then mkOutcome [] [] (Throw "OpenAI client not initialized - missing API key")
  else if negb (truthy (prompt c))
  then mkOutcome [] []
         (Throw "No manuscript prompt loaded. Call prepareFileAndCache() first.")
  else
    let request :=
      {| rq_user := "StoryGrinder";
         rq_model := model_name c;
         rq_instructions := "You are a very experienced creative fiction writer and editor.";
         rq_input := fullInput (default EmptyString (prompt c)) instruction;
         rq_stream := true;
         rq_temperature := temperatureOr (temperature options) (temp c) |} in
    match sdk request with
    | CreateRejected message => mkOutcome [] [request] (Throw message)
    | Created events failure =>
        let '(out, broke) := streamLoop c options events in
        mkOutcome out [request]
          (if broke then Ok tt
           else match failure with
                | Some message => Throw message
                | None => Ok tt
                end)
    end.

(** *** Listing models and verifying access *)

Definition is_digit (a : Ascii.ascii) : bool :=
  let n := Ascii.nat_of_ascii a in
  ((48 <=? n)%nat && (n <=? 57)%nat).

(** [isChatCompatible(model)]: [/^(gpt-|o\d+|chatgpt-)/.test(model.id || '')] *)
Definition isChatCompatible (model : Models.ModelInfo) : bool :=
  let modelId := default EmptyString (Models.id model) in
  String.prefix "gpt-" modelId
  || match modelId with
     | String a (String d _) =>
         (* the letter o, then a digit *)
         Ascii.eqb a (Ascii.ascii_of_nat 111) && is_digit d
     | _ => false
     end
  || String.prefix "chatgpt-" modelId.

(** [getAvailableModels()]: the models and whether [models.list()] was
    requested. *)
Definition getAvailableModels (c : Client) (listing : Models.ModelsList)
  : list Models.ModelInfo * bool :=
  if apiKeyMissing c || negb (client c) then ([], false)
  else
    match listing with
    | Ok data =>
        (List.filter isChatCompatible (default [] data), true)
    | Throw _ => ([], true)
    end.

Definition hasId (name : string) (m : Models.ModelInfo) : bool :=
  match Models.id m with
  | Some i => String.eqb i name
  | None => false
  end.

(** [verifyAiAPI()] *)
Definition verifyAiAPI (c : Client) (listing : Models.ModelsList) : bool * bool :=
  if apiKeyMissing c || negb (client c) then (false, false)
  else
    match listing with
    | Ok (Some data) => (existsb (hasId (model_name c)) data, true)
    | Ok None => (false, true)
    | Throw _ => (false, true)
    end.

(** [clearFilesAndCaches()]: nothing to clear; the manuscript stays. *)
Definition clearFilesAndCaches (c : Client) : Client := c.

(** The deltas of a stream up to its first ['response.output_text.done']. *)
Fixpoint deltasUntilDone (events : list Event) : list string :=
  match events with
  | [] => []
  | OutputTextDelta delta :: rest => delta :: deltasUntilDone rest
  | OutputTextDone :: _ => []
  | OtherEvent :: rest => deltasUntilDone rest
  end.

Definition isDone (e : Event) : bool :=
  match e with OutputTextDone => true | _ => false end.

End OpenAI.

(** ** The OpenAI client (Completions API), [client_openai_completions.js] *)

Module OpenAICompletions.

Record Client : Type := mkClient {
  model_name : string;
  client : bool;
  apiKeyMissing : bool;
  prompt : option string
}.

Definition construct (model : string) (apiKeyFromEnv : option string) : Client :=
  if truthy apiKeyFromEnv
  then {| model_name := model; client := true; apiKeyMissing := false; prompt := None |}
  else {| model_name := model; client := false; apiKeyMissing := true; prompt := None |}.

Definition notInitialized (c : Client) : bool :=
  negb (client c) || apiKeyMissing c.

Definition prepareFileAndCache (c : Client) (readFile : Result string)
  : Client * list string * list string :=
  match readFile with
  | Ok fileContent =>
      ({| model_name := model_name c; client := client c;
          apiKeyMissing := apiKeyMissing c; prompt := Some fileContent |},
       ["Manuscript file loaded successfully."], [])
  | Throw m =>
      ({| model_name := model_name c; client := client c;
          apiKeyMissing := apiKeyMissing c; prompt := None |},
       [], ["File read error: " +:+ m])
  end.

Record Request : Type := mkRequest {
  rq_model : string;
  rq_prompt : string;
  rq_max_tokens : Z;
  rq_temperature : Q;
  rq_stream : bool
}.

(** [completions.create] rejects, or resolves to a completion whose
    [choices] (possibly absent) carry a [text] each. *)
Inductive Response : Type :=
| CreateRejected (message : string)
| Completion (choices : option (list string)).

Definition Sdk : Type := Request -> Response.

(** The single [onText(resultText)]: the text of the first choice and, when
    asked for, the metadata block naming the model. *)
Inductive Output : Type :=
| OutResult (text : string) (metadataModel : option string).

Record StreamOptions : Type := mkStreamOptions {
  max_tokens : option Z;
  temperature : option Q;
  includeMetaData : bool
}.

(** [options.max_tokens || 4096] *)
Definition maxTokensOr (m : option Z) (fallback : Z) : Z :=
  match m with
  | Some n => if n =? 0 then fallback else n
  | None => fallback
  end.

Definition fullPrompt (manuscript instruction : string) : string :=
  "=== MANUSCRIPT ===" +:+ nl +:+ manuscript +:+ nl
  +:+ "=== MANUSCRIPT ===" +:+ nl +:+ instruction.

(** [streamWithThinking(prompt, onText, options)] *)
Definition streamWithThinking (sdk : Sdk) (c : Client) (instruction : string)
    (options : StreamOptions) : Outcome Output Request :=
  if notInitialized c
  then mkOutcome [] [] (Throw "OpenAI client not initialized - missing API key")
  else if negb (truthy (prompt c))
  then mkOutcome [] []
         (Throw "No manuscript prompt loaded. Call prepareFileAndCache() first.")
  else
    let request :=
      {| rq_model := model_name c;
         rq_prompt := fullPrompt (default EmptyString (prompt c)) instruction;
         rq_max_tokens := maxTokensOr (max_tokens options) 4096;
         rq_temperature := OpenAI.temperatureOr (temperature options) (3 # 10)%Q;
         rq_stream := false |} in
    match sdk request with
    | CreateRejected message => mkOutcome [] [request] (Throw message)
    | Completion choices =>
        let resultText :=
          match choices with
          | Some (text :: _) => text
          | _ => EmptyString
          end in
        mkOutcome
          [OutResult resultText
             (if includeMetaData options then Some (model_name c) else None)]
          [request] (Ok tt)
    end.

End OpenAICompletions.

(** ** The main process: the ['start-tool-run'] handler of [main.js] *)

Module Main.

(** What [toolSetupRunWindow.webContents.send] delivers to the renderer:
    ['tool-output'], ['tool-finished'] and ['tool-error'] with their
    payloads. *)
Inductive Notification : Type :=
| ToolOutput (runId text : string)
| ToolFinished (runId : string) (code : Z) (createdFiles : list string)
| ToolError (runId error : string).

(** Modelled from the spec: an entry of the file cache ([file-cache.js] is
    not among the sources). The handler reads its [path]; the spec records
    an artifact with the run that wrote it. *)
Record CachedFile : Type := mkCachedFile {
  path : string;
  run_id : string
}.

(** The reply to an [ipcRenderer.invoke]: Electron rejects the promise of
    a channel that has no [ipcMain.handle] handler. *)
Inductive IpcReply : Type :=
| Resolved (channel : string)
| NoHandlerRegistered (channel : string).

(** What the code of a tool does between two of its suspensions. *)
Inductive Action : Type :=
| Emits (text : string)                 (* the tool calls [sendOutput(text)] *)
| Records (tool run p : string).        (* the tool records a file in the cache *)

(** The value [executeToolById] resolves to: [undefined], or an object
    whose [outputFiles] may be absent. *)
Inductive ToolResult : Type :=
| ResultUndefined
| ResultObject (outputFiles : option (list string)).

Inductive ToolOutcome : Type :=
| Returns (r : ToolResult)
| Fails (message : string).

(** The [async] function of the handler while it is suspended at
    [await toolSystem.executeToolById(...)]: the variables of its closure,
    what the tool still does each time it is resumed, and how its promise
    settles. A run that has settled stays listed, so that a run keeps its
    place in the list. *)
Record Run : Type := mkRun {
  run_runId : string;
  run_toolName : string;
  run_later : list (list Action);
  run_outcome : ToolOutcome;
  run_settled : bool
}.

(** The state of the main process that the handlers read and write. *)
Record World : Type := mkWorld {
  (* [toolSetupRunWindow && !toolSetupRunWindow.isDestroyed()] *)
  windowLive : bool;
  (* the notifications delivered to the tool window, oldest first *)
  sent : list Notification;
  (* the ids [toolSystem.toolRegistry.getTool] finds *)
  toolRegistry : gset string;
  fileCache : gmap string (list CachedFile);
  (* the replies given to [stopTool] calls of the renderer, oldest first *)
  replies : list IpcReply;
  (* the runs started so far, in the order of their start *)
  runs : list Run
}.

Definition withWindow (live : bool) (w : World) : World :=
  {| windowLive := live; sent := sent w; toolRegistry := toolRegistry w;
     fileCache := fileCache w; replies := replies w; runs := runs w |}.

Definition withSent (l : list Notification) (w : World) : World :=
  {| windowLive := windowLive w; sent := l; toolRegistry := toolRegistry w;
     fileCache := fileCache w; replies := replies w; runs := runs w |}.

Definition withCache (c : gmap string (list CachedFile)) (w : World) : World :=
  {| windowLive := windowLive w; sent := sent w; toolRegistry := toolRegistry w;
     fileCache := c; replies := replies w; runs := runs w |}.

Definition withReplies (l : list IpcReply) (w : World) : World :=
  {| windowLive := windowLive w; sent := sent w; toolRegistry := toolRegistry w;
     fileCache := fileCache w; replies := l; runs := runs w |}.

Definition withRuns (l : list Run) (w : World) : World :=
  {| windowLive := windowLive w; sent := sent w; toolRegistry := toolRegistry w;
     fileCache := fileCache w; replies := replies w; runs := l |}.

(** *** Computations of the main process: state and exceptions *)

Definition M (A : Type) : Type := World -> Result A * World.

Definition ret {A} (a : A) : M A := fun w => (Ok a, w).

Definition bind {A B} (m : M A) (k : A -> M B) : M B :=
  fun w =>
    match m w with
    | (Ok a, w') => k a w'
    | (Throw e, w') => (Throw e, w')
    end.

Definition throw {A} (message : string) : M A := fun w => (Throw message, w).

(** [try { body } catch (error) { handler(error.message) }] *)
Definition try_catch {A} (body : M A) (handler : string -> M A) : M A :=
  fun w =>
    match body w with
    | (Ok a, w') => (Ok a, w')
    | (Throw e, w') => handler e w'
    end.

(** Calling an [async] function without awaiting it: the function runs up
    to its first [await] and is suspended there; the caller gets a promise
    at once and goes on, and never gets an exception. The argument is the
    part of the function before its first [await]; what follows the
    [await] runs in a later turn of the event loop ([resume] below). *)
Definition async_call (untilFirstAwait : M unit) : M unit :=
  fun w => (Ok tt, snd (untilFirstAwait w)).

(** [await promise] in the handler's [async] function: the function is
    suspended and joins the runs in flight. *)
Definition await (r : Run) : M unit :=
  fun w => (Ok tt, withRuns (runs w ++ [r]) w).

Notation "x <- m ;; k" := (bind m (fun x => k))
  (at level 60, m at next level, right associativity).
Notation "m ;;; k" := (bind m (fun _ => k))
  (at level 60, right associativity).

(** [if (toolSetupRunWindow && !toolSetupRunWindow.isDestroyed())
       toolSetupRunWindow.webContents.send(...)] *)
Definition sendIfLive (n : Notification) : M unit :=
  fun w => (Ok tt, if windowLive w then withSent (sent w ++ [n]) w else w).

(** [toolSystem.toolRegistry.getTool(toolName)], as found or not. *)
Definition getTool (toolName : string) : M bool :=
  fun w => (Ok (bool_decide (toolName ∈ toolRegistry w)), w).

(** *** The file cache *)

(** Modelled from the spec: [file-cache.js] is not among the sources (only
    its calls [fileCache.clear(toolName)] and [fileCache.getFiles(toolName)]
    in [main.js] are). [getFiles] is the spec's [listArtifacts(tool_id)]:
    the files of a tool in insertion order, none for an unknown tool. *)
Definition getFiles (cache : gmap string (list CachedFile)) (tool : string)
  : list CachedFile :=
  default [] (cache !! tool).

(** Modelled from the spec: [recordArtifact(tool_id, run_id, path)] of the
    Artifact Cache ([file-cache.js] is not among the sources); the listing
    keeps insertion order and has no duplicate path. *)
Definition recordArtifact (cache : gmap string (list CachedFile))
    (tool run p : string) : gmap string (list CachedFile) :=
  let files := getFiles cache tool in
  if bool_decide (p ∈ map path files) then cache
  else <[tool := files ++ [mkCachedFile p run]]> cache.

(** Modelled from the spec: [clear(tool_id)] of the Artifact Cache, called
    as [fileCache.clear(toolName)] ([file-cache.js] is not among the
    sources). *)
Definition clear (cache : gmap string (list CachedFile)) (tool : string)
  : gmap string (list CachedFile) :=
  delete tool cache.

(** Modelled from the spec: [clearAll()] of the Artifact Cache
    ([file-cache.js] is not among the sources). *)
Definition clearAll (cache : gmap string (list CachedFile))
  : gmap string (list CachedFile) := ∅.

(** *** The renderer's requests *)

(** The channels given a handler with [ipcMain.handle] in [main.js]. *)
Definition handledChannels : list string :=
  [ "get-projects"; "open-project"; "create-project"; "open-file-in-editor";
    "save-file"; "get-tools"; "get-tool-options"; "get-current-tool";
    "start-tool-run"; "set-tool-options"; "get-current-settings";
    "getAvailableModels"; "save-settings"; "show-editor-dialog";
    "launch-editor"; "get-project-info"; "select-file"; "select-directory";
    "convert-docx-to-txt"; "convert-txt-to-docx"; "get-tool-output-files";
    "get-ai-model-info" ].

(** The reply to [ipcRenderer.invoke(channel, ...)]. Only the existence of
    a handler is modelled here, not what the handlers of other channels
    do. *)
Definition invokeReply (channel : string) : IpcReply :=
  if bool_decide (channel ∈ handledChannels) then Resolved channel
  else NoHandlerRegistered channel.

(** [stopTool: (runId) => ipcRenderer.invoke('stop-tool', runId)]
    ([preload.js]), as it arrives in the main process. *)
Definition stopTool (runId : string) : M unit :=
  fun w => (Ok tt, withReplies (replies w ++ [invokeReply "stop-tool"]) w).

(** *** Tools *)

(** [tool-system.js] and the tools are not among the sources. A tool is
    taken as given by what its code does at once, inside the call of
    [executeToolById] and before its first suspension, by what it does each
    time it is resumed later, and by how its promise settles. *)
Record ToolBehaviour : Type := mkToolBehaviour {
  atOnce : list Action;
  later : list (list Action);
  outcome : ToolOutcome
}.

Definition OptionValues : Type := list (string * string).

(** [toolSystem.executeToolById], by tool name, option values and run id. *)
Definition ToolSystem : Type := string -> OptionValues -> string -> ToolBehaviour.

Definition act (sendOutput : string -> M unit) (a : Action) : M unit :=
  match a with
  | Emits text => sendOutput text
  | Records tool run p =>
      fun w => (Ok tt, withCache (recordArtifact (fileCache w) tool run p) w)
  end.

Fixpoint actAll (sendOutput : string -> M unit) (actions : list Action) : M unit :=
  match actions with
  | [] => ret tt
  | a :: rest => act sendOutput a ;;; actAll sendOutput rest
  end.

(** The call [toolSystem.executeToolById(toolName, optionValues, runId,
    sendOutput)]: the tool does what it does at once; the promise returned
    stands for the rest. *)
Definition executeToolById (toolSystem : ToolSystem) (toolName : string)
    (optionValues : OptionValues) (runId : string)
    (sendOutput : string -> M unit) : M (list (list Action) * ToolOutcome) :=
  let behaviour := toolSystem toolName optionValues runId in
  actAll sendOutput (atOnce behaviour) ;;;
  ret (later behaviour, outcome behaviour).

(** *** The handler *)

(** [[...new Set(xs)]]: the first occurrences, in order. *)
Fixpoint setFrom (seen xs : list string) : list string :=
  match xs with
  | [] => []
  | x :: rest =>
      if bool_decide (x ∈ seen) then setFrom seen rest
      else x :: setFrom (x :: seen) rest
  end.

Definition uniqueInOrder (xs : list string) : list string := setFrom [] xs.

(** [sendOutput] of the handler. *)
Definition sendOutput (runId text : string) : M unit :=
  sendIfLive (ToolOutput runId text).

Definition startingText (toolName : string) : string :=
  "Starting " +:+ toolName +:+ "..." +:+ nl +:+ nl.

(** Reading [result.outputFiles] of an [undefined] result throws. *)
Definition undefinedResultError : string :=
  "Cannot read properties of undefined (reading 'outputFiles')".

(** The [async] function the handler starts in the background, up to its
    [await]: the start text, the look-up of the tool, the clearing of the
    tool's files and the call of the tool. An error before the [await] is
    caught and sent at once. *)
Definition toolRun (toolSystem : ToolSystem) (runId toolName : string)
    (optionValues : OptionValues) : M unit :=
  try_catch
    (sendOutput runId (startingText toolName) ;;;
     tool <- getTool toolName ;;
     (if tool : bool then ret tt else throw ("Tool not found: " +:+ toolName)) ;;;
     (fun w => (Ok tt, withCache (clear (fileCache w) toolName) w)) ;;;
     promise <- executeToolById toolSystem toolName optionValues runId (sendOutput runId) ;;
     await {| run_runId := runId; run_toolName := toolName;
              run_later := fst promise; run_outcome := snd promise;
              run_settled := false |})
    (fun error => sendIfLive (ToolError runId error)).

(** The same function from its [await] on, once the promise of the tool
    has settled: the files are collected and the run is closed with
    ['tool-finished'], or with ['tool-error'] by the same [catch]. *)
Definition toolRunSettled (r : Run) : M unit :=
  try_catch
    (result <- match run_outcome r with
               | Returns result => ret result
               | Fails message => throw message
               end ;;
     cachedFiles <- (fun w => (Ok (getFiles (fileCache w) (run_toolName r)), w)) ;;
     outputFiles <- match result with
                    | ResultUndefined => throw undefinedResultError
                    | ResultObject files => ret (default [] files)
                    end ;;
     let allFiles := uniqueInOrder (outputFiles ++ map path cachedFiles) in
     sendIfLive (ToolFinished (run_runId r) 0 allFiles))
    (fun error => sendIfLive (ToolError (run_runId r) error)).

(** [ipcMain.handle('start-tool-run', async (event, toolName, optionValues)
    => ...)]; [uuid] is the value of [uuidv4()]. The handler starts the run
    and returns the run id; the world it leaves is the one at the time of
    its reply, with the run in flight. *)
Definition startToolRun (toolSystem : ToolSystem) (uuid toolName : string)
    (optionValues : OptionValues) : M string :=
  try_catch
    (let runId := uuid in
     async_call (toolRun toolSystem runId toolName optionValues) ;;;
     ret runId)
    (fun error => throw error).

(** *** The event loop *)

(** The run at place [i] goes on: the tool does what it does until its next
    suspension or, when nothing is left for it to do, its promise settles
    and the handler's function runs to its end. *)
Definition resume (i : nat) : M unit :=
  fun w =>
    match runs w !! i with
    | None => (Ok tt, w)
    | Some r =>
        if run_settled r then (Ok tt, w)
        else
          match run_later r with
          | chunk :: rest =>
              let w' := snd (actAll (sendOutput (run_runId r)) chunk w) in
              (Ok tt,
               withRuns (<[i := {| run_runId := run_runId r;
                                   run_toolName := run_toolName r;
                                   run_later := rest;
                                   run_outcome := run_outcome r;
                                   run_settled := false |}]> (runs w')) w')
          | [] =>
              let w' := snd (toolRunSettled r w) in
              (Ok tt,
               withRuns (<[i := {| run_runId := run_runId r;
                                   run_toolName := run_toolName r;
                                   run_later := [];
                                   run_outcome := run_outcome r;
                                   run_settled := true |}]> (runs w')) w')
          end
    end.

(** What the main process does in one turn of its event loop, as far as
    tool runs are concerned. The turns come in any order: runs interleave
    with one another and with what the user does. *)
Inductive Turn : Type :=
| StartToolRun (uuid toolName : string) (optionValues : OptionValues)
    (* the renderer calls [startToolRun]; [uuidv4()] gives [uuid] *)
| StopTool (runId : string)       (* the renderer calls [stopTool(runId)] *)
| WindowChanges (live : bool)     (* the tool window is closed or reopened *)
| Resume (i : nat).               (* the run at place [i] goes on *)

Definition turn (toolSystem : ToolSystem) (t : Turn) (w : World) : World :=
  match t with
  | StartToolRun uuid toolName optionValues =>
      snd (startToolRun toolSystem uuid toolName optionValues w)
  | StopTool runId => snd (stopTool runId w)
  | WindowChanges live => withWindow live w
  | Resume i => snd (resume i w)
  end.

Fixpoint eventLoop (toolSystem : ToolSystem) (turns : list Turn) (w : World) : World :=
  match turns with
  | [] => w
  | t :: rest => eventLoop toolSystem rest (turn toolSystem t w)
  end.

(** *** What a run sends, read off the turns *)

(** The world after [sendIfLive]. *)
Definition deliver (n : Notification) (w : World) : World :=
  if windowLive w then withSent (sent w ++ [n]) w else w.

(** The notifications a turn adds. *)
Definition sendsOf (toolSystem : ToolSystem) (t : Turn) (w : World) : list Notification :=
  drop (length (sent w)) (sent (turn toolSystem t w)).

(** The notifications added by the turns in which the run at place [k]
    goes on. *)
Fixpoint deliveredBy (toolSystem : ToolSystem) (k : nat) (turns : list Turn) (w : World)
  : list Notification :=
  match turns with
  | [] => []
  | t :: rest =>
      match t with
      | Resume i => if Nat.eqb i k then sendsOf toolSystem t w else []
      | _ => []
      end
      ++ deliveredBy toolSystem k rest (turn toolSystem t w)
  end.

(** The notifications of the run started in [w], over the turns that
    follow its start: those of the handler's own turn and, when the tool is
    found, those of the turns in which the run goes on. *)
Definition notificationsOfRun (toolSystem : ToolSystem) (uuid toolName : string)
    (optionValues : OptionValues) (following : list Turn) (w : World)
  : list Notification :=
  sendsOf toolSystem (StartToolRun uuid toolName optionValues) w
  ++ if bool_decide (toolName ∈ toolRegistry w)
     then deliveredBy toolSystem (length (runs w)) following
            (turn toolSystem (StartToolRun uuid toolName optionValues) w)
     else [].

(** The texts among some actions, in order. *)
Fixpoint emittedTexts (actions : list Action) : list string :=
  match actions with
  | [] => []
  | Emits text :: rest => text :: emittedTexts rest
  | _ :: rest => emittedTexts rest
  end.

(** The cache after the recordings among some actions. *)
Fixpoint recordAll (cache : gmap string (list CachedFile)) (actions : list Action)
  : gmap string (list CachedFile) :=
  match actions with
  | [] => cache
  | Records tool run p :: rest => recordAll (recordArtifact cache tool run p) rest
  | _ :: rest => recordAll cache rest
  end.

(** All that a tool does in the course of a run. *)
Definition allActions (b : ToolBehaviour) : list Action :=
  atOnce b ++ concat (later b).


(** The notification that closes a run, given the cache at that time. *)
Definition terminalOf (runId toolName : string) (o : ToolOutcome)
    (cache : gmap string (list CachedFile)) : Notification :=
  match o with
  | Fails message => ToolError runId message
  | Returns ResultUndefined => ToolError runId undefinedResultError
  | Returns (ResultObject files) =>
      ToolFinished runId 0
        (uniqueInOrder (default [] files ++ map path (getFiles cache toolName)))
  end.

(** How often the run at place [k] goes on among some turns. *)
Fixpoint resumesOf (k : nat) (turns : list Turn) : nat :=
  match turns with
  | [] => O
  | Resume i :: rest => ((if Nat.eqb i k then 1 else 0) + resumesOf k rest)%nat
  | _ :: rest => resumesOf k rest
  end.


(** Whether the tool window is live in the turn in which the run at place
    [k] settles, for a run that has [remaining] parts left; [None] when the
    run does not settle within the turns. *)
Fixpoint liveAtSettle (k remaining : nat) (live : bool) (turns : list Turn)
  : option bool :=
  match turns with
  | [] => None
  | WindowChanges live' :: rest => liveAtSettle k remaining live' rest
  | Resume i :: rest =>
      if Nat.eqb i k
      then match remaining with
           | O => Some live
           | S n => liveAtSettle k n live rest
           end
      else liveAtSettle k remaining live rest
  | _ :: rest => liveAtSettle k remaining live rest
  end.

(** The tool window is open, and stays open during the turns. *)
Fixpoint staysOpen (live : bool) (turns : list Turn) : bool :=
  live &&
  match turns with
  | [] => true
  | WindowChanges live' :: rest => staysOpen live' rest
  | _ :: rest => staysOpen live rest
  end.

(** The tool window is closed, and stays closed during the turns. *)
Fixpoint staysClosed (live : bool) (turns : list Turn) : bool :=
  negb live &&
  match turns with
  | [] => true
  | WindowChanges live' :: rest => staysClosed live' rest
  | _ :: rest => staysClosed live rest
  end.

(** No other run takes a turn: the turns are turns of the run at place
    [k], changes of the window and stop requests. *)
Definition onlyRun (k : nat) (t : Turn) : bool :=
  match t with
  | StartToolRun _ _ _ => false
  | Resume i => Nat.eqb i k
  | StopTool _ | WindowChanges _ => true
  end.

(** The stop requests among the turns. *)
Definition isStopRequest (t : Turn) : bool :=
  match t with StopTool _ => true | _ => false end.

Fixpoint stopRequests (turns : list Turn) : nat :=
  match turns with
  | [] => O
  | t :: rest => ((if isStopRequest t then 1 else 0) + stopRequests rest)%nat
  end.

Fixpoint withoutStopRequests (turns : list Turn) : list Turn :=
  match turns with
  | [] => []
  | t :: rest =>
      if isStopRequest t then withoutStopRequests rest
      else t :: withoutStopRequests rest
  end.

(** ['tool-finished'] and ['tool-error'] end a run. *)
Definition isTerminal (n : Notification) : bool :=
  match n with
  | ToolOutput _ _ => false
  | ToolFinished _ _ _ | ToolError _ _ => true
  end.

Definition runIdOf (n : Notification) : string :=
  match n with
  | ToolOutput runId _ | ToolFinished runId _ _ | ToolError runId _ => runId
  end.

(** How the promise of a tool fails, with the message of the error. *)
Inductive Failure : ToolOutcome -> string -> Prop :=
| ToolThrows message : Failure (Fails message) message
| ToolReturnsUndefined : Failure (Returns ResultUndefined) undefinedResultError.

(** *** The ['get-tool-output-files'] handler *)

(** [toolId.includes('-')] *)
Fixpoint hasHyphen (s : string) : bool :=
  match s with
  | EmptyString => false
  | String a s' => Ascii.eqb a (Ascii.ascii_of_nat 45) || hasHyphen s'
  end.

(** [toolId.split('-')[0]]: the characters before the first hyphen. *)
Fixpoint firstSegment (s : string) : string :=
  match s with
  | EmptyString => EmptyString
  | String a s' =>
      if Ascii.eqb a (Ascii.ascii_of_nat 45) then EmptyString
      else String a (firstSegment s')
  end.

(** [ipcMain.handle('get-tool-output-files', (event, toolId) => ...)]; a
    [toolId] that is not a string ([None]) makes [toolId.includes] throw,
    and the handler then returns the empty list. *)
Definition getToolOutputFiles (cache : gmap string (list CachedFile))
    (toolId : option string) : list CachedFile :=
  match toolId with
  | Some toolId =>
      let toolName := if hasHyphen toolId then firstSegment toolId else toolId in
      getFiles cache toolName
  | None => []
  end.

End Main.

(** ** Application state and settings: [state.js], [client.js] and the
    settings handlers of [main.js] *)

Module Settings.

(** The language object of [state.js]. *)
Record Language : Type := mkLanguage {
  code : string;
  name : string;
  nativeName : string
}.

(** [LANGUAGE] holds a language object, or a string in the old format. *)
Inductive LanguageValue : Type :=
| LangObject (l : Language)
| LangString (s : string).

(** The object stored under the key ['settings']. *)
Record SavedSettings : Type := mkSavedSettings {
  current_project : option string;
  current_project_path : option string;
  ai_provider : option string;
  language : LanguageValue
}.

(** The values the code puts in the electron-store. *)
Inductive StoreValue : Type :=
| VString (s : string)
| VSettings (settings : SavedSettings).

(** The fields of [AppState] the settings code reads and writes; [store]
    is [null] until [initialize()] has run. *)
Record State : Type := mkState {
  PROJECTS_DIR : string;
  CURRENT_PROJECT : option string;
  CURRENT_PROJECT_PATH : option string;
  AI_PROVIDER : option string;
  LANGUAGE : LanguageValue;
  store : option (gmap string StoreValue)
}.

Definition withStore (m : option (gmap string StoreValue)) (st : State) : State :=
  {| PROJECTS_DIR := PROJECTS_DIR st; CURRENT_PROJECT := CURRENT_PROJECT st;
     CURRENT_PROJECT_PATH := CURRENT_PROJECT_PATH st; AI_PROVIDER := AI_PROVIDER st;
     LANGUAGE := LANGUAGE st; store := m |}.

(** Truthiness of a value read from the store ([undefined] as [None]). *)
Definition truthyValue (v : option StoreValue) : bool :=
  match v with
  | Some (VString s) => truthy (Some s)
  | Some (VSettings _) => true
  | None => false
  end.

(** [this.store ? this.store.get(key) : null] *)
Definition storeGet (st : State) (key : string) : option StoreValue :=
  match store st with
  | Some m => m !! key
  | None => None
  end.

(** [saveSettings()] of [state.js]: without a store, nothing is saved. *)
Definition saveSettings (st : State) : State :=
  match store st with
  | None => st
  | Some m =>
      withStore
        (Some (<["settings" :=
                   VSettings {| current_project := CURRENT_PROJECT st;
                                current_project_path := CURRENT_PROJECT_PATH st;
                                ai_provider := AI_PROVIDER st;
                                language := LANGUAGE st |}]> m))
        st
  end.

(** [setAiProvider(provider)] *)
Definition setAiProvider (st : State) (provider : string) : State :=
  saveSettings
    {| PROJECTS_DIR := PROJECTS_DIR st; CURRENT_PROJECT := CURRENT_PROJECT st;
       CURRENT_PROJECT_PATH := CURRENT_PROJECT_PATH st; AI_PROVIDER := Some provider;
       LANGUAGE := LANGUAGE st; store := store st |}.

(** [setLanguage(language)] *)
Definition setLanguage (st : State) (l : LanguageValue) : State :=
  saveSettings
    {| PROJECTS_DIR := PROJECTS_DIR st; CURRENT_PROJECT := CURRENT_PROJECT st;
       CURRENT_PROJECT_PATH := CURRENT_PROJECT_PATH st; AI_PROVIDER := AI_PROVIDER st;
       LANGUAGE := l; store := store st |}.

(** The object returned by [getCurrentSettings()]. *)
Record CurrentSettings : Type := mkCurrentSettings {
  projectsPath : string;
  aiProvider : option StoreValue;
  aiModel : option StoreValue;
  currentLanguage : LanguageValue
}.

Definition getCurrentSettings (st : State) : CurrentSettings :=
  {| projectsPath := PROJECTS_DIR st;
     aiProvider := storeGet st "selectedApiProvider";
     aiModel := storeGet st "selectedAiModel";
     currentLanguage := LANGUAGE st |}.

(** *** [main.js]: the settings a client is built from *)

(** [getCompleteApiSettings()]: the [model_name] override, if a model is
    stored. *)
Definition getCompleteApiSettings (st : State) : option StoreValue :=
  let storedModel := storeGet st "selectedAiModel" in
  if truthyValue storedModel then storedModel else None.

(** [process.env], by variable name. *)
Definition Env : Type := string -> option string.

(** [checkApiProviderConfiguration()] *)
Definition checkApiProviderConfiguration (st : State) (env : Env) : bool :=
  let selectedProvider := storeGet st "selectedApiProvider" in
  match selectedProvider with
  | Some (VString provider) =>
      if negb (truthy (Some provider)) || String.eqb provider "skipped" then false
      else if String.eqb provider "gemini" then truthy (env "GEMINI_API_KEY")
      else if String.eqb provider "openai" then truthy (env "OPENAI_API_KEY")
      else if String.eqb provider "claude" then truthy (env "ANTHROPIC_API_KEY")
      else false
  | Some (VSettings _) => false
  | None => false
  end.

(** *** [client.js]: choosing the client class *)

Inductive ApiServiceClass : Type :=
| ClientGemini      (* [./client-gemini.js] *)
| ClientOpenAI      (* [./client-openai.js] *)
| ClientClaude.     (* [./client-claude.js] *)

(** [createApiService()]: the class, or [null] when the setup was skipped. *)
Definition createApiService (st : State) : option ApiServiceClass :=
  let selectedProvider := storeGet st "selectedApiProvider" in
  match (if truthyValue selectedProvider then selectedProvider
         else Some (VString "gemini")) with
  | Some (VString provider) =>
      if String.eqb provider "gemini" then Some ClientGemini
      else if String.eqb provider "openai" then Some ClientOpenAI
      else if String.eqb provider "claude" then Some ClientClaude
      else if String.eqb provider "skipped" then None
      else Some ClientGemini
  | _ => Some ClientGemini
  end.

(** [new AiApiService(config)] of [client-claude.js] and of
    [client-openai.js], reading the key from the environment. *)
Definition newClaude (env : Env) (cfg : Claude.Config) : Claude.Client :=
  Claude.construct cfg (env "ANTHROPIC_API_KEY").

Definition newOpenAI (env : Env) (model : string) : OpenAI.Client :=
  OpenAI.construct model (env "OPENAI_API_KEY").

(** *** [main.js]: the ['save-settings'] handler *)

(** The [settings] object sent by the settings dialog. *)
Record SettingsInput : Type := mkSettingsInput {
  in_aiProvider : option string;
  in_aiModel : option string;
  in_language : option LanguageValue;
  in_shouldQuit : bool
}.

Record SettingsWorld : Type := mkSettingsWorld {
  appState : State;
  (* [settingsWindow && !settingsWindow.isDestroyed()] *)
  settingsWindowLive : bool;
  (* [app.quit()] has been called *)
  quitRequested : bool
}.

Definition withAppState (st : State) (w : SettingsWorld) : SettingsWorld :=
  {| appState := st; settingsWindowLive := settingsWindowLive w;
     quitRequested := quitRequested w |}.

(** The reply [{ success, error }]. *)
Record SaveReply : Type := mkSaveReply {
  success : bool;
  error : option string
}.

Definition S (A : Type) : Type := SettingsWorld -> Result A * SettingsWorld.

Definition andThen {A B} (m : S A) (k : A -> S B) : S B :=
  fun w =>
    match m w with
    | (Ok a, w') => k a w'
    | (Throw e, w') => (Throw e, w')
    end.

Definition modify (f : SettingsWorld -> SettingsWorld) : S unit :=
  fun w => (Ok tt, f w).

Definition when (b : bool) (m : S unit) : S unit :=
  if b then m else (fun w => (Ok tt, w)).

(** Calling [set] on the [null] store throws. *)
Definition nullStoreError : string :=
  "Cannot read properties of null (reading 'set')".

(** [appState.store.set(key, value)] *)
Definition storeSet (key : string) (v : StoreValue) : S unit :=
  fun w =>
    match store (appState w) with
    | Some m => (Ok tt, withAppState (withStore (Some (<[key := v]> m)) (appState w)) w)
    | None => (Throw nullStoreError, w)
    end.

Definition truthyLanguage (l : option LanguageValue) : bool :=
  match l with
  | Some (LangObject _) => true
  | Some (LangString s) => truthy (Some s)
  | None => false
  end.

(** [ipcMain.handle('save-settings', async (event, settings) => ...)] *)
Definition saveSettingsHandler (settings : SettingsInput) (w : SettingsWorld)
  : SaveReply * SettingsWorld :=
  let body : S unit :=
    andThen
      (when (truthy (in_aiProvider settings))
         (andThen
            (modify (fun w =>
               withAppState
                 (setAiProvider (appState w) (default EmptyString (in_aiProvider settings)))
                 w))
            (fun _ => storeSet "selectedApiProvider"
                        (VString (default EmptyString (in_aiProvider settings))))))
      (fun _ =>
    andThen
      (when (truthy (in_aiModel settings))
         (storeSet "selectedAiModel" (VString (default EmptyString (in_aiModel settings)))))
      (fun _ =>
    andThen
      (when (truthyLanguage (in_language settings))
         (modify (fun w =>
            withAppState
              (setLanguage (appState w) (default (LangString EmptyString) (in_language settings)))
              w)))
      (fun _ =>
    andThen
      (modify (fun w =>
         {| appState := appState w; settingsWindowLive := false;
            quitRequested := quitRequested w |}))
      (fun _ =>
      when (in_shouldQuit settings)
        (modify (fun w =>
           {| appState := appState w; settingsWindowLive := settingsWindowLive w;
              quitRequested := true |})))))) in
  match body w with
  | (Ok _, w') => ({| success := true; error := None |}, w')
  | (Throw message, w') => ({| success := false; error := Some message |}, w')
  end.

(** *** [main.js]: the ['getAvailableModels'] handler *)

(** [client-gemini.js] is not among the sources: a temporary Gemini client
    is taken as given by its [apiKeyMissing] flag and by what its
    [getAvailableModels()] settles to. *)
Record GeminiClient : Type := mkGeminiClient {
  gemini_apiKeyMissing : bool;
  gemini_models : Result (list Models.ModelInfo)
}.

(** [ipcMain.handle('getAvailableModels', async (event, provider) => ...)];
    [listing] is what [models.list()] of the provider settles to. *)
Definition getAvailableModelsHandler (env : Env) (gemini : GeminiClient)
    (listing : Models.ModelsList) (provider : string) : list Models.ModelInfo :=
  if String.eqb provider "gemini" then
    if gemini_apiKeyMissing gemini then []
    else match gemini_models gemini with
         | Ok models => models
         | Throw _ => []
         end
  else if String.eqb provider "openai" then
    let tempClient := newOpenAI env OpenAI.default_model in
    if OpenAI.apiKeyMissing tempClient then []
    else fst (OpenAI.getAvailableModels tempClient listing)
  else if String.eqb provider "claude" then
    let tempClient := newClaude env Claude.default_config in
    if Claude.apiKeyMissing tempClient then []
    else fst (Claude.getAvailableModels tempClient listing)
  else [].

End Settings.

(** ** Concrete providers, clients and tool runs used in examples *)

Module Examples.

(** A provider that counts 190,000 prompt tokens and then streams one
    thinking block and one text block. *)
Definition claude_sdk : Claude.Sdk :=
  {| Claude.sdk_countTokens := fun _ _ _ => Ok 190000;
     Claude.sdk_stream := fun _ =>
       Claude.StreamOpened
         [("anthropic-ratelimit-requests-remaining", "49"); ("content-type", "text/event-stream")]
         [Claude.ContentBlockStart Claude.ThinkingBlock;
          Claude.ContentBlockDelta (Claude.ThinkingDelta "hm");
          Claude.ContentBlockStart Claude.TextBlock;
          Claude.ContentBlockDelta (Claude.TextDelta "Chapter 1 drags.");
          Claude.MessageStop]
         None |}.

(** A Claude client built with a key in the environment; no manuscript has
    been loaded. *)
Definition claude_ready : Claude.Client :=
  Claude.construct Claude.default_config (Some "sk-ant-key").

Definition claude_without_key : Claude.Client :=
  Claude.construct Claude.default_config None.

Definition openai_sdk : OpenAI.Sdk :=
  fun _ => OpenAI.Created [OpenAI.OutputTextDelta "Fine."; OpenAI.OutputTextDone] None.

Definition openai_ready : OpenAI.Client :=
  OpenAI.construct OpenAI.default_model (Some "sk-key").

Definition openai_without_key : OpenAI.Client :=
  OpenAI.construct OpenAI.default_model None.

Definition completions_sdk : OpenAICompletions.Sdk :=
  fun _ => OpenAICompletions.Completion (Some ["Fine."]).

Definition completions_ready : OpenAICompletions.Client :=
  OpenAICompletions.construct OpenAI.default_model (Some "sk-key").

Definition completions_without_key : OpenAICompletions.Client :=
  OpenAICompletions.construct OpenAI.default_model None.

(** A tool window that is open, one registered tool, an empty cache, no
    run under way. *)
Definition world : Main.World :=
  {| Main.windowLive := true; Main.sent := [];
     Main.toolRegistry := {["line_editing"]};
     Main.fileCache := ∅; Main.replies := []; Main.runs := [] |}.

(** The same, with a file left in the cache by an earlier run. *)
Definition world_after_a_run : Main.World :=
  Main.withCache
    (Main.recordArtifact ∅ "line_editing" "run-0" "/out/old.txt") world.

(** A tool that emits four texts, one each time it goes on, writes one file
    and returns it. *)
Definition stopped_tools : Main.ToolSystem := fun _ _ runId =>
  {| Main.atOnce := [];
     Main.later :=
       [[Main.Emits "a"]; [Main.Emits "b"]; [Main.Emits "c"];
        [Main.Emits "d"; Main.Records "line_editing" runId "/out/new.txt"]];
     Main.outcome := Main.Returns (Main.ResultObject (Some ["/out/new.txt"])) |}.

(** The run of [stopped_tools] from its start to its end, with a request to
    stop it after its first text. *)
Definition stopped_schedule : list Main.Turn :=
  [Main.StartToolRun "run-1" "line_editing" []; Main.Resume 0;
   Main.StopTool "run-1";
   Main.Resume 0; Main.Resume 0; Main.Resume 0; Main.Resume 0].

(** The turns of one run, at place 0, to its end: four parts and the
    settling of the promise. *)
Definition to_the_end : list Main.Turn :=
  [Main.Resume 0; Main.Resume 0; Main.Resume 0; Main.Resume 0; Main.Resume 0].

(** A tool whose provider call fails after one text. *)
Definition failing_tools : Main.ToolSystem := fun _ _ _ =>
  {| Main.atOnce := [Main.Emits "a"];
     Main.later := [];
     Main.outcome := Main.Fails "Claude API client not initialized - API key missing" |}.

(** The tool window is closed while a run is under way, before the run
    ends. *)
Definition closed_before_the_end : list Main.Turn :=
  [Main.WindowChanges false; Main.Resume 0].





(** A file that holds a byte order mark (U+FEFF) and a no-break space
    (U+00A0) and nothing else. *)
Definition byte_order_mark_only : string :=
  String (Ascii.ascii_of_nat 239) (String (Ascii.ascii_of_nat 187)
    (String (Ascii.ascii_of_nat 191)
       (String (Ascii.ascii_of_nat 194) (String (Ascii.ascii_of_nat 160) EmptyString)))).

(** A model listing with one Claude model and three OpenAI models. *)
Definition listing : Models.ModelsList :=
  Ok (Some [Models.mkModelInfo (Some "claude-3-7-sonnet-20250219");
            Models.mkModelInfo (Some "gpt-4.1-2025-04-14");
            Models.mkModelInfo (Some "o3-mini");
            Models.mkModelInfo (Some "text-embedding-3-small")]).

(** An environment with the Anthropic key only. *)
Definition env : Settings.Env := fun variable =>
  if String.eqb variable "ANTHROPIC_API_KEY" then Some "sk-ant-key" else None.

(** An application state whose store is initialised and empty, and one
    whose store is still [null]. *)
Definition state : Settings.State :=
  {| Settings.PROJECTS_DIR := "/home/writer/writing_with_storygrinder";
     Settings.CURRENT_PROJECT := None;
     Settings.CURRENT_PROJECT_PATH := None;
     Settings.AI_PROVIDER := None;
     Settings.LANGUAGE :=
       Settings.LangObject
         {| Settings.code := "en-US"; Settings.name := "English";
            Settings.nativeName := "English" |};
     Settings.store := Some ∅ |}.

Definition state_without_store : Settings.State :=
  Settings.withStore None state.

Definition settings_world : Settings.SettingsWorld :=
  {| Settings.appState := state; Settings.settingsWindowLive := true;
     Settings.quitRequested := false |}.

Definition settings_world_without_store : Settings.SettingsWorld :=
  {| Settings.appState := state_without_store; Settings.settingsWindowLive := true;
     Settings.quitRequested := false |}.

(** The settings dialog saving Claude with a model, without quitting. *)
Definition claude_settings : Settings.SettingsInput :=
  {| Settings.in_aiProvider := Some "claude";
     Settings.in_aiModel := Some "claude-sonnet-4-20250514";
     Settings.in_language := None;
     Settings.in_shouldQuit := false |}.

(** A tool window that is closed. *)
Definition world_window_closed : Main.World := Main.withWindow false world.

End Examples.

(** * Properties *)

(** ** The model at work *)

Example claude_run_outputs :
  outputs (Claude.streamWithThinking Examples.claude_sdk Examples.claude_ready
             "Edit this." false true {| Claude.includeThinking := false |})
  = [Claude.OutWarning 190000;
     Claude.OutRateLimitsBanner;
     Claude.OutHeader "anthropic-ratelimit-requests-remaining" "49";
     Claude.OutBlankLine;
     Claude.OutThinkingBanner;
     Claude.OutRespondingBanner;
     Claude.OutText "Chapter 1 drags.";
     Claude.OutMetaData "claude-3-7-sonnet-20250219" 190000 10000 2000].
Proof. reflexivity. Qed.

Example openai_run_outputs :
  OpenAI.streamWithThinking Examples.openai_sdk
    (fst (fst (OpenAI.prepareFileAndCache Examples.openai_ready (Ok "Once upon a time."))))
    "Edit this." {| OpenAI.temperature := None; OpenAI.includeMetaData := true |}
  = mkOutcome
      [OpenAI.OutDelta "Fine."; OpenAI.OutMetaData "gpt-4.1-2025-04-14"]
      [{| OpenAI.rq_user := "StoryGrinder";
          OpenAI.rq_model := "gpt-4.1-2025-04-14";
          OpenAI.rq_instructions :=
            "You are a very experienced creative fiction writer and editor.";
          OpenAI.rq_input :=
            OpenAI.fullInput "Once upon a time." "Edit this.";
          OpenAI.rq_stream := true;
          OpenAI.rq_temperature := (3 # 10)%Q |}]
      (Ok tt).
Proof. reflexivity. Qed.

Example default_budgets_small_prompt :
  Claude.calculateTokenBudgets Claude.default_config 1000
  = {| Claude.contextWindow := 200000; Claude.promptTokens := 1000;
       Claude.availableTokens := 199000; Claude.maxTokens := 128000;
       Claude.thinkingBudget := 20000; Claude.desiredOutputTokens := 8000;
       Claude.betasMaxTokens := 128000; Claude.configuredThinkingBudget := 32000;
       Claude.capThinkingBudget := true; Claude.isPromptTooLarge := true |}.
Proof. reflexivity. Qed.

(** ** Token budgets *)

Section TokenBudgets.
Import Claude.

(** The budget record is determined by four numbers. *)
Lemma availableTokens_spec (c : Config) (p : Z) :
  availableTokens (calculateTokenBudgets c p) = context_window c - p.
Proof. reflexivity. Qed.

Lemma maxTokens_spec (c : Config) (p : Z) :
  maxTokens (calculateTokenBudgets c p) =
    if Z.min (context_window c - p) (betas_max_tokens c) >? context_window c
    then context_window c - p
    else Z.min (context_window c - p) (betas_max_tokens c).
Proof. reflexivity. Qed.

Lemma thinkingBudget_spec (c : Config) (p : Z) :
  thinkingBudget (calculateTokenBudgets c p) =
    Z.min (maxTokens (calculateTokenBudgets c p) - desired_output_tokens c)
          (max_thinking_budget c).
Proof.
  unfold calculateTokenBudgets; cbn.
  destruct (Z.gtb_spec
    ((if Z.min (context_window c - p) (betas_max_tokens c) >? context_window c
      then context_window c - p
      else Z.min (context_window c - p) (betas_max_tokens c))
     - desired_output_tokens c) (max_thinking_budget c)); lia.
Qed.

Lemma isPromptTooLarge_spec (c : Config) (p : Z) :
  isPromptTooLarge (calculateTokenBudgets c p) = true <->
  thinkingBudget (calculateTokenBudgets c p) < thinking_budget_tokens c.
Proof. unfold calculateTokenBudgets; cbn. apply Z.ltb_lt. Qed.

(** When the prompt count is a token count (or the -1 of a failed count),
    or when the API limit is within the context window, the second
    assignment of [maxTokens] changes nothing. *)
Lemma maxTokens_min (c : Config) (p : Z) :
  -1 <= p \/ betas_max_tokens c <= context_window c ->
  maxTokens (calculateTokenBudgets c p) =
    Z.min (context_window c - p) (betas_max_tokens c).
Proof.
  intros Hp. rewrite maxTokens_spec.
  destruct (Z.gtb_spec (Z.min (context_window c - p) (betas_max_tokens c))
                       (context_window c)); lia.
Qed.

(** C3, as the code has it: a prompt larger than the context window gets a
    negative [availableTokens] (the difference, not clamped), and is flagged
    too large whenever the desired output and the configured thinking
    budget are not negative. *)
Theorem oversized_prompt_is_flagged (c : Config) (p : Z) :
  context_window c < p ->
  0 <= desired_output_tokens c ->
  0 <= thinking_budget_tokens c ->
  availableTokens (calculateTokenBudgets c p) = context_window c - p /\
  availableTokens (calculateTokenBudgets c p) < 0 /\
  isPromptTooLarge (calculateTokenBudgets c p) = true.
Proof.
  intros Hp Hd Ht. rewrite availableTokens_spec.
  split; [reflexivity | split; [lia |]].
  apply isPromptTooLarge_spec. rewrite thinkingBudget_spec, maxTokens_spec.
  destruct (Z.gtb_spec (Z.min (context_window c - p) (betas_max_tokens c))
                       (context_window c)); lia.
Qed.

Lemma oversized_prompt_is_flagged_witness :
  availableTokens (calculateTokenBudgets default_config 200001) = -1 /\
  availableTokens (calculateTokenBudgets default_config 200001) < 0 /\
  isPromptTooLarge (calculateTokenBudgets default_config 200001) = true.
Proof.
  apply (oversized_prompt_is_flagged default_config 200001); simpl; lia.
Defined.

(** C3 as stated fails: one token over the window, the available tokens
    are -1, not 0. *)
Lemma available_tokens_not_clamped :
  context_window default_config < 200001 /\
  availableTokens (calculateTokenBudgets default_config 200001) = -1 /\
  availableTokens (calculateTokenBudgets default_config 200001) <> 0.
Proof.
  rewrite availableTokens_spec.
  change (context_window default_config) with 200000. lia.
Qed.

(** C5: for a prompt that fits the window, the output budget is not
    negative, the thinking budget is below it, and the output budget is at
    most the smaller of the available tokens and the API limit. The
    configuration has a non-negative API limit and a positive desired
    output; the prompt count is a token count (or the -1 of a failed
    count), or the API limit is within the context window, as it is by
    default. *)
Theorem budgets_within_window (c : Config) (p : Z) :
  p <= context_window c ->
  -1 <= p \/ betas_max_tokens c <= context_window c ->
  0 <= betas_max_tokens c ->
  0 < desired_output_tokens c ->
  0 <= maxTokens (calculateTokenBudgets c p) /\
  thinkingBudget (calculateTokenBudgets c p) < maxTokens (calculateTokenBudgets c p) /\
  maxTokens (calculateTokenBudgets c p)
    <= Z.min (availableTokens (calculateTokenBudgets c p)) (betas_max_tokens c).
Proof.
  intros Hw Hp Hb Hd.
  rewrite thinkingBudget_spec, availableTokens_spec, (maxTokens_min c p Hp). lia.
Qed.

Lemma budgets_within_window_witness :
  0 <= maxTokens (calculateTokenBudgets default_config 150000) /\
  thinkingBudget (calculateTokenBudgets default_config 150000)
    < maxTokens (calculateTokenBudgets default_config 150000) /\
  maxTokens (calculateTokenBudgets default_config 150000)
    <= Z.min (availableTokens (calculateTokenBudgets default_config 150000))
             (betas_max_tokens default_config).
Proof.
  apply (budgets_within_window default_config 150000); simpl; lia.
Defined.

(** With the constructor's defaults the same holds for every prompt count
    up to the window. *)
Lemma budgets_within_window_default (p : Z) :
  p <= context_window default_config ->
  0 <= maxTokens (calculateTokenBudgets default_config p) /\
  thinkingBudget (calculateTokenBudgets default_config p)
    < maxTokens (calculateTokenBudgets default_config p) /\
  maxTokens (calculateTokenBudgets default_config p)
    <= Z.min (availableTokens (calculateTokenBudgets default_config p))
             (betas_max_tokens default_config).
Proof.
  intros Hw.
  assert (Hlimit : betas_max_tokens default_config <= context_window default_config)
    by (simpl; lia).
  rewrite thinkingBudget_spec, availableTokens_spec,
    (maxTokens_min default_config p (or_intror Hlimit)).
  simpl in *. lia.
Qed.

(** C6, as the code has it: when the desired visible output exceeds the
    output budget, the thinking budget is the (negative) difference, cut at
    the ceiling; it is not raised to 0. *)
Theorem thinking_budget_below_zero (c : Config) (p : Z) :
  maxTokens (calculateTokenBudgets c p) < desired_output_tokens c ->
  thinkingBudget (calculateTokenBudgets c p)
    = Z.min (maxTokens (calculateTokenBudgets c p) - desired_output_tokens c)
            (max_thinking_budget c) /\
  thinkingBudget (calculateTokenBudgets c p) < 0.
Proof.
  intros H. rewrite thinkingBudget_spec. split; [reflexivity | lia].
Qed.

Lemma thinking_budget_below_zero_witness :
  thinkingBudget (calculateTokenBudgets default_config 195000)
    = Z.min (maxTokens (calculateTokenBudgets default_config 195000)
             - desired_output_tokens default_config)
            (max_thinking_budget default_config) /\
  thinkingBudget (calculateTokenBudgets default_config 195000) < 0.
Proof.
  apply (thinking_budget_below_zero default_config 195000). simpl. lia.
Defined.

(** C6 as stated fails: with 5,000 tokens left and 8,000 desired, the
    thinking budget returned is -3,000. *)
Lemma thinking_budget_not_clamped :
  maxTokens (calculateTokenBudgets default_config 195000)
    < desired_output_tokens default_config /\
  thinkingBudget (calculateTokenBudgets default_config 195000) = -3000 /\
  ~ 0 <= thinkingBudget (calculateTokenBudgets default_config 195000).
Proof.
  assert (Hm : maxTokens (calculateTokenBudgets default_config 195000) = 5000)
    by reflexivity.
  assert (Ht : thinkingBudget (calculateTokenBudgets default_config 195000) = -3000)
    by reflexivity.
  rewrite Hm, Ht. change (desired_output_tokens default_config) with 8000. lia.
Qed.

(** C7: the worked scenario. *)
Theorem scenario_budgets (ceiling : Z) :
  2000 <= ceiling ->
  availableTokens (calculateTokenBudgets (scenario_config ceiling) 190000) = 10000 /\
  maxTokens (calculateTokenBudgets (scenario_config ceiling) 190000) = 10000 /\
  thinkingBudget (calculateTokenBudgets (scenario_config ceiling) 190000) = 2000 /\
  isPromptTooLarge (calculateTokenBudgets (scenario_config ceiling) 190000) = true.
Proof.
  intros H. split; [reflexivity | split; [reflexivity |]].
  assert (Ht : thinkingBudget (calculateTokenBudgets (scenario_config ceiling) 190000) = 2000).
  { rewrite thinkingBudget_spec.
    change (maxTokens (calculateTokenBudgets (scenario_config ceiling) 190000)) with 10000.
    change (desired_output_tokens (scenario_config ceiling)) with 8000.
    change (max_thinking_budget (scenario_config ceiling)) with ceiling. lia. }
  split; [exact Ht |].
  apply isPromptTooLarge_spec. rewrite Ht.
  change (thinking_budget_tokens (scenario_config ceiling)) with 20000. lia.
Qed.

Lemma scenario_budgets_witness :
  availableTokens (calculateTokenBudgets (scenario_config 20000) 190000) = 10000 /\
  maxTokens (calculateTokenBudgets (scenario_config 20000) 190000) = 10000 /\
  thinkingBudget (calculateTokenBudgets (scenario_config 20000) 190000) = 2000 /\
  isPromptTooLarge (calculateTokenBudgets (scenario_config 20000) 190000) = true.
Proof. apply (scenario_budgets 20000). lia. Defined.

End TokenBudgets.

(** ** The provider clients *)

Section Clients.

(** The requests of an initialised Claude client: the token count, then
    one stream request built by [modelOptions]. *)
Lemma claude_calls (sdk : Claude.Sdk) (c : Claude.Client) (prompt : string)
    (noCache includeMetaData : bool) (options : Claude.StreamOptions) :
  Claude.notInitialized c = false ->
  calls (Claude.streamWithThinking sdk c prompt noCache includeMetaData options)
  = [Claude.CallCountTokens (Claude.model_name (Claude.config c))
       (Claude.fullPrompt c prompt noCache)
       (Claude.thinking_budget_tokens (Claude.config c));
     Claude.CallStream (Claude.modelOptions c (Claude.fullPrompt c prompt noCache))].
Proof.
  intros Hinit. unfold Claude.streamWithThinking, Claude.countTokens.
  rewrite Hinit.
  destruct (Claude.sdk_stream sdk _); reflexivity.
Qed.

(** C1, as the code has it: the stream request of the Claude client carries
    the configured [max_tokens] and [max_thinking_budget], whatever the
    prompt's token count; it is the only stream request of the call. *)
Theorem request_carries_configured_limits
    (sdk : Claude.Sdk) (c : Claude.Client) (prompt : string)
    (noCache includeMetaData : bool) (options : Claude.StreamOptions) :
  Claude.notInitialized c = false ->
  exists counting request,
    calls (Claude.streamWithThinking sdk c prompt noCache includeMetaData options)
      = [counting; Claude.CallStream request] /\
    (forall r, counting <> Claude.CallStream r) /\
    Claude.mo_max_tokens request = Claude.max_tokens (Claude.config c) /\
    Claude.mo_budget_tokens request = Claude.max_thinking_budget (Claude.config c).
Proof.
  intros Hinit. rewrite (claude_calls _ _ _ _ _ _ Hinit).
  eexists _, _. split; [reflexivity |].
  split; [discriminate | split; reflexivity].
Qed.

Lemma request_carries_configured_limits_witness :
  exists counting request,
    calls (Claude.streamWithThinking Examples.claude_sdk Examples.claude_ready
             "Edit this." false true {| Claude.includeThinking := false |})
      = [counting; Claude.CallStream request] /\
    (forall r, counting <> Claude.CallStream r) /\
    Claude.mo_max_tokens request = 32000 /\
    Claude.mo_budget_tokens request = 20000.
Proof.
  exact (request_carries_configured_limits Examples.claude_sdk Examples.claude_ready
           "Edit this." false true {| Claude.includeThinking := false |} eq_refl).
Defined.

(** C1 as stated fails: for a prompt of 190,000 tokens the calculator gives
    10,000 output tokens and a thinking budget of 2,000, and the request
    asks for 32,000 and 20,000, so that prompt and requested output together
    exceed the context window; the metadata printed at the end of the
    stream reports the computed pair. *)
Lemma request_differs_from_computed_budget :
  let o := Claude.streamWithThinking Examples.claude_sdk Examples.claude_ready
             "Edit this." false true {| Claude.includeThinking := false |} in
  let b := Claude.calculateTokenBudgets Claude.default_config 190000 in
  (exists content,
     last (calls o)
     = Some (Claude.CallStream
               {| Claude.mo_model := "claude-3-7-sonnet-20250219";
                  Claude.mo_max_tokens := 32000;
                  Claude.mo_content := content;
                  Claude.mo_budget_tokens := 20000 |})) /\
  Claude.maxTokens b = 10000 /\
  Claude.thinkingBudget b = 2000 /\
  Claude.context_window Claude.default_config < 190000 + 32000 /\
  In (Claude.OutMetaData "claude-3-7-sonnet-20250219" 190000 10000 2000) (outputs o).
Proof.
  cbn zeta. split; [eexists; reflexivity |].
  split; [reflexivity | split; [reflexivity |]].
  split; [reflexivity |].
  vm_compute. tauto.
Qed.

(** C4, as the code has it: every client refuses a call without a key
    before any request to the provider; the two OpenAI clients refuse a
    call without a loaded manuscript, with another message, before any
    request; the Claude client sends the bare instruction then. *)
Theorem missing_key_and_context_fail_fast :
  (forall sdk c prompt noCache includeMetaData options,
     Claude.notInitialized c = true ->
     Claude.streamWithThinking sdk c prompt noCache includeMetaData options
     = mkOutcome [] [] (Throw "Claude API client not initialized - API key missing")) /\
  (forall sdk c instruction options,
     OpenAI.notInitialized c = true ->
     OpenAI.streamWithThinking sdk c instruction options
     = mkOutcome [] [] (Throw "OpenAI client not initialized - missing API key")) /\
  (forall sdk c instruction options,
     OpenAICompletions.notInitialized c = true ->
     OpenAICompletions.streamWithThinking sdk c instruction options
     = mkOutcome [] [] (Throw "OpenAI client not initialized - missing API key")) /\
  (forall sdk c instruction options,
     OpenAI.notInitialized c = false ->
     truthy (OpenAI.prompt c) = false ->
     OpenAI.streamWithThinking sdk c instruction options
     = mkOutcome [] []
         (Throw "No manuscript prompt loaded. Call prepareFileAndCache() first.")) /\
  (forall sdk c instruction options,
     OpenAICompletions.notInitialized c = false ->
     truthy (OpenAICompletions.prompt c) = false ->
     OpenAICompletions.streamWithThinking sdk c instruction options
     = mkOutcome [] []
         (Throw "No manuscript prompt loaded. Call prepareFileAndCache() first.")) /\
  "OpenAI client not initialized - missing API key"
    <> "No manuscript prompt loaded. Call prepareFileAndCache() first." /\
  (forall sdk c prompt noCache includeMetaData options,
     Claude.notInitialized c = false ->
     truthy (Claude.manuscriptContent c) = false ->
     exists request,
       last (calls (Claude.streamWithThinking sdk c prompt noCache includeMetaData options))
       = Some (Claude.CallStream request) /\
       Claude.mo_content request = prompt).
Proof.
  repeat apply conj.
  - intros sdk c prompt noCache includeMetaData options H.
    unfold Claude.streamWithThinking. now rewrite H.
  - intros sdk c instruction options H.
    unfold OpenAI.streamWithThinking. now rewrite H.
  - intros sdk c instruction options H.
    unfold OpenAICompletions.streamWithThinking. now rewrite H.
  - intros sdk c instruction options H1 H2.
    unfold OpenAI.streamWithThinking. now rewrite H1, H2.
  - intros sdk c instruction options H1 H2.
    unfold OpenAICompletions.streamWithThinking. now rewrite H1, H2.
  - discriminate.
  - intros sdk c prompt noCache includeMetaData options H1 H2.
    rewrite (claude_calls _ _ _ _ _ _ H1).
    eexists; split; [reflexivity |]. cbn.
    unfold Claude.fullPrompt.
    destruct (Claude.manuscriptContent c) as [content|]; [| reflexivity].
    now rewrite H2.
Qed.

Lemma missing_key_and_context_fail_fast_witness :
  Claude.streamWithThinking Examples.claude_sdk Examples.claude_without_key
    "Edit this." false true {| Claude.includeThinking := false |}
  = mkOutcome [] [] (Throw "Claude API client not initialized - API key missing") /\
  OpenAI.streamWithThinking Examples.openai_sdk Examples.openai_without_key "Edit this."
    {| OpenAI.temperature := None; OpenAI.includeMetaData := true |}
  = mkOutcome [] [] (Throw "OpenAI client not initialized - missing API key") /\
  OpenAICompletions.streamWithThinking Examples.completions_sdk
    Examples.completions_without_key "Edit this."
    {| OpenAICompletions.max_tokens := None; OpenAICompletions.temperature := None;
       OpenAICompletions.includeMetaData := true |}
  = mkOutcome [] [] (Throw "OpenAI client not initialized - missing API key") /\
  OpenAI.streamWithThinking Examples.openai_sdk Examples.openai_ready "Edit this."
    {| OpenAI.temperature := None; OpenAI.includeMetaData := true |}
  = mkOutcome [] []
      (Throw "No manuscript prompt loaded. Call prepareFileAndCache() first.") /\
  OpenAICompletions.streamWithThinking Examples.completions_sdk
    Examples.completions_ready "Edit this."
    {| OpenAICompletions.max_tokens := None; OpenAICompletions.temperature := None;
       OpenAICompletions.includeMetaData := true |}
  = mkOutcome [] []
      (Throw "No manuscript prompt loaded. Call prepareFileAndCache() first.") /\
  exists request,
    last (calls (Claude.streamWithThinking Examples.claude_sdk Examples.claude_ready
                   "Edit this." false true {| Claude.includeThinking := false |}))
    = Some (Claude.CallStream request) /\
    Claude.mo_content request = "Edit this.".
Proof.
  destruct missing_key_and_context_fail_fast
    as (Hclaude & Hopenai & Hcompl & Hopenai_ctx & Hcompl_ctx & _ & Hclaude_ctx).
  split; [apply Hclaude; reflexivity |].
  split; [apply Hopenai; reflexivity |].
  split; [apply Hcompl; reflexivity |].
  split; [apply Hopenai_ctx; reflexivity |].
  split; [apply Hcompl_ctx; reflexivity |].
  apply Hclaude_ctx; reflexivity.
Defined.

(** C4 as stated fails for the Claude client: with a key and no manuscript
    loaded, the call counts tokens, opens the stream and completes. *)
Lemma claude_streams_without_manuscript :
  let o := Claude.streamWithThinking Examples.claude_sdk Examples.claude_ready
             "Edit this." false true {| Claude.includeThinking := false |} in
  Claude.manuscriptContent Examples.claude_ready = None /\
  result o = Ok tt /\
  In (Claude.CallStream (Claude.modelOptions Examples.claude_ready "Edit this.")) (calls o) /\
  In (Claude.OutText "Chapter 1 drags.") (outputs o).
Proof.
  cbn zeta. split; [reflexivity |]. split; [reflexivity |].
  split; vm_compute; tauto.
Qed.

End Clients.

(** ** The tool-run handler *)

Section ToolRuns.
Import Main.

(** *** What the handler and the turns of the event loop do *)

Lemma sendIfLive_deliver (n : Notification) (w : World) :
  sendIfLive n w = (Ok tt, deliver n w).
Proof. reflexivity. Qed.

Lemma sendOutput_deliver (runId text : string) (w : World) :
  sendOutput runId text w = (Ok tt, deliver (ToolOutput runId text) w).
Proof. reflexivity. Qed.

Lemma emittedTexts_app (xs ys : list Action) :
  emittedTexts (xs ++ ys) = emittedTexts xs ++ emittedTexts ys.
Proof.
  induction xs as [| [text | tool run p] rest IH]; cbn; [reflexivity | |];
    now rewrite IH.
Qed.

Lemma recordAll_app (xs ys : list Action) (cache : gmap string (list CachedFile)) :
  recordAll cache (xs ++ ys) = recordAll (recordAll cache xs) ys.
Proof.
  revert cache. induction xs as [| [text | tool run p] rest IH]; intros cache; cbn;
    [reflexivity | |]; apply IH.
Qed.

(** What a tool does until its next suspension: its texts go to a live
    window, its files into the cache; nothing is thrown. *)
Lemma actAll_spec (runId : string) (actions : list Action) (w : World) :
  actAll (sendOutput runId) actions w
  = (Ok tt,
     withCache (recordAll (fileCache w) actions)
       (withSent
          (sent w ++ if windowLive w
                     then map (ToolOutput runId) (emittedTexts actions) else [])
          w)).
Proof.
  revert w. induction actions as [| [text | tool run p] rest IH]; intros w.
  - destruct w as [[] sent0 registry cache replies0 runs0]; cbn;
      now rewrite app_nil_r.
  - cbn [actAll act]. unfold bind, sendOutput, sendIfLive. rewrite IH.
    destruct w as [[] sent0 registry cache replies0 runs0]; cbn;
      now rewrite <- ?app_assoc.
  - cbn [actAll act]. unfold bind. rewrite IH.
    destruct w as [[] sent0 registry cache replies0 runs0]; reflexivity.
Qed.

(** The handler's function from its [await] on. *)
Lemma toolRunSettled_spec (r : Run) (w : World) :
  toolRunSettled r w
  = (Ok tt,
     deliver (terminalOf (run_runId r) (run_toolName r) (run_outcome r) (fileCache w)) w).
Proof.
  unfold toolRunSettled, try_catch, bind, terminalOf.
  destruct (run_outcome r) as [[| files] | message]; reflexivity.
Qed.

(** The start of a run of a tool that is not registered: the start text,
    then the error, and no run in flight. *)
Lemma startToolRun_not_found (toolSystem : ToolSystem) (uuid toolName : string)
    (optionValues : OptionValues) (w : World) :
  toolName ∉ toolRegistry w ->
  startToolRun toolSystem uuid toolName optionValues w
  = (Ok uuid,
     deliver (ToolError uuid ("Tool not found: " +:+ toolName))
       (deliver (ToolOutput uuid (startingText toolName)) w)).
Proof.
  intros Hnot.
  unfold startToolRun, async_call, toolRun, try_catch, bind, getTool, ret.
  rewrite sendOutput_deliver. cbn [fst snd].
  assert (Hreg : toolRegistry (deliver (ToolOutput uuid (startingText toolName)) w)
                 = toolRegistry w)
    by (unfold deliver; now destruct w as [[] ? ? ? ? ?]).
  rewrite Hreg, bool_decide_eq_false_2 by exact Hnot.
  unfold throw. rewrite sendIfLive_deliver. reflexivity.
Qed.

(** The start of a run of a registered tool: the start text, the cache
    cleared for the tool, what the tool does at once, and the run in
    flight. *)
Lemma startToolRun_found (toolSystem : ToolSystem) (uuid toolName : string)
    (optionValues : OptionValues) (w : World) :
  toolName ∈ toolRegistry w ->
  let b := toolSystem toolName optionValues uuid in
  startToolRun toolSystem uuid toolName optionValues w
  = (Ok uuid,
     withRuns
       (runs w ++ [{| run_runId := uuid; run_toolName := toolName;
                      run_later := later b; run_outcome := outcome b;
                      run_settled := false |}])
       (withCache (recordAll (clear (fileCache w) toolName) (atOnce b))
          (withSent
             (sent w ++ if windowLive w
                        then ToolOutput uuid (startingText toolName)
                             :: map (ToolOutput uuid) (emittedTexts (atOnce b))
                        else [])
             w))).
Proof.
  intros Hin. cbn zeta.
  unfold startToolRun, async_call, toolRun, try_catch, bind, getTool, ret,
    executeToolById, await.
  rewrite sendOutput_deliver. cbn [fst snd].
  assert (Hreg : toolRegistry (deliver (ToolOutput uuid (startingText toolName)) w)
                 = toolRegistry w)
    by (unfold deliver; now destruct w as [[] ? ? ? ? ?]).
  rewrite Hreg, bool_decide_eq_true_2 by exact Hin.
  unfold bind. rewrite actAll_spec. cbn [fst snd].
  unfold deliver.
  destruct w as [[] sent0 registry cache replies0 runs0]; cbn;
    now rewrite <- ?app_assoc.
Qed.

(** A turn in which a run goes on. *)
Lemma resume_spec (i : nat) (w : World) :
  resume i w
  = (Ok tt,
     match runs w !! i with
     | None => w
     | Some r =>
         if run_settled r then w
         else
           match run_later r with
           | chunk :: rest =>
               withRuns
                 (<[i := {| run_runId := run_runId r; run_toolName := run_toolName r;
                            run_later := rest; run_outcome := run_outcome r;
                            run_settled := false |}]> (runs w))
                 (withCache (recordAll (fileCache w) chunk)
                    (withSent
                       (sent w ++ if windowLive w
                                  then map (ToolOutput (run_runId r)) (emittedTexts chunk)
                                  else [])
                       w))
           | [] =>
               withRuns
                 (<[i := {| run_runId := run_runId r; run_toolName := run_toolName r;
                            run_later := []; run_outcome := run_outcome r;
                            run_settled := true |}]> (runs w))
                 (deliver (terminalOf (run_runId r) (run_toolName r) (run_outcome r)
                             (fileCache w)) w)
           end
     end).
Proof.
  unfold resume. destruct (runs w !! i) as [r |]; [| reflexivity].
  destruct (run_settled r); [reflexivity |].
  destruct (run_later r) as [| chunk rest].
  - rewrite toolRunSettled_spec. cbn [snd]. unfold deliver.
    now destruct (windowLive w).
  - rewrite actAll_spec. reflexivity.
Qed.

Ltac turn_cases toolSystem t w :=
  let uuid := fresh "uuid" in
  let toolName := fresh "toolName" in
  let optionValues := fresh "optionValues" in
  let i := fresh "i" in
  let r := fresh "r" in
  destruct t as [uuid toolName optionValues | ? | ? | i]; cbn [turn];
  [ destruct (decide (toolName ∈ toolRegistry w)) as [?Hin | ?Hnot];
    [ rewrite (startToolRun_found toolSystem uuid toolName optionValues w)
        by assumption
    | rewrite (startToolRun_not_found toolSystem uuid toolName optionValues w)
        by assumption ]
  | unfold stopTool
  |
  | rewrite resume_spec;
    destruct (runs w !! i) as [r |] eqn:?Hlook;
    [ destruct (run_settled r) eqn:?Hsettled;
      [| destruct (run_later r) as [| ?chunk ?rest] eqn:?Hlater ] |] ];
  cbn zeta; cbn [snd].

Lemma deliver_fields (n : Notification) (w : World) :
  windowLive (deliver n w) = windowLive w /\
  toolRegistry (deliver n w) = toolRegistry w /\
  fileCache (deliver n w) = fileCache w /\
  replies (deliver n w) = replies w /\
  runs (deliver n w) = runs w /\
  sent (deliver n w) = sent w ++ if windowLive w then [n] else [].
Proof.
  unfold deliver. destruct w as [[] sent0 registry cache replies0 runs0]; cbn;
    rewrite ?app_nil_r; repeat split; reflexivity.
Qed.

(** Turns only add to what has been sent. *)
Lemma turn_sent (toolSystem : ToolSystem) (t : Turn) (w : World) :
  sent (turn toolSystem t w) = sent w ++ sendsOf toolSystem t w.
Proof.
  assert (H : exists added, sent (turn toolSystem t w) = sent w ++ added).
  { turn_cases toolSystem t w; unfold deliver;
      destruct w as [[] sent0 registry cache replies0 runs0]; cbn;
      rewrite <- ?app_assoc; eauto using app_nil_r, eq_sym. }
  destruct H as [added H]. unfold sendsOf. rewrite H.
  now rewrite drop_app_length.
Qed.

Lemma turn_windowLive (toolSystem : ToolSystem) (t : Turn) (w : World) :
  windowLive (turn toolSystem t w)
  = match t with WindowChanges live => live | _ => windowLive w end.
Proof.
  turn_cases toolSystem t w; unfold deliver;
    destruct w as [[] sent0 registry cache replies0 runs0]; reflexivity.
Qed.

Lemma turn_toolRegistry (toolSystem : ToolSystem) (t : Turn) (w : World) :
  toolRegistry (turn toolSystem t w) = toolRegistry w.
Proof.
  turn_cases toolSystem t w; unfold deliver;
    destruct w as [[] sent0 registry cache replies0 runs0]; reflexivity.
Qed.

(** A turn that is not a turn of the run at place [k] leaves that run as
    it is. *)
Lemma turn_other_run (toolSystem : ToolSystem) (t : Turn) (w : World)
    (k : nat) (r : Run) :
  runs w !! k = Some r ->
  t <> Resume k ->
  runs (turn toolSystem t w) !! k = Some r.
Proof.
  intros Hk Hother.
  turn_cases toolSystem t w;
    rewrite ?(proj1 (proj2 (proj2 (proj2 (proj2 (deliver_fields _ _)))))); cbn [runs withRuns withReplies withWindow];
    try exact Hk.
  - now apply lookup_app_l_Some.
  - rewrite list_lookup_insert_ne; [exact Hk | congruence].
  - rewrite list_lookup_insert_ne; [exact Hk | congruence].
Qed.

Lemma sendsOf_start_found (toolSystem : ToolSystem) (uuid toolName : string)
    (optionValues : OptionValues) (w : World) :
  toolName ∈ toolRegistry w ->
  sendsOf toolSystem (StartToolRun uuid toolName optionValues) w
  = if windowLive w
    then ToolOutput uuid (startingText toolName)
         :: map (ToolOutput uuid)
              (emittedTexts (atOnce (toolSystem toolName optionValues uuid)))
    else [].
Proof.
  intros Hin. unfold sendsOf. cbn [turn].
  rewrite (startToolRun_found _ _ _ _ _ Hin). cbn zeta. cbn [snd withRuns withCache withSent sent].
  now rewrite drop_app_length.
Qed.

Lemma sendsOf_start_not_found (toolSystem : ToolSystem) (uuid toolName : string)
    (optionValues : OptionValues) (w : World) :
  toolName ∉ toolRegistry w ->
  sendsOf toolSystem (StartToolRun uuid toolName optionValues) w
  = if windowLive w
    then [ToolOutput uuid (startingText toolName);
          ToolError uuid ("Tool not found: " +:+ toolName)]
    else [].
Proof.
  intros Hnot. unfold sendsOf. cbn [turn].
  rewrite (startToolRun_not_found _ _ _ _ _ Hnot). cbn [snd]. unfold deliver.
  destruct w as [[] sent0 registry cache replies0 runs0]; cbn;
    rewrite <- ?app_assoc; [| rewrite <- (app_nil_r sent0) at 2];
    now rewrite drop_app_length.
Qed.

Lemma sendsOf_resume_part (toolSystem : ToolSystem) (k : nat) (w : World)
    (r : Run) (chunk : list Action) (rest : list (list Action)) :
  runs w !! k = Some r -> run_settled r = false -> run_later r = chunk :: rest ->
  sendsOf toolSystem (Resume k) w
  = if windowLive w then map (ToolOutput (run_runId r)) (emittedTexts chunk) else [].
Proof.
  intros Hk Hsettled Hlater. unfold sendsOf. cbn [turn].
  rewrite resume_spec, Hk, Hsettled, Hlater.
  cbn [snd withRuns withCache withSent sent].
  now rewrite drop_app_length.
Qed.

Lemma sendsOf_resume_settle (toolSystem : ToolSystem) (k : nat) (w : World) (r : Run) :
  runs w !! k = Some r -> run_settled r = false -> run_later r = [] ->
  sendsOf toolSystem (Resume k) w
  = if windowLive w
    then [terminalOf (run_runId r) (run_toolName r) (run_outcome r) (fileCache w)]
    else [].
Proof.
  intros Hk Hsettled Hlater. unfold sendsOf. cbn [turn].
  rewrite resume_spec, Hk, Hsettled, Hlater.
  cbn [snd withRuns sent].
  rewrite (proj2 (proj2 (proj2 (proj2 (proj2 (deliver_fields _ _)))))).
  now rewrite drop_app_length.
Qed.

Lemma resume_or_other (t : Turn) (k : nat) : t = Resume k \/ t <> Resume k.
Proof.
  destruct t as [? ? ? | ? | ? | i]; try (right; discriminate).
  destruct (Nat.eq_dec i k) as [-> | Hne]; [now left | right; congruence].
Qed.

(** A run that has settled sends nothing more. *)
Lemma settled_run_is_silent (toolSystem : ToolSystem) (k : nat) (turns : list Turn) :
  forall (w : World) (r : Run),
    runs w !! k = Some r -> run_settled r = true ->
    deliveredBy toolSystem k turns w = [].
Proof.
  induction turns as [| t rest IH]; intros w r Hk Hsettled; [reflexivity |].
  cbn [deliveredBy].
  destruct (resume_or_other t k) as [-> | Hother].
  - rewrite Nat.eqb_refl.
    assert (Hsame : turn toolSystem (Resume k) w = w)
      by (cbn [turn]; now rewrite resume_spec, Hk, Hsettled).
    unfold sendsOf. rewrite Hsame, drop_all. cbn [app].
    now apply (IH w r).
  - rewrite (IH _ r) by (auto using turn_other_run).
    rewrite app_nil_r.
    destruct t as [? ? ? | ? | ? | i]; try reflexivity.
    destruct (Nat.eqb_spec i k) as [-> | Hne]; [contradiction | reflexivity].
Qed.

Lemma sublist_when (A : Type) (live : bool) (l : list A) :
  sublist (if live then l else []) l.
Proof. destruct live; [reflexivity | apply sublist_nil_l]. Qed.


(** What the turns of a run in flight send, whatever else happens in
    between: texts of the tool, in the tool's order, then the closing
    notification, if the window is live when the run settles. The window
    misses what is sent while it is closed; if no other run takes a turn,
    the cache at the end of the run is the one at its start with the files
    the run recorded. *)
Lemma run_in_flight (toolSystem : ToolSystem) (k : nat) (turns : list Turn) :
  forall (w : World) (r : Run),
    runs w !! k = Some r -> run_settled r = false ->
    exists before cache,
      deliveredBy toolSystem k turns w
      = before ++ match liveAtSettle k (length (run_later r)) (windowLive w) turns with
                  | Some true =>
                      [terminalOf (run_runId r) (run_toolName r) (run_outcome r) cache]
                  | _ => []
                  end /\
      sublist before
        (map (ToolOutput (run_runId r)) (emittedTexts (concat (run_later r)))) /\
      (staysOpen (windowLive w) turns = true ->
       (length (run_later r) <= resumesOf k turns)%nat ->
       before = map (ToolOutput (run_runId r)) (emittedTexts (concat (run_later r)))) /\
      (forallb (onlyRun k) turns = true ->
       cache = recordAll (fileCache w) (concat (run_later r))).
Proof.
  induction turns as [| t rest IH]; intros w r Hk Hsettled.
  { exists [], (recordAll (fileCache w) (concat (run_later r))). cbn.
    split; [reflexivity |]. split; [apply sublist_nil_l |].
    split; [| reflexivity].
    intros _ Hlen. destruct (run_later r); [reflexivity | cbn in Hlen; lia]. }
  destruct (resume_or_other t k) as [-> | Hother].
  - cbn [deliveredBy liveAtSettle resumesOf staysOpen forallb onlyRun].
    rewrite Nat.eqb_refl.
    destruct (run_later r) as [| chunk later'] eqn:Hlater.
    + (* the promise settles *)
      rewrite (sendsOf_resume_settle _ _ _ _ Hk Hsettled Hlater).
      rewrite (settled_run_is_silent toolSystem k rest _
                 {| run_runId := run_runId r; run_toolName := run_toolName r;
                    run_later := []; run_outcome := run_outcome r;
                    run_settled := true |}).
      * exists [], (fileCache w). cbn.
        split; [now destruct (windowLive w) |].
        split; [constructor |]. split; reflexivity.
      * cbn [turn]. rewrite resume_spec, Hk, Hsettled, Hlater.
        cbn [snd runs withRuns]. apply list_lookup_insert_eq.
        now apply lookup_lt_Some in Hk.
      * reflexivity.
    + (* the tool goes on *)
      rewrite (sendsOf_resume_part _ _ _ _ _ _ Hk Hsettled Hlater).
      set (r' := {| run_runId := run_runId r; run_toolName := run_toolName r;
                    run_later := later'; run_outcome := run_outcome r;
                    run_settled := false |}).
      assert (Hw' : turn toolSystem (Resume k) w
                    = withRuns (<[k := r']> (runs w))
                        (withCache (recordAll (fileCache w) chunk)
                           (withSent
                              (sent w ++ if windowLive w
                                         then map (ToolOutput (run_runId r))
                                                (emittedTexts chunk)
                                         else [])
                              w)))
        by (cbn [turn]; now rewrite resume_spec, Hk, Hsettled, Hlater).
      destruct (IH (turn toolSystem (Resume k) w) r') as (before & cache & Hdel & Hsub & Hall & Hsolo).
      { rewrite Hw'. cbn [runs withRuns]. apply list_lookup_insert_eq.
        now apply lookup_lt_Some in Hk. }
      { reflexivity. }
      assert (Hlive' : windowLive (turn toolSystem (Resume k) w) = windowLive w)
        by apply turn_windowLive.
      assert (Hcache' : fileCache (turn toolSystem (Resume k) w)
                        = recordAll (fileCache w) chunk)
        by now rewrite Hw'.
      rewrite Hlive' in Hdel, Hall. rewrite Hcache' in Hsolo.
      cbn [run_later run_runId run_toolName run_outcome r'] in Hdel, Hsub, Hall, Hsolo.
      exists ((if windowLive w
               then map (ToolOutput (run_runId r)) (emittedTexts chunk) else [])
              ++ before), cache.
      cbn [length concat]. rewrite emittedTexts_app, map_app.
      split; [rewrite Hdel; now rewrite app_assoc |].
      split; [apply sublist_app; [apply sublist_when | exact Hsub] |].
      split.
      * intros Hopen Hlen. apply andb_true_iff in Hopen as [Hlive Hopen].
        rewrite Hlive in *. rewrite Hall; [reflexivity | exact Hopen | lia].
      * intros Honly. rewrite recordAll_app. now apply Hsolo.
  - assert (Hk' : runs (turn toolSystem t w) !! k = Some r)
      by (auto using turn_other_run).
    destruct (IH _ _ Hk' Hsettled) as (before & cache & Hdel & Hsub & Hall & Hsolo).
    exists before, cache.
    assert (Hnone : match t with
                    | Resume i => if Nat.eqb i k then sendsOf toolSystem t w else []
                    | _ => []
                    end = []).
    { destruct t as [? ? ? | ? | ? | i]; try reflexivity.
      destruct (Nat.eqb_spec i k) as [-> | Hne]; [contradiction | reflexivity]. }
    cbn [deliveredBy]. rewrite Hnone. cbn [app].
    rewrite turn_windowLive in Hdel, Hall.
    split; [| split; [exact Hsub | split]].
    + rewrite Hdel. f_equal.
      destruct t as [? ? ? | ? | ? | i]; try reflexivity.
      cbn [liveAtSettle].
      destruct (Nat.eqb_spec i k) as [-> | Hne]; [contradiction | reflexivity].
    + intros Hopen Hlen. cbn [staysOpen] in Hopen.
      apply andb_true_iff in Hopen as [Hlive Hopen].
      destruct t as [? ? ? | ? | ? | i]; cbn [resumesOf] in Hlen;
        try (apply Hall; [exact Hopen | exact Hlen]).
      destruct (Nat.eqb_spec i k) as [-> | Hne]; [contradiction |].
      apply Hall; [exact Hopen | cbn in Hlen; lia].
    + intros Honly. cbn [forallb] in Honly.
      apply andb_true_iff in Honly as [Ht Honly].
      rewrite (Hsolo Honly). f_equal.
      destruct t as [? ? ? | ? | ? | i]; try discriminate; try reflexivity.
      cbn [onlyRun] in Ht. apply Nat.eqb_eq in Ht. congruence.
Qed.

Lemma Forall_of_sublist (A : Type) (P : A -> Prop) (l k : list A) :
  sublist l k -> Forall P k -> Forall P l.
Proof.
  induction 1 as [| x l k _ IH | x l k _ IH]; intros Hk.
  - constructor.
  - apply Forall_cons in Hk as [Hx Hk]. constructor; auto.
  - apply Forall_cons in Hk as [_ Hk]. auto.
Qed.

Lemma outputs_of_run (runId : string) (texts : list string) :
  Forall (fun n => isTerminal n = false /\ runIdOf n = runId)
    (map (ToolOutput runId) texts).
Proof. induction texts; constructor; auto. Qed.

Lemma terminalOf_closes (runId toolName : string) (o : ToolOutcome)
    (cache : gmap string (list CachedFile)) :
  isTerminal (terminalOf runId toolName o cache) = true /\
  runIdOf (terminalOf runId toolName o cache) = runId.
Proof. destruct o as [[| files] | message]; split; reflexivity. Qed.


(** The world in which the handler replies, for a registered tool: the run
    is the last of the runs in flight. *)
Lemma started_run (toolSystem : ToolSystem) (uuid toolName : string)
    (optionValues : OptionValues) (w : World) :
  toolName ∈ toolRegistry w ->
  let b := toolSystem toolName optionValues uuid in
  let w1 := turn toolSystem (StartToolRun uuid toolName optionValues) w in
  runs w1 !! length (runs w)
  = Some {| run_runId := uuid; run_toolName := toolName;
            run_later := later b; run_outcome := outcome b;
            run_settled := false |} /\
  windowLive w1 = windowLive w /\
  fileCache w1 = recordAll (clear (fileCache w) toolName) (atOnce b).
Proof.
  intros Hin. cbn zeta. cbn [turn].
  rewrite (startToolRun_found _ _ _ _ _ Hin). cbn zeta.
  cbn [snd runs windowLive fileCache withRuns withCache withSent].
  split; [| split; reflexivity].
  apply list_lookup_middle. reflexivity.
Qed.

(** While the tool window is closed, no turn sends anything. *)
Lemma closed_window_is_silent (toolSystem : ToolSystem) (turns : list Turn) :
  forall w : World,
    staysClosed (windowLive w) turns = true ->
    sent (eventLoop toolSystem turns w) = sent w.
Proof.
  induction turns as [| t rest IH]; intros w Hclosed; [reflexivity |].
  cbn [staysClosed] in Hclosed. apply andb_true_iff in Hclosed as [Hlive Hclosed].
  apply negb_true_iff in Hlive.
  cbn [eventLoop]. rewrite IH.
  - clear IH Hclosed.
    turn_cases toolSystem t w; unfold deliver;
      destruct w as [[] sent0 registry cache replies0 runs0]; try discriminate;
      cbn; now rewrite ?app_nil_r.
  - rewrite turn_windowLive.
    destruct t as [? ? ? | ? | ? | ?]; try exact Hclosed;
      now rewrite Hlive in Hclosed |- *.
Qed.

(** *** The reply of the handler and the failures of a run *)

(** C8: the handler returns the run id and never throws, and it returns
    before the run goes on: when it replies, the run of a registered tool is
    in flight and unsettled, with all that the tool does after its first
    suspension still to come, and nothing that closes the run has been
    sent. A run that fails has its error sent with ['tool-error'] and the
    run id exactly when the tool window is live at that time: at once for a
    tool that is not registered, and in the turn in which the run settles
    for a tool that throws or gives no result. Before it, the run sends
    ['tool-output'] notifications of its own only. To a window that is not
    live then, nothing about the failure is sent. *)
Theorem start_tool_run_returns_run_id (toolSystem : ToolSystem)
    (uuid toolName : string) (optionValues : OptionValues) (w : World) :
  let reply := startToolRun toolSystem uuid toolName optionValues w in
  let start := StartToolRun uuid toolName optionValues in
  let b := toolSystem toolName optionValues uuid in
  let k := length (runs w) in
  fst reply = Ok uuid /\
  (toolName ∈ toolRegistry w ->
   runs (snd reply)
   = runs w ++ [{| run_runId := uuid; run_toolName := toolName;
                   run_later := later b; run_outcome := outcome b;
                   run_settled := false |}] /\
   Forall (fun n => isTerminal n = false /\ runIdOf n = uuid)
     (sendsOf toolSystem start w)) /\
  (toolName ∉ toolRegistry w ->
   runs (snd reply) = runs w /\
   sendsOf toolSystem start w
   = if windowLive w
     then [ToolOutput uuid (startingText toolName);
           ToolError uuid ("Tool not found: " +:+ toolName)]
     else []) /\
  (forall (message : string) (following : list Turn),
     toolName ∈ toolRegistry w ->
     Failure (outcome b) message ->
     exists before,
       deliveredBy toolSystem k following (snd reply)
       = before ++ match liveAtSettle k (length (later b)) (windowLive w) following with
                   | Some true => [ToolError uuid message]
                   | _ => []
                   end /\
       Forall (fun n => isTerminal n = false /\ runIdOf n = uuid) before).
Proof.
  cbn zeta. split; [| split; [| split]].
  - destruct (decide (toolName ∈ toolRegistry w)) as [Hin | Hnot].
    + now rewrite (startToolRun_found _ _ _ _ _ Hin).
    + now rewrite (startToolRun_not_found _ _ _ _ _ Hnot).
  - intros Hin. split.
    + now rewrite (startToolRun_found _ _ _ _ _ Hin).
    + rewrite (sendsOf_start_found _ _ _ _ _ Hin).
      destruct (windowLive w); [| constructor].
      constructor; [split; reflexivity | apply outputs_of_run].
  - intros Hnot. split.
    + rewrite (startToolRun_not_found _ _ _ _ _ Hnot). cbn [snd].
      now rewrite !(proj1 (proj2 (proj2 (proj2 (proj2 (deliver_fields _ _)))))).
    + now apply sendsOf_start_not_found.
  - intros message following Hin Hfails.
    destruct (started_run toolSystem uuid toolName optionValues w Hin)
      as (Hk & Hlive & _).
    cbn zeta in Hk, Hlive. cbn [turn] in Hk, Hlive.
    destruct (run_in_flight toolSystem (length (runs w)) following _ _ Hk eq_refl)
      as (before & cache & Hdel & Hsub & _).
    cbn [run_later run_runId run_toolName run_outcome] in Hdel, Hsub.
    rewrite Hlive in Hdel.
    exists before. split.
    + rewrite Hdel. f_equal.
      destruct (liveAtSettle _ _ _ _) as [[] |]; try reflexivity.
      destruct Hfails; reflexivity.
    + eapply Forall_of_sublist; [exact Hsub | apply outputs_of_run].
Qed.

Lemma start_tool_run_returns_run_id_witness :
  fst (startToolRun Examples.failing_tools "run-1" "line_editing" [] Examples.world)
    = Ok "run-1" /\
  exists before,
    deliveredBy Examples.failing_tools 0 [Resume 0]
      (snd (startToolRun Examples.failing_tools "run-1" "line_editing" []
              Examples.world))
    = before ++ [ToolError "run-1" "Claude API client not initialized - API key missing"] /\
    Forall (fun n => isTerminal n = false /\ runIdOf n = "run-1") before.
Proof.
  destruct (start_tool_run_returns_run_id Examples.failing_tools "run-1"
              "line_editing" [] Examples.world) as (Hreply & _ & _ & Hfails).
  split; [exact Hreply |].
  apply (Hfails "Claude API client not initialized - API key missing" [Resume 0]).
  - cbn. apply elem_of_singleton. reflexivity.
  - apply ToolThrows.
Defined.

(** C8 as stated fails: the tool window is closed while a run is under
    way, and the run then fails. The handler has returned the run id, the
    run has settled, and all that was ever sent is the start text and the
    text of the tool: no error notification. *)
Lemma failure_is_not_delivered_to_closed_window :
  let w' := eventLoop Examples.failing_tools
              (StartToolRun "run-1" "line_editing" [] :: Examples.closed_before_the_end)
              Examples.world in
  fst (startToolRun Examples.failing_tools "run-1" "line_editing" [] Examples.world)
    = Ok "run-1" /\
  outcome (Examples.failing_tools "line_editing" [] "run-1")
    = Fails "Claude API client not initialized - API key missing" /\
  map run_settled (runs w') = [true] /\
  sent w' = [ToolOutput "run-1" (startingText "line_editing"); ToolOutput "run-1" "a"] /\
  Forall (fun n => isTerminal n = false) (sent w').
Proof.
  cbn zeta. split; [vm_compute; reflexivity |]. split; [reflexivity |].
  split; [vm_compute; reflexivity |].
  assert (Hsent : sent (eventLoop Examples.failing_tools
                          (StartToolRun "run-1" "line_editing" []
                           :: Examples.closed_before_the_end) Examples.world)
                  = [ToolOutput "run-1" (startingText "line_editing");
                     ToolOutput "run-1" "a"])
    by (vm_compute; reflexivity).
  split; [exact Hsent |]. rewrite Hsent. repeat constructor.
Qed.

(** *** The order of the notifications of a run *)




(** *** The files reported by a run *)

Lemma setFrom_elem (seen xs : list string) (x : string) :
  x ∈ setFrom seen xs <-> x ∈ xs /\ x ∉ seen.
Proof.
  revert seen. induction xs as [| y rest IH]; intros seen; cbn.
  - rewrite elem_of_nil. tauto.
  - case_bool_decide as Hy; rewrite ?elem_of_cons, IH, ?elem_of_cons.
    + split; [tauto |]. intros [[-> | Hin] Hnot]; tauto.
    + split.
      * intros [-> | [Hin Hnot]]; [tauto |]. split; [tauto |]. tauto.
      * intros [[-> | Hin] Hnot]; [tauto |].
        destruct (decide (x = y)) as [-> | Hne]; [tauto |]. right. tauto.
Qed.

Lemma setFrom_NoDup (seen xs : list string) : NoDup (setFrom seen xs).
Proof.
  revert seen. induction xs as [| y rest IH]; intros seen; cbn; [constructor |].
  case_bool_decide; [apply IH |].
  constructor; [| apply IH].
  rewrite setFrom_elem, elem_of_cons. tauto.
Qed.

Lemma getFiles_clear (cache : gmap string (list CachedFile)) (tool : string) :
  getFiles (clear cache tool) tool = [].
Proof. unfold getFiles, clear. now rewrite lookup_delete_eq. Qed.

Lemma getFiles_recordArtifact (cache : gmap string (list CachedFile))
    (t run p tool : string) :
  getFiles (recordArtifact cache t run p) tool =
    if decide (t = tool)
    then if bool_decide (p ∈ map path (getFiles cache tool))
         then getFiles cache tool
         else getFiles cache tool ++ [mkCachedFile p run]
    else getFiles cache tool.
Proof.
  unfold recordArtifact. destruct (decide (t = tool)) as [-> | Hne].
  - case_bool_decide; [reflexivity |].
    unfold getFiles at 1. now rewrite lookup_insert_eq.
  - case_bool_decide; [reflexivity |].
    unfold getFiles at 1 3. now rewrite lookup_insert_ne.
Qed.

(** A file listed for a tool after the recordings was listed before or was
    recorded for that tool. *)
Lemma recordAll_files (actions : list Action) (cache : gmap string (list CachedFile))
    (tool : string) (f : CachedFile) :
  f ∈ getFiles (recordAll cache actions) tool ->
  f ∈ getFiles cache tool \/ Records tool (run_id f) (path f) ∈ actions.
Proof.
  revert cache. induction actions as [| a rest IH]; intros cache Hf; [now left |].
  destruct a as [text | t run p]; cbn in Hf;
    destruct (IH _ Hf) as [Hold | Hnew];
    try (right; now apply list_elem_of_further); [now left |].
  rewrite getFiles_recordArtifact in Hold.
  destruct (decide (t = tool)) as [-> | Hne]; [| now left].
  case_bool_decide; [now left |].
  apply elem_of_app in Hold as [Hold | Hhere]; [now left |].
  apply list_elem_of_singleton in Hhere as ->. right. cbn. apply list_elem_of_here.
Qed.

Lemma recordAll_keeps (actions : list Action) (cache : gmap string (list CachedFile))
    (tool p : string) :
  p ∈ map path (getFiles cache tool) ->
  p ∈ map path (getFiles (recordAll cache actions) tool).
Proof.
  revert cache. induction actions as [| a rest IH]; intros cache Hp; [exact Hp |].
  destruct a as [text | t run q]; cbn; [now apply IH |].
  apply IH. rewrite getFiles_recordArtifact.
  destruct (decide (t = tool)) as [-> | Hne]; [| exact Hp].
  case_bool_decide; [exact Hp |].
  rewrite map_app. apply elem_of_app. now left.
Qed.

Lemma recordAll_recorded (actions : list Action) (cache : gmap string (list CachedFile))
    (tool run p : string) :
  Records tool run p ∈ actions ->
  p ∈ map path (getFiles (recordAll cache actions) tool).
Proof.
  revert cache. induction actions as [| a rest IH]; intros cache Hin.
  - now apply elem_of_nil in Hin.
  - apply elem_of_cons in Hin as [<- | Hin].
    + cbn. apply recordAll_keeps. rewrite getFiles_recordArtifact.
      rewrite decide_True by reflexivity.
      case_bool_decide as Hp; [exact Hp |].
      rewrite map_app. apply elem_of_app. right. cbn. apply list_elem_of_here.
    + destruct a as [text | t run' q]; cbn; now apply IH.
Qed.

(** The paths listed for a tool whose entry was cleared before some
    recordings are the paths recorded for the tool among them. *)
Lemma cleared_then_recorded (actions : list Action)
    (cache : gmap string (list CachedFile)) (tool p : string) :
  p ∈ map path (getFiles (recordAll (clear cache tool) actions) tool)
  <-> exists run, Records tool run p ∈ actions.
Proof.
  split.
  - intros Hp.
    apply list_elem_of_In, in_map_iff in Hp as (f & <- & Hf%list_elem_of_In).
    apply recordAll_files in Hf as [Hold | Hnew]; [| eauto].
    rewrite getFiles_clear in Hold. now apply elem_of_nil in Hold.
  - intros [run Hp]. eapply recordAll_recorded, Hp.
Qed.

Lemma sendsOf_no_run (toolSystem : ToolSystem) (t : Turn) (w : World) :
  match t with StopTool _ | WindowChanges _ => True | _ => False end ->
  sendsOf toolSystem t w = [] /\
  fileCache (turn toolSystem t w) = fileCache w /\
  runs (turn toolSystem t w) = runs w.
Proof.
  unfold sendsOf. destruct t as [? ? ? | ? | ? | ?]; intros []; cbn;
    now rewrite drop_all.
Qed.

(** While no other run takes a turn, all that is sent is sent by the run
    at place [k]. *)
Lemma only_run_sends (toolSystem : ToolSystem) (k : nat) (turns : list Turn) :
  forall w : World,
    forallb (onlyRun k) turns = true ->
    sent (eventLoop toolSystem turns w) = sent w ++ deliveredBy toolSystem k turns w.
Proof.
  induction turns as [| t rest IH]; intros w Honly; [now rewrite app_nil_r |].
  cbn [forallb] in Honly. apply andb_true_iff in Honly as [Ht Honly].
  cbn [eventLoop deliveredBy]. rewrite (IH _ Honly), turn_sent, <- app_assoc.
  do 2 f_equal.
  destruct t as [? ? ? | ? | ? | i]; try discriminate;
    try (now apply sendsOf_no_run).
  cbn [onlyRun] in Ht. now rewrite Ht.
Qed.






(** *** Stop requests *)

(** ['stop-tool'] has no handler in the main process. *)
Lemma stop_tool_has_no_handler :
  invokeReply "stop-tool" = NoHandlerRegistered "stop-tool".
Proof. reflexivity. Qed.

(** The handler and the runs never look at the replies given to stop
    requests. *)
Lemma turn_withReplies (toolSystem : ToolSystem) (t : Turn)
    (l : list IpcReply) (w : World) :
  isStopRequest t = false ->
  turn toolSystem t (withReplies l w) = withReplies l (turn toolSystem t w).
Proof.
  intros Ht. destruct t as [uuid toolName optionValues | ? | ? | i];
    [| discriminate | reflexivity |]; cbn [turn].
  - destruct (decide (toolName ∈ toolRegistry w)) as [Hin | Hnot].
    + rewrite (startToolRun_found _ _ _ _ w Hin),
        (startToolRun_found _ _ _ _ (withReplies l w) Hin).
      reflexivity.
    + rewrite (startToolRun_not_found _ _ _ _ w Hnot),
        (startToolRun_not_found _ _ _ _ (withReplies l w) Hnot).
      cbn [snd]. unfold deliver.
      now destruct w as [[] sent0 registry cache replies0 runs0].
  - rewrite !resume_spec. cbn [snd runs withReplies].
    destruct (runs w !! i) as [r |]; [| reflexivity].
    destruct (run_settled r); [reflexivity |].
    destruct (run_later r) as [| chunk rest]; [| reflexivity].
    unfold deliver. now destruct w as [[] sent0 registry cache replies0 runs0].
Qed.

Lemma eventLoop_withReplies (toolSystem : ToolSystem) (turns : list Turn) :
  forall (l : list IpcReply) (w : World),
    eventLoop toolSystem (withoutStopRequests turns) (withReplies l w)
    = withReplies l (eventLoop toolSystem (withoutStopRequests turns) w).
Proof.
  induction turns as [| t rest IH]; intros l w; [reflexivity |].
  cbn [withoutStopRequests]. destruct (isStopRequest t) eqn:Ht; [apply IH |].
  cbn [eventLoop]. now rewrite turn_withReplies, IH.
Qed.

Lemma turn_replies (toolSystem : ToolSystem) (t : Turn) (w : World) :
  isStopRequest t = false -> replies (turn toolSystem t w) = replies w.
Proof.
  intros Ht. turn_cases toolSystem t w; try discriminate; unfold deliver;
    destruct w as [[] sent0 registry cache replies0 runs0]; reflexivity.
Qed.

(** C2, as the code has it: a stop request finds no handler in the main
    process and is rejected; it changes nothing else. Whatever the runs and
    whenever the requests arrive, the notifications delivered, the file
    cache, the window and the runs in flight are those of the same turns
    without the stop requests, and a run started afterwards gets the same
    reply. *)
Theorem stop_requests_change_nothing (toolSystem : ToolSystem)
    (turns : list Turn) (w : World) :
  let stopped := eventLoop toolSystem turns w in
  let unstopped := eventLoop toolSystem (withoutStopRequests turns) w in
  stopped =
    withReplies
      (replies w ++ repeat (NoHandlerRegistered "stop-tool") (stopRequests turns))
      unstopped /\
  forall uuid toolName optionValues,
    fst (startToolRun toolSystem uuid toolName optionValues stopped)
    = fst (startToolRun toolSystem uuid toolName optionValues unstopped).
Proof.
  cbn zeta.
  assert (Hreply : forall uuid toolName optionValues w0,
             fst (startToolRun toolSystem uuid toolName optionValues w0) = Ok uuid).
  { intros uuid toolName optionValues w0.
    destruct (decide (toolName ∈ toolRegistry w0)) as [Hin | Hnot].
    - now rewrite (startToolRun_found _ _ _ _ _ Hin).
    - now rewrite (startToolRun_not_found _ _ _ _ _ Hnot). }
  split; [| intros; now rewrite !Hreply].
  revert w. induction turns as [| t rest IH]; intros w.
  - cbn. rewrite app_nil_r. now destruct w.
  - cbn [eventLoop withoutStopRequests stopRequests].
    destruct (isStopRequest t) eqn:Ht.
    + destruct t as [? ? ? | runId | ? | ?]; try discriminate.
      rewrite IH. cbn [turn]. unfold stopTool. cbn [snd].
      rewrite stop_tool_has_no_handler, eventLoop_withReplies.
      cbn [replies withReplies Nat.add repeat].
      now rewrite <- app_assoc.
    + cbn [eventLoop]. rewrite IH, turn_replies by exact Ht. reflexivity.
Qed.

(** C2 as stated fails: a run asked to stop after its first text has the
    request rejected, delivers its three later texts all the same and ends
    with ['tool-finished'], like the run that was never asked to stop. *)
Lemma stopped_run_runs_to_completion :
  let w' := eventLoop Examples.stopped_tools Examples.stopped_schedule Examples.world in
  stopRequests Examples.stopped_schedule = 1%nat /\
  replies w' = [NoHandlerRegistered "stop-tool"] /\
  sent w' = [ToolOutput "run-1" (startingText "line_editing");
             ToolOutput "run-1" "a"; ToolOutput "run-1" "b"; ToolOutput "run-1" "c";
             ToolOutput "run-1" "d";
             ToolFinished "run-1" 0 ["/out/new.txt"]].
Proof.
  cbn zeta. split; [reflexivity |].
  split; vm_compute; reflexivity.
Qed.

End ToolRuns.

(** * Further properties of the code *)

(** ** More on the token budgets *)

Section MoreTokenBudgets.
Import Claude.

(** X1: Whatever the configuration and the prompt count, the output budget
    fits in what the prompt leaves of the context window, the thinking
    budget is at most the configured ceiling, and thinking budget plus
    desired output fit in the output budget. *)
Theorem budget_fits_window (c : Config) (p : Z) :
  promptTokens (calculateTokenBudgets c p) + maxTokens (calculateTokenBudgets c p)
    <= contextWindow (calculateTokenBudgets c p) /\
  thinkingBudget (calculateTokenBudgets c p) <= max_thinking_budget c /\
  thinkingBudget (calculateTokenBudgets c p) + desiredOutputTokens (calculateTokenBudgets c p)
    <= maxTokens (calculateTokenBudgets c p).
Proof.
  rewrite thinkingBudget_spec, maxTokens_spec.
  change (promptTokens (calculateTokenBudgets c p)) with p.
  change (contextWindow (calculateTokenBudgets c p)) with (context_window c).
  change (desiredOutputTokens (calculateTokenBudgets c p)) with (desired_output_tokens c).
  destruct (Z.gtb_spec (Z.min (context_window c - p) (betas_max_tokens c))
                       (context_window c)); lia.
Qed.

(** X2: A larger prompt never gets a larger output budget or thinking budget,
    and once a prompt is flagged too large every larger one is. *)
Theorem budgets_shrink_with_prompt (c : Config) (p q : Z) :
  p <= q ->
  maxTokens (calculateTokenBudgets c q) <= maxTokens (calculateTokenBudgets c p) /\
  thinkingBudget (calculateTokenBudgets c q) <= thinkingBudget (calculateTokenBudgets c p) /\
  (isPromptTooLarge (calculateTokenBudgets c p) = true ->
   isPromptTooLarge (calculateTokenBudgets c q) = true).
Proof.
  intros Hpq.
  assert (Hmax : maxTokens (calculateTokenBudgets c q)
                 <= maxTokens (calculateTokenBudgets c p)).
  { rewrite !maxTokens_spec.
    destruct (Z.gtb_spec (Z.min (context_window c - q) (betas_max_tokens c))
                         (context_window c));
      destruct (Z.gtb_spec (Z.min (context_window c - p) (betas_max_tokens c))
                           (context_window c)); lia. }
  assert (Hthink : thinkingBudget (calculateTokenBudgets c q)
                   <= thinkingBudget (calculateTokenBudgets c p)).
  { rewrite !thinkingBudget_spec. lia. }
  split; [exact Hmax | split; [exact Hthink |]].
  rewrite !isPromptTooLarge_spec. lia.
Qed.

Lemma budgets_shrink_with_prompt_witness :
  maxTokens (calculateTokenBudgets default_config 190000)
    <= maxTokens (calculateTokenBudgets default_config 150000) /\
  thinkingBudget (calculateTokenBudgets default_config 190000)
    <= thinkingBudget (calculateTokenBudgets default_config 150000) /\
  (isPromptTooLarge (calculateTokenBudgets default_config 150000) = true ->
   isPromptTooLarge (calculateTokenBudgets default_config 190000) = true).
Proof. apply (budgets_shrink_with_prompt default_config 150000 190000). lia. Defined.

(** X3: A prompt that leaves at least the API limit free gets the API limit as
    output budget, whatever its size. *)
Theorem roomy_prompt_gets_api_limit (c : Config) (p : Z) :
  0 <= p ->
  p + betas_max_tokens c <= context_window c ->
  maxTokens (calculateTokenBudgets c p) = betas_max_tokens c /\
  thinkingBudget (calculateTokenBudgets c p)
    = Z.min (betas_max_tokens c - desired_output_tokens c) (max_thinking_budget c).
Proof.
  intros Hp Hroom.
  rewrite thinkingBudget_spec, (maxTokens_min c p) by lia.
  rewrite Z.min_r by lia. split; reflexivity.
Qed.

Lemma roomy_prompt_gets_api_limit_witness :
  maxTokens (calculateTokenBudgets default_config 50000) = 128000 /\
  thinkingBudget (calculateTokenBudgets default_config 50000)
    = Z.min (128000 - 8000) 20000.
Proof. apply (roomy_prompt_gets_api_limit default_config 50000); simpl; lia. Defined.

(** When the ceiling on the thinking budget is below the configured
    thinking budget, as with the constructor's defaults (20,000 against
    32,000), every prompt is flagged too large. *)
Lemma low_ceiling_flags_every_prompt (c : Config) (p : Z) :
  max_thinking_budget c < thinking_budget_tokens c ->
  isPromptTooLarge (calculateTokenBudgets c p) = true.
Proof.
  intros Hlow. apply isPromptTooLarge_spec. rewrite thinkingBudget_spec. lia.
Qed.

End MoreTokenBudgets.

(** ** More on the Claude client *)

Section MoreClaude.
Import Claude.

(** The outputs of a call whose stream opens: the warning, the rate
    limits, then what the loop prints. *)
Lemma claude_outputs (sdk : Sdk) (c : Client) (prompt : string)
    (noCache includeMetaData : bool) (options : StreamOptions)
    (headers : list (string * string)) (events : list StreamEvent)
    (failure : option string) :
  notInitialized c = false ->
  sdk_stream sdk (modelOptions c (fullPrompt c prompt noCache))
    = StreamOpened headers events failure ->
  let counted := fst (countTokens sdk c (fullPrompt c prompt noCache)) in
  let budgets := calculateTokenBudgets (config c) counted in
  streamWithThinking sdk c prompt noCache includeMetaData options =
  mkOutcome
    ((if isPromptTooLarge budgets then [OutWarning counted] else [])
     ++ (if includeMetaData then rateLimitOutputs headers else [])
     ++ streamLoop c includeMetaData options counted budgets
          {| isThinking := false; isResponding := false |} events)
    (snd (countTokens sdk c (fullPrompt c prompt noCache))
     ++ [CallStream (modelOptions c (fullPrompt c prompt noCache))])
    (match failure with Some message => Throw message | None => Ok tt end).
Proof.
  intros Hinit Hstream. cbn zeta. unfold streamWithThinking. rewrite Hinit.
  destruct (countTokens sdk c (fullPrompt c prompt noCache)) as [counted calls0].
  cbn [fst snd]. now rewrite Hstream.
Qed.

Lemma textOutputs_app (xs ys : list Output) :
  textOutputs (xs ++ ys) = textOutputs xs ++ textOutputs ys.
Proof.
  induction xs as [| x xs IH]; [reflexivity |].
  destruct x; cbn; now rewrite ?IH.
Qed.

Lemma thinkingOutputs_app (xs ys : list Output) :
  thinkingOutputs (xs ++ ys) = thinkingOutputs xs ++ thinkingOutputs ys.
Proof.
  induction xs as [| x xs IH]; [reflexivity |].
  destruct x; cbn; now rewrite ?IH.
Qed.

Lemma rateLimitOutputs_plain (headers : list (string * string)) :
  textOutputs (rateLimitOutputs headers) = [] /\
  thinkingOutputs (rateLimitOutputs headers) = [] /\
  List.filter isBanner (rateLimitOutputs headers) = [].
Proof.
  unfold rateLimitOutputs. cbn.
  induction (filter (fun h => isRateLimitHeader (fst h) = true) headers)
    as [| h hs (IH1 & IH2 & IH3)]; cbn; auto.
Qed.

Lemma streamLoop_texts (c : Client) (includeMetaData : bool) (options : StreamOptions)
    (p : Z) (b : TokenBudgets) (st : LoopState) (events : list StreamEvent) :
  textOutputs (streamLoop c includeMetaData options p b st events) = textDeltas events /\
  thinkingOutputs (streamLoop c includeMetaData options p b st events)
    = if includeThinking options then thinkingDeltas events else [].
Proof.
  revert st. induction events as [| e rest IH]; intros st.
  - cbn. now destruct (includeThinking options).
  - cbn [streamLoop].
    destruct (processEvent c includeMetaData options p b st e) as [st' out] eqn:He.
    rewrite textOutputs_app, thinkingOutputs_app.
    destruct (IH st') as [IHt IHk]. rewrite IHt, IHk.
    destruct e as [[] | [thinking | text |] | |]; cbn in He;
      try (destruct (isThinking st)); try (destruct (isResponding st));
      try (destruct (includeThinking options));
      try (destruct includeMetaData);
      injection He as <- <-; split; reflexivity.
Qed.

(** X5: The visible text of the response is forwarded whole and in order, also
    when the stream fails after some events; the thinking text is
    forwarded only on request, and then whole and in order too. *)
Theorem stream_forwards_text_in_order (sdk : Sdk) (c : Client) (prompt : string)
    (noCache includeMetaData : bool) (options : StreamOptions)
    (headers : list (string * string)) (events : list StreamEvent)
    (failure : option string) :
  notInitialized c = false ->
  sdk_stream sdk (modelOptions c (fullPrompt c prompt noCache))
    = StreamOpened headers events failure ->
  let o := streamWithThinking sdk c prompt noCache includeMetaData options in
  textOutputs (outputs o) = textDeltas events /\
  thinkingOutputs (outputs o)
    = (if includeThinking options then thinkingDeltas events else []) /\
  result o = match failure with Some message => Throw message | None => Ok tt end.
Proof.
  intros Hinit Hstream. cbn zeta.
  rewrite (claude_outputs _ _ _ _ _ _ _ _ _ Hinit Hstream). cbn [outputs result].
  rewrite !textOutputs_app, !thinkingOutputs_app.
  destruct (streamLoop_texts c includeMetaData options
              (fst (countTokens sdk c (fullPrompt c prompt noCache)))
              (calculateTokenBudgets (config c)
                 (fst (countTokens sdk c (fullPrompt c prompt noCache))))
              {| isThinking := false; isResponding := false |} events) as [Ht Hk].
  rewrite Ht, Hk.
  destruct (rateLimitOutputs_plain headers) as (Hr1 & Hr2 & _).
  assert (Hlim1 : textOutputs (if includeMetaData then rateLimitOutputs headers else []) = [])
    by now destruct includeMetaData.
  assert (Hlim2 : thinkingOutputs (if includeMetaData then rateLimitOutputs headers else []) = [])
    by now destruct includeMetaData.
  rewrite Hlim1, Hlim2.
  destruct (isPromptTooLarge _); cbn; repeat split; reflexivity.
Qed.

Lemma stream_forwards_text_in_order_witness :
  let o := streamWithThinking Examples.claude_sdk Examples.claude_ready
             "Edit this." false true {| includeThinking := false |} in
  textOutputs (outputs o) = ["Chapter 1 drags."] /\
  thinkingOutputs (outputs o) = [] /\
  result o = Ok tt.
Proof.
  exact (stream_forwards_text_in_order Examples.claude_sdk Examples.claude_ready
           "Edit this." false true {| includeThinking := false |}
           _ _ _ eq_refl eq_refl).
Defined.

Lemma rateLimitOutputs_no_banner (headers : list (string * string)) :
  List.filter isThinkingBanner (rateLimitOutputs headers) = [] /\
  List.filter isRespondingBanner (rateLimitOutputs headers) = [].
Proof.
  unfold rateLimitOutputs. cbn.
  induction (filter (fun h => isRateLimitHeader (fst h) = true) headers)
    as [| h hs [IH1 IH2]]; cbn; auto.
Qed.

(** The loop prints each banner at most once, and none for a block kind
    whose flag is already set. *)
Lemma streamLoop_banners (c : Client) (includeMetaData : bool) (options : StreamOptions)
    (p : Z) (b : TokenBudgets) (st : LoopState) (events : list StreamEvent) :
  (length (List.filter isThinkingBanner
             (streamLoop c includeMetaData options p b st events))
   <= if isThinking st then 0 else 1)%nat /\
  (length (List.filter isRespondingBanner
             (streamLoop c includeMetaData options p b st events))
   <= if isResponding st then 0 else 1)%nat.
Proof.
  revert st. induction events as [| e rest IH]; intros st.
  - cbn. split; [destruct (isThinking st) | destruct (isResponding st)]; lia.
  - cbn [streamLoop].
    destruct (processEvent c includeMetaData options p b st e) as [st' out] eqn:He.
    rewrite !List.filter_app, !length_app.
    destruct (IH st') as [IHt IHr].
    destruct st as [thinking responding].
    destruct e as [[] | [thinkingText | text |] | |]; cbn in He;
      try (destruct thinking); try (destruct responding);
      try (destruct (includeThinking options));
      try (destruct includeMetaData);
      injection He as <- <-; cbn in *; lia.
Qed.

(** X6: However many thinking and text blocks a response has, the call prints
    the thinking banner at most once and the responding banner at most
    once. *)
Theorem banners_at_most_once (sdk : Sdk) (c : Client) (prompt : string)
    (noCache includeMetaData : bool) (options : StreamOptions) :
  let o := streamWithThinking sdk c prompt noCache includeMetaData options in
  (length (List.filter isThinkingBanner (outputs o)) <= 1)%nat /\
  (length (List.filter isRespondingBanner (outputs o)) <= 1)%nat.
Proof.
  cbn zeta. unfold streamWithThinking.
  destruct (notInitialized c); [cbn; lia |].
  destruct (countTokens sdk c (fullPrompt c prompt noCache)) as [counted calls0].
  destruct (sdk_stream sdk _) as [message | headers events failure]; cbn [outputs].
  - destruct (isPromptTooLarge _); cbn; lia.
  - rewrite !List.filter_app, !length_app.
    match goal with |- context [streamLoop ?a ?b0 ?c0 ?d ?e ?f ?g] =>
      destruct (streamLoop_banners a b0 c0 d e f g) as [Ht Hr] end.
    cbn [isThinking isResponding] in Ht, Hr.
    destruct (rateLimitOutputs_no_banner headers) as [Hl1 Hl2].
    assert (Hlim1 : List.filter isThinkingBanner
                      (if includeMetaData then rateLimitOutputs headers else []) = [])
      by now destruct includeMetaData.
    assert (Hlim2 : List.filter isRespondingBanner
                      (if includeMetaData then rateLimitOutputs headers else []) = [])
      by now destruct includeMetaData.
    rewrite Hlim1, Hlim2.
    destruct (isPromptTooLarge _); cbn; lia.
Qed.

(** X7: With [includeMetaData] off, a call prints no rate limits and no
    response metadata: only the warning, the banners and the streamed
    text. *)
Theorem no_metadata_unless_requested (sdk : Sdk) (c : Client) (prompt : string)
    (noCache : bool) (options : StreamOptions) :
  Forall (fun o => isMetaOutput o = false)
    (outputs (streamWithThinking sdk c prompt noCache false options)).
Proof.
  unfold streamWithThinking.
  destruct (notInitialized c); [constructor |].
  destruct (countTokens sdk c (fullPrompt c prompt noCache)) as [counted calls0].
  assert (Hwarn : forall b : bool,
            Forall (fun o => isMetaOutput o = false)
                   (if b then [OutWarning counted] else [])).
  { intros []; repeat constructor. }
  destruct (sdk_stream sdk _) as [message | headers events failure]; cbn [outputs];
    [apply Hwarn |].
  apply Forall_app. split; [apply Hwarn |]. cbn [app].
  generalize {| isThinking := false; isResponding := false |}.
  induction events as [| e rest IH]; intros st; [constructor |].
  cbn [streamLoop].
  destruct (processEvent c false options counted _ st e) as [st' out] eqn:He.
  apply Forall_app. split; [| apply IH].
  destruct e as [[] | [thinkingText | text |] | |]; cbn in He;
    try (destruct (isThinking st)); try (destruct (isResponding st));
    try (destruct (includeThinking options));
    injection He as <- <-; repeat constructor.
Qed.

(** X4: With the constructor's defaults, and whenever the ceiling on the
    thinking budget is below the configured thinking budget, every call of
    an initialised client starts by printing the large-prompt warning,
    however small the prompt. *)
Theorem low_ceiling_always_warns (sdk : Sdk) (c : Client) (prompt : string)
    (noCache includeMetaData : bool) (options : StreamOptions) :
  notInitialized c = false ->
  max_thinking_budget (config c) < thinking_budget_tokens (config c) ->
  exists rest,
    outputs (streamWithThinking sdk c prompt noCache includeMetaData options)
    = OutWarning (fst (countTokens sdk c (fullPrompt c prompt noCache))) :: rest.
Proof.
  intros Hinit Hlow. unfold streamWithThinking. rewrite Hinit.
  destruct (countTokens sdk c (fullPrompt c prompt noCache)) as [counted calls0].
  rewrite (low_ceiling_flags_every_prompt _ counted Hlow). cbn [fst].
  destruct (sdk_stream sdk _); cbn [outputs]; eexists; reflexivity.
Qed.

Lemma low_ceiling_always_warns_witness :
  exists rest,
    outputs (streamWithThinking
               {| sdk_countTokens := fun _ _ _ => Ok 12;
                  sdk_stream := fun _ => StreamOpened [] [] None |}
               Examples.claude_ready "Hi." false false {| includeThinking := false |})
    = OutWarning 12 :: rest.
Proof.
  apply (low_ceiling_always_warns
           {| sdk_countTokens := fun _ _ _ => Ok 12;
              sdk_stream := fun _ => StreamOpened [] [] None |}
           Examples.claude_ready "Hi." false false {| includeThinking := false |});
    [reflexivity | simpl; lia].
Defined.

(** X8: A token count that fails is taken as -1: the call goes on exactly as if
    the provider had counted -1 tokens. *)
Theorem failed_count_is_minus_one (stream : ModelOptions -> StreamResponse)
    (message : string) (c : Client) (prompt : string)
    (noCache includeMetaData : bool) (options : StreamOptions) :
  streamWithThinking
    {| sdk_countTokens := fun _ _ _ => Throw message; sdk_stream := stream |}
    c prompt noCache includeMetaData options
  = streamWithThinking
      {| sdk_countTokens := fun _ _ _ => Ok (-1); sdk_stream := stream |}
      c prompt noCache includeMetaData options /\
  fst (countTokens
         {| sdk_countTokens := fun _ _ _ => Throw message; sdk_stream := stream |}
         c prompt) = -1.
Proof.
  unfold streamWithThinking, countTokens.
  destruct (notInitialized c); split; reflexivity.
Qed.

(** *** Life cycle of the client *)

(** X9: After [close()] the client refuses every call without contacting the
    provider, although the key is still there: streaming throws, counting
    gives -1, verification and model listing fail. *)
Theorem closed_client_is_unusable (sdk : Sdk) (c : Client) (prompt : string)
    (noCache includeMetaData : bool) (options : StreamOptions)
    (listing : Models.ModelsList) :
  streamWithThinking sdk (close c) prompt noCache includeMetaData options
    = keyMissingOutcome /\
  countTokens sdk (close c) prompt = (-1, []) /\
  verifyAiAPI (close c) listing = (false, false) /\
  getAvailableModels (close c) listing = ([], false).
Proof.
  unfold streamWithThinking, countTokens, verifyAiAPI, getAvailableModels,
    notInitialized, close. cbn.
  rewrite !orb_true_r. repeat split; reflexivity.
Qed.

(** X10: A client built without a key stays unusable after [recreate()], even
    when the key is in the environment by then: [apiKeyMissing] is never
    cleared. *)
Theorem recreate_keeps_missing_key (sdk : Sdk) (c : Client) (apiKey : option string)
    (prompt : string) (noCache includeMetaData : bool) (options : StreamOptions) :
  apiKeyMissing c = true ->
  streamWithThinking sdk (recreate c apiKey) prompt noCache includeMetaData options
    = keyMissingOutcome.
Proof.
  intros Hmissing. unfold streamWithThinking, notInitialized, recreate, close.
  destruct (truthy apiKey); cbn; now rewrite ?Hmissing, ?orb_true_r.
Qed.

Lemma recreate_keeps_missing_key_witness :
  streamWithThinking Examples.claude_sdk
    (recreate Examples.claude_without_key (Some "sk-ant-key"))
    "Edit this." false true {| includeThinking := false |}
  = keyMissingOutcome.
Proof.
  apply (recreate_keeps_missing_key Examples.claude_sdk Examples.claude_without_key
           (Some "sk-ant-key")). reflexivity.
Defined.

(** X11: Recreating a working client with the key present gives a working
    client that has forgotten the manuscript: the next call sends the
    instruction alone. *)
Theorem recreate_forgets_manuscript (sdk : Sdk) (c : Client) (apiKey : option string)
    (prompt : string) (noCache includeMetaData : bool) (options : StreamOptions) :
  apiKeyMissing c = false ->
  truthy apiKey = true ->
  calls (streamWithThinking sdk (recreate c apiKey) prompt noCache includeMetaData options)
  = [CallCountTokens (model_name (config c)) prompt (thinking_budget_tokens (config c));
     CallStream
       {| mo_model := model_name (config c);
          mo_max_tokens := max_tokens (config c);
          mo_content := prompt;
          mo_budget_tokens := max_thinking_budget (config c) |}].
Proof.
  intros Hmissing Hkey.
  rewrite claude_calls.
  - unfold recreate, close. rewrite Hkey. reflexivity.
  - unfold notInitialized, recreate, close. rewrite Hkey. cbn. now rewrite Hmissing.
Qed.

Lemma recreate_forgets_manuscript_witness :
  calls (streamWithThinking Examples.claude_sdk
           (recreate
              (fst (fst (prepareFileAndCache Examples.claude_ready (Ok "Once upon a time."))))
              (Some "sk-ant-key"))
           "Edit this." false true {| includeThinking := false |})
  = [CallCountTokens "claude-3-7-sonnet-20250219" "Edit this." 32000;
     CallStream
       {| mo_model := "claude-3-7-sonnet-20250219";
          mo_max_tokens := 32000;
          mo_content := "Edit this.";
          mo_budget_tokens := 20000 |}].
Proof.
  apply (recreate_forgets_manuscript Examples.claude_sdk
           (fst (fst (prepareFileAndCache Examples.claude_ready (Ok "Once upon a time."))))
           (Some "sk-ant-key")); reflexivity.
Defined.

Lemma not_blank_truthy (content : string) :
  trims_to_empty content = false -> truthy (Some content) = true.
Proof. now destruct content. Qed.

(** X12: [prepareFileAndCache] on a file that cannot be read gives the one
    error ["Error loading manuscript: <message>"]; on a file holding only
    white space (also the no-break space or a byte order mark) the one
    error ["Error loading manuscript: Manuscript file is empty"]; both
    leave no manuscript loaded, also when one was loaded before. On any
    other file it gives no error and loads the content. So it reports no
    error exactly when it leaves a manuscript loaded. The key and the
    configuration are untouched. *)
Theorem prepare_loads_or_reports (c : Client) (readFile : Result string) :
  let c' := fst (fst (prepareFileAndCache c readFile)) in
  let errors := snd (prepareFileAndCache c readFile) in
  (forall message,
     readFile = Throw message ->
     errors = ["Error loading manuscript: " +:+ message] /\
     manuscriptContent c' = None) /\
  (forall content,
     readFile = Ok content -> trims_to_empty content = true ->
     errors = ["Error loading manuscript: Manuscript file is empty"] /\
     manuscriptContent c' = None) /\
  (forall content,
     readFile = Ok content -> trims_to_empty content = false ->
     errors = [] /\ manuscriptContent c' = Some content) /\
  (errors = [] <-> truthy (manuscriptContent c') = true) /\
  (errors <> [] -> manuscriptContent c' = None /\ length errors = 1%nat) /\
  notInitialized c' = notInitialized c /\
  config c' = config c.
Proof.
  cbn zeta. unfold prepareFileAndCache.
  destruct readFile as [content | message];
    [destruct (trims_to_empty content) eqn:Hblank |]; cbn.
  - split; [discriminate |].
    split; [intros ? [= <-] _; split; reflexivity |].
    split; [intros ? [= <-] Hnot; congruence |].
    split; [split; discriminate |].
    split; [intros _; split; reflexivity | split; reflexivity].
  - split; [discriminate |].
    split; [intros ? [= <-] Hyes; congruence |].
    split; [intros ? [= <-] _; split; reflexivity |].
    split; [split; [intros _; now apply not_blank_truthy | reflexivity] |].
    split; [intros H; now contradiction H | split; reflexivity].
  - split; [intros ? [= <-]; split; reflexivity |].
    split; [discriminate |]. split; [discriminate |].
    split; [split; discriminate |].
    split; [intros _; split; reflexivity | split; reflexivity].
Qed.

(** X13: After a manuscript that is not all white space (in the sense of
    [trim()]) is loaded, the token count and the stream request are made on
    the same text: the manuscript between its markers, then the
    instruction; with [noCache] on, on the instruction alone. *)
Theorem loaded_manuscript_is_prepended (sdk : Sdk) (c : Client)
    (content prompt : string) (noCache includeMetaData : bool)
    (options : StreamOptions) :
  notInitialized c = false ->
  trims_to_empty content = false ->
  let c' := fst (fst (prepareFileAndCache c (Ok content))) in
  let sentText :=
    if noCache then prompt
    else "=== MANUSCRIPT ===" +:+ nl +:+ content +:+ nl
         +:+ "=== END MANUSCRIPT ===" +:+ nl +:+ nl +:+ prompt in
  calls (streamWithThinking sdk c' prompt noCache includeMetaData options)
  = [CallCountTokens (model_name (config c)) sentText (thinking_budget_tokens (config c));
     CallStream
       {| mo_model := model_name (config c);
          mo_max_tokens := max_tokens (config c);
          mo_content := sentText;
          mo_budget_tokens := max_thinking_budget (config c) |}].
Proof.
  intros Hinit Hblank. cbn zeta.
  unfold prepareFileAndCache. rewrite Hblank. cbn [fst].
  rewrite claude_calls by exact Hinit.
  unfold fullPrompt, modelOptions. cbn [manuscriptContent config].
  rewrite (not_blank_truthy _ Hblank).
  destruct noCache; reflexivity.
Qed.

Lemma loaded_manuscript_is_prepended_witness :
  calls (streamWithThinking Examples.claude_sdk
           (fst (fst (prepareFileAndCache Examples.claude_ready (Ok "Once upon a time."))))
           "Edit this." false true {| includeThinking := false |})
  = [CallCountTokens "claude-3-7-sonnet-20250219"
       ("=== MANUSCRIPT ===" +:+ nl +:+ "Once upon a time." +:+ nl
        +:+ "=== END MANUSCRIPT ===" +:+ nl +:+ nl +:+ "Edit this.") 32000;
     CallStream
       {| mo_model := "claude-3-7-sonnet-20250219";
          mo_max_tokens := 32000;
          mo_content :=
            "=== MANUSCRIPT ===" +:+ nl +:+ "Once upon a time." +:+ nl
            +:+ "=== END MANUSCRIPT ===" +:+ nl +:+ nl +:+ "Edit this.";
          mo_budget_tokens := 20000 |}].
Proof.
  apply (loaded_manuscript_is_prepended Examples.claude_sdk Examples.claude_ready
           "Once upon a time." "Edit this." false true {| includeThinking := false |});
    reflexivity.
Defined.

Lemma hasId_spec (name : string) (m : Models.ModelInfo) :
  hasId name m = true <-> Models.id m = Some name.
Proof.
  unfold hasId. destruct (Models.id m) as [i |]; [| split; discriminate].
  rewrite String.eqb_eq. split; congruence.
Qed.

(** X15: [verifyAiAPI()] answers true exactly when the client is initialised,
    the model listing succeeds and it holds a model whose id is the
    configured model name; an uninitialised client does not ask the
    provider. *)
Theorem verify_true_iff_model_listed (c : Client) (listing : Models.ModelsList) :
  (fst (verifyAiAPI c listing) = true <->
   notInitialized c = false /\
   exists data m, listing = Ok (Some data) /\ In m data /\
                  Models.id m = Some (model_name (config c))) /\
  (notInitialized c = true -> snd (verifyAiAPI c listing) = false).
Proof.
  unfold verifyAiAPI, notInitialized.
  rewrite (orb_comm (negb (client c))).
  destruct (apiKeyMissing c || negb (client c)); cbn.
  - split; [| reflexivity]. split; [discriminate | intros [? _]; discriminate].
  - split; [| discriminate].
    destruct listing as [[data |] | message]; cbn.
    + rewrite existsb_exists. split.
      * intros (m & Hin & Hid%hasId_spec). split; [reflexivity |]. eauto.
      * intros (_ & data' & m & [= <-] & Hin & Hid). exists m.
        split; [exact Hin | now apply hasId_spec].
    + split; [discriminate | intros (_ & ? & ? & ? & _); discriminate].
    + split; [discriminate | intros (_ & ? & ? & ? & _); discriminate].
Qed.

End MoreClaude.

(** ** More on the OpenAI clients *)

Section MoreOpenAI.

Lemma openai_loop_until_done (c : OpenAI.Client) (options : OpenAI.StreamOptions)
    (before after : list OpenAI.Event) :
  forallb (fun e => negb (OpenAI.isDone e)) before = true ->
  OpenAI.streamLoop c options (before ++ OpenAI.OutputTextDone :: after)
  = (map OpenAI.OutDelta (OpenAI.deltasUntilDone before)
     ++ (if OpenAI.includeMetaData options
         then [OpenAI.OutMetaData (OpenAI.model_name c)] else []),
     true).
Proof.
  induction before as [| e rest IH]; intros Hnone; [reflexivity |].
  cbn in Hnone. apply andb_true_iff in Hnone as [He Hrest].
  destruct e; [| discriminate |]; cbn; now rewrite (IH Hrest).
Qed.

(** X16: The Responses client stops at the first ['response.output_text.done']:
    the deltas before it are forwarded in order, then the metadata when
    asked for; whatever the stream holds after it, events or a failure,
    is not read, and the call succeeds. *)
Theorem events_after_done_are_ignored (c : OpenAI.Client)
    (instruction : string) (options : OpenAI.StreamOptions)
    (before after : list OpenAI.Event) (failure : option string) :
  OpenAI.notInitialized c = false ->
  truthy (OpenAI.prompt c) = true ->
  forallb (fun e => negb (OpenAI.isDone e)) before = true ->
  let o := OpenAI.streamWithThinking
             (fun _ => OpenAI.Created (before ++ OpenAI.OutputTextDone :: after) failure)
             c instruction options in
  outputs o
  = map OpenAI.OutDelta (OpenAI.deltasUntilDone before)
    ++ (if OpenAI.includeMetaData options
        then [OpenAI.OutMetaData (OpenAI.model_name c)] else []) /\
  result o = Ok tt.
Proof.
  intros Hinit Hprompt Hnone. cbn zeta.
  unfold OpenAI.streamWithThinking. rewrite Hinit, Hprompt. cbn [negb].
  rewrite (openai_loop_until_done _ _ _ _ Hnone). split; reflexivity.
Qed.

Lemma events_after_done_are_ignored_witness :
  let ready :=
    fst (fst (OpenAI.prepareFileAndCache Examples.openai_ready (Ok "Once upon a time."))) in
  let o := OpenAI.streamWithThinking
             (fun _ => OpenAI.Created
                         ([OpenAI.OutputTextDelta "Fine."; OpenAI.OtherEvent]
                          ++ OpenAI.OutputTextDone :: [OpenAI.OutputTextDelta "late"])
                         (Some "connection reset"))
             ready "Edit this."
             {| OpenAI.temperature := None; OpenAI.includeMetaData := false |} in
  outputs o = map OpenAI.OutDelta (OpenAI.deltasUntilDone
                                     [OpenAI.OutputTextDelta "Fine."; OpenAI.OtherEvent])
              ++ [] /\
  result o = Ok tt.
Proof.
  apply (events_after_done_are_ignored
           (fst (fst (OpenAI.prepareFileAndCache Examples.openai_ready
                        (Ok "Once upon a time."))))
           "Edit this."
           {| OpenAI.temperature := None; OpenAI.includeMetaData := false |}
           [OpenAI.OutputTextDelta "Fine."; OpenAI.OtherEvent]
           [OpenAI.OutputTextDelta "late"] (Some "connection reset"));
    reflexivity.
Defined.

(** X17: An empty manuscript file is accepted by [prepareFileAndCache] of both
    OpenAI clients (a success message, no error), and the next
    [streamWithThinking] is then refused as if no manuscript had been
    loaded, before any request. *)
Theorem empty_manuscript_is_loaded_then_refused :
  (forall (sdk : OpenAI.Sdk) (c : OpenAI.Client) instruction options,
     OpenAI.notInitialized c = false ->
     snd (fst (OpenAI.prepareFileAndCache c (Ok EmptyString)))
       = ["Manuscript file loaded successfully."] /\
     snd (OpenAI.prepareFileAndCache c (Ok EmptyString)) = [] /\
     OpenAI.streamWithThinking sdk
       (fst (fst (OpenAI.prepareFileAndCache c (Ok EmptyString)))) instruction options
     = mkOutcome [] []
         (Throw "No manuscript prompt loaded. Call prepareFileAndCache() first.")) /\
  (forall (sdk : OpenAICompletions.Sdk) (c : OpenAICompletions.Client) instruction options,
     OpenAICompletions.notInitialized c = false ->
     snd (fst (OpenAICompletions.prepareFileAndCache c (Ok EmptyString)))
       = ["Manuscript file loaded successfully."] /\
     snd (OpenAICompletions.prepareFileAndCache c (Ok EmptyString)) = [] /\
     OpenAICompletions.streamWithThinking sdk
       (fst (fst (OpenAICompletions.prepareFileAndCache c (Ok EmptyString))))
       instruction options
     = mkOutcome [] []
         (Throw "No manuscript prompt loaded. Call prepareFileAndCache() first.")).
Proof.
  split; intros sdk c instruction options Hinit;
    (split; [reflexivity | split; [reflexivity |]]).
  - unfold OpenAI.streamWithThinking, OpenAI.notInitialized in *. cbn.
    now rewrite Hinit.
  - unfold OpenAICompletions.streamWithThinking, OpenAICompletions.notInitialized in *.
    cbn. now rewrite Hinit.
Qed.

Lemma empty_manuscript_is_loaded_then_refused_witness :
  OpenAI.streamWithThinking Examples.openai_sdk
    (fst (fst (OpenAI.prepareFileAndCache Examples.openai_ready (Ok EmptyString))))
    "Edit this." {| OpenAI.temperature := None; OpenAI.includeMetaData := true |}
  = mkOutcome [] []
      (Throw "No manuscript prompt loaded. Call prepareFileAndCache() first.") /\
  OpenAICompletions.streamWithThinking Examples.completions_sdk
    (fst (fst (OpenAICompletions.prepareFileAndCache Examples.completions_ready
                 (Ok EmptyString))))
    "Edit this."
    {| OpenAICompletions.max_tokens := None; OpenAICompletions.temperature := None;
       OpenAICompletions.includeMetaData := true |}
  = mkOutcome [] []
      (Throw "No manuscript prompt loaded. Call prepareFileAndCache() first.").
Proof.
  destruct empty_manuscript_is_loaded_then_refused as [Hresponses Hcompletions].
  split.
  - apply (Hresponses Examples.openai_sdk Examples.openai_ready). reflexivity.
  - apply (Hcompletions Examples.completions_sdk Examples.completions_ready). reflexivity.
Defined.

Lemma temperatureOr_not_zero (t : option Q) (fallback : Q) :
  Qeq_bool fallback 0 = false ->
  Qeq_bool (OpenAI.temperatureOr t fallback) 0 = false.
Proof.
  intros Hf. unfold OpenAI.temperatureOr.
  destruct t as [q |]; [| exact Hf].
  destruct (Qeq_bool q 0) eqn:Hq; [exact Hf | exact Hq].
Qed.

(** X18: Neither OpenAI client ever asks for temperature 0, and the Completions
    client never asks for 0 tokens: a 0 in the options is replaced by the
    default (the client's [temp], 0.3, 4096). *)
Theorem zero_options_fall_back_to_defaults :
  (forall (sdk : OpenAI.Sdk) (c : OpenAI.Client) instruction options request,
     Qeq_bool (OpenAI.temp c) 0 = false ->
     In request (calls (OpenAI.streamWithThinking sdk c instruction options)) ->
     Qeq_bool (OpenAI.rq_temperature request) 0 = false /\
     (OpenAI.temperature options = Some 0%Q ->
      OpenAI.rq_temperature request = OpenAI.temp c)) /\
  (forall (sdk : OpenAICompletions.Sdk) (c : OpenAICompletions.Client)
          instruction options request,
     In request (calls (OpenAICompletions.streamWithThinking sdk c instruction options)) ->
     Qeq_bool (OpenAICompletions.rq_temperature request) 0 = false /\
     OpenAICompletions.rq_max_tokens request <> 0 /\
     (OpenAICompletions.max_tokens options = Some 0 ->
      OpenAICompletions.rq_max_tokens request = 4096)).
Proof.
  split.
  - intros sdk c instruction options request Htemp Hin.
    unfold OpenAI.streamWithThinking in Hin.
    destruct (OpenAI.notInitialized c); [destruct Hin |].
    destruct (negb (truthy (OpenAI.prompt c))); [destruct Hin |].
    match type of Hin with context [sdk ?r] =>
      assert (Hreq : request = r) end.
    { destruct (sdk _) as [message | events failure];
        [| destruct (OpenAI.streamLoop c options events)];
        cbn in Hin; destruct Hin as [<- | []]; reflexivity. }
    subst request. cbn [OpenAI.rq_temperature].
    split; [now apply temperatureOr_not_zero |].
    intros ->. reflexivity.
  - intros sdk c instruction options request Hin.
    unfold OpenAICompletions.streamWithThinking in Hin.
    destruct (OpenAICompletions.notInitialized c); [destruct Hin |].
    destruct (negb (truthy (OpenAICompletions.prompt c))); [destruct Hin |].
    match type of Hin with context [sdk ?r] =>
      assert (Hreq : request = r) end.
    { destruct (sdk _) as [message | choices];
        cbn in Hin; destruct Hin as [<- | []]; reflexivity. }
    subst request.
    cbn [OpenAICompletions.rq_temperature OpenAICompletions.rq_max_tokens].
    split; [now apply temperatureOr_not_zero |].
    unfold OpenAICompletions.maxTokensOr.
    split.
    + destruct (OpenAICompletions.max_tokens options) as [n |]; [| discriminate].
      destruct (Z.eqb_spec n 0); [discriminate | assumption].
    + intros ->. reflexivity.
Qed.

End MoreOpenAI.

Section MoreOpenAIWitnesses.

Lemma zero_options_fall_back_to_defaults_witness :
  match calls (OpenAI.streamWithThinking Examples.openai_sdk
                 (fst (fst (OpenAI.prepareFileAndCache Examples.openai_ready
                              (Ok "Once upon a time."))))
                 "Edit this."
                 {| OpenAI.temperature := Some 0%Q; OpenAI.includeMetaData := false |}) with
  | request :: _ =>
      Qeq_bool (OpenAI.rq_temperature request) 0 = false /\
      OpenAI.rq_temperature request = (3 # 10)%Q
  | [] => False
  end.
Proof.
  destruct zero_options_fall_back_to_defaults as [Hresponses _].
  pose proof (Hresponses Examples.openai_sdk
                (fst (fst (OpenAI.prepareFileAndCache Examples.openai_ready
                             (Ok "Once upon a time."))))
                "Edit this."
                {| OpenAI.temperature := Some 0%Q; OpenAI.includeMetaData := false |}
                {| OpenAI.rq_user := "StoryGrinder";
                   OpenAI.rq_model := "gpt-4.1-2025-04-14";
                   OpenAI.rq_instructions :=
                     "You are a very experienced creative fiction writer and editor.";
                   OpenAI.rq_input := OpenAI.fullInput "Once upon a time." "Edit this.";
                   OpenAI.rq_stream := true;
                   OpenAI.rq_temperature := (3 # 10)%Q |}
                eq_refl (or_introl eq_refl)) as [Hnot Hzero].
  split; [exact Hnot | exact (Hzero eq_refl)].
Defined.

End MoreOpenAIWitnesses.

(** ** More on the tool-run handler *)

Section MoreToolRuns.
Import Main.

(** Where no run is in flight, none goes on. *)
Lemma absent_run_is_silent (toolSystem : ToolSystem) (k : nat) (turns : list Turn) :
  forall w : World,
    runs w !! k = None ->
    forallb (onlyRun k) turns = true ->
    deliveredBy toolSystem k turns w = [].
Proof.
  induction turns as [| t rest IH]; intros w Hk Honly; [reflexivity |].
  cbn [forallb] in Honly. apply andb_true_iff in Honly as [Ht Honly].
  cbn [deliveredBy].
  destruct t as [? ? ? | ? | ? | i]; try discriminate.
  - apply IH; [| exact Honly].
    now rewrite (proj2 (proj2 (sendsOf_no_run toolSystem (StopTool runId) w I))).
  - apply IH; [| exact Honly].
    now rewrite (proj2 (proj2 (sendsOf_no_run toolSystem (WindowChanges live) w I))).
  - cbn [onlyRun] in Ht. rewrite Ht. apply Nat.eqb_eq in Ht as ->.
    assert (Hsame : turn toolSystem (Resume k) w = w)
      by (cbn [turn]; now rewrite resume_spec, Hk).
    unfold sendsOf. rewrite Hsame, drop_all. cbn [app]. now apply IH.
Qed.

(** X19: Every notification a run sends carries the run id the handler
    returned, whatever the tool does, however the window comes and goes and
    whatever other runs do in between; and while no other run takes a turn,
    the notifications of the run are all that is sent. *)
Theorem run_sends_only_its_own_id (toolSystem : ToolSystem)
    (uuid toolName : string) (optionValues : OptionValues)
    (following : list Turn) (w : World) :
  fst (startToolRun toolSystem uuid toolName optionValues w) = Ok uuid /\
  Forall (fun n => runIdOf n = uuid)
    (notificationsOfRun toolSystem uuid toolName optionValues following w) /\
  (forallb (onlyRun (length (runs w))) following = true ->
   sent (eventLoop toolSystem (StartToolRun uuid toolName optionValues :: following) w)
   = sent w ++ notificationsOfRun toolSystem uuid toolName optionValues following w).
Proof.
  unfold notificationsOfRun.
  destruct (decide (toolName ∈ toolRegistry w)) as [Hin | Hnot].
  - rewrite bool_decide_eq_true_2 by exact Hin.
    split; [now rewrite (startToolRun_found _ _ _ _ _ Hin) |].
    destruct (started_run toolSystem uuid toolName optionValues w Hin)
      as (Hk & Hlive & _).
    cbn zeta in Hk, Hlive.
    split.
    + destruct (run_in_flight toolSystem (length (runs w)) following _ _ Hk eq_refl)
        as (before & cache & Hdel & Hsub & _).
      cbn [run_later run_runId run_toolName run_outcome] in Hdel, Hsub.
      rewrite Hdel, (sendsOf_start_found _ _ _ _ _ Hin).
      apply Forall_app. split; [| apply Forall_app; split].
      * destruct (windowLive w); [| constructor].
        constructor; [reflexivity |].
        eapply Forall_impl; [apply outputs_of_run |]. now intros n [_ Hn].
      * eapply Forall_impl;
          [eapply Forall_of_sublist; [exact Hsub | apply outputs_of_run] |].
        now intros n [_ Hn].
      * destruct (liveAtSettle _ _ _ _) as [[] |]; repeat constructor.
        apply terminalOf_closes.
    + intros Honly. cbn [eventLoop].
      now rewrite (only_run_sends toolSystem _ following _ Honly), turn_sent,
        <- app_assoc.
  - rewrite bool_decide_eq_false_2 by exact Hnot. rewrite app_nil_r.
    split; [now rewrite (startToolRun_not_found _ _ _ _ _ Hnot) |].
    split.
    + rewrite (sendsOf_start_not_found _ _ _ _ _ Hnot).
      destruct (windowLive w); repeat constructor.
    + intros Honly. cbn [eventLoop].
      rewrite (only_run_sends toolSystem _ following _ Honly), turn_sent,
        <- app_assoc.
      rewrite absent_run_is_silent, app_nil_r; [reflexivity | | exact Honly].
      cbn [turn]. rewrite (startToolRun_not_found _ _ _ _ _ Hnot). cbn [snd].
      rewrite !(proj1 (proj2 (proj2 (proj2 (proj2 (deliver_fields _ _)))))).
      apply lookup_ge_None. lia.
Qed.

Lemma run_sends_only_its_own_id_witness :
  Forall (fun n => runIdOf n = "run-1")
    (notificationsOfRun Examples.stopped_tools "run-1" "line_editing" []
       Examples.to_the_end Examples.world) /\
  sent (eventLoop Examples.stopped_tools
          (StartToolRun "run-1" "line_editing" [] :: Examples.to_the_end)
          Examples.world)
  = sent Examples.world
    ++ notificationsOfRun Examples.stopped_tools "run-1" "line_editing" []
         Examples.to_the_end Examples.world.
Proof.
  destruct (run_sends_only_its_own_id Examples.stopped_tools "run-1" "line_editing" []
              Examples.to_the_end Examples.world) as (_ & Hids & Hsent).
  split; [exact Hids | apply Hsent; reflexivity].
Defined.

(** X20: While the tool window is closed nothing is sent: a run started then
    still returns its run id and runs the tool, and whatever this run and
    the other runs do, the list of delivered notifications stays as it
    was. *)
Theorem closed_window_gets_nothing (toolSystem : ToolSystem)
    (uuid toolName : string) (optionValues : OptionValues)
    (following : list Turn) (w : World) :
  staysClosed (windowLive w) following = true ->
  fst (startToolRun toolSystem uuid toolName optionValues w) = Ok uuid /\
  sent (eventLoop toolSystem (StartToolRun uuid toolName optionValues :: following) w)
  = sent w /\
  (toolName ∈ toolRegistry w ->
   fileCache (turn toolSystem (StartToolRun uuid toolName optionValues) w)
   = recordAll (clear (fileCache w) toolName)
       (atOnce (toolSystem toolName optionValues uuid))).
Proof.
  intros Hclosed. split; [| split].
  - destruct (decide (toolName ∈ toolRegistry w)) as [Hin | Hnot].
    + now rewrite (startToolRun_found _ _ _ _ _ Hin).
    + now rewrite (startToolRun_not_found _ _ _ _ _ Hnot).
  - apply closed_window_is_silent. cbn [staysClosed]. rewrite Hclosed, andb_true_r.
    destruct following; cbn [staysClosed] in Hclosed;
      now apply andb_true_iff in Hclosed.
  - intros Hin. apply (started_run toolSystem uuid toolName optionValues w Hin).
Qed.

Lemma closed_window_gets_nothing_witness :
  fst (startToolRun Examples.stopped_tools "run-1" "line_editing" []
         Examples.world_window_closed) = Ok "run-1" /\
  sent (eventLoop Examples.stopped_tools
          (StartToolRun "run-1" "line_editing" [] :: Examples.to_the_end)
          Examples.world_window_closed)
  = sent Examples.world_window_closed.
Proof.
  destruct (closed_window_gets_nothing Examples.stopped_tools "run-1" "line_editing" []
              Examples.to_the_end Examples.world_window_closed eq_refl)
    as (Hreply & Hsent & _).
  split; [exact Hreply | exact Hsent].
Defined.

(** X21: A run of a tool the registry does not know sends the start text and
    then the error ["Tool not found: <name>"] to a live window, and touches
    nothing else: the file cache, the window, the replies and the runs in
    flight are as before, and the run sends nothing later. *)
Theorem unknown_tool_is_reported (toolSystem : ToolSystem)
    (uuid toolName : string) (optionValues : OptionValues) (w : World) :
  toolName ∉ toolRegistry w ->
  let w' := snd (startToolRun toolSystem uuid toolName optionValues w) in
  sent w' = sent w
            ++ (if windowLive w
                then [ToolOutput uuid (startingText toolName);
                      ToolError uuid ("Tool not found: " +:+ toolName)]
                else []) /\
  fileCache w' = fileCache w /\
  windowLive w' = windowLive w /\
  replies w' = replies w /\
  runs w' = runs w /\
  forall following,
    notificationsOfRun toolSystem uuid toolName optionValues following w
    = if windowLive w
      then [ToolOutput uuid (startingText toolName);
            ToolError uuid ("Tool not found: " +:+ toolName)]
      else [].
Proof.
  intros Hnot. cbn zeta.
  rewrite (startToolRun_not_found _ _ _ _ _ Hnot). cbn [snd].
  repeat split.
  1-5: unfold deliver; destruct w as [[] sent0 registry cache replies0 runs0]; cbn;
    rewrite <- ?app_assoc, ?app_nil_r; reflexivity.
  intros following. unfold notificationsOfRun.
  rewrite bool_decide_eq_false_2 by exact Hnot.
  now rewrite app_nil_r, (sendsOf_start_not_found _ _ _ _ _ Hnot).
Qed.

Lemma unknown_tool_is_reported_witness :
  let w' := snd (startToolRun Examples.stopped_tools "run-1" "no_such_tool" []
                   Examples.world_after_a_run) in
  sent w' = sent Examples.world_after_a_run
            ++ (if windowLive Examples.world_after_a_run
                then [ToolOutput "run-1" (startingText "no_such_tool");
                      ToolError "run-1" ("Tool not found: " +:+ "no_such_tool")]
                else []) /\
  fileCache w' = fileCache Examples.world_after_a_run /\
  windowLive w' = windowLive Examples.world_after_a_run /\
  replies w' = replies Examples.world_after_a_run /\
  runs w' = runs Examples.world_after_a_run.
Proof.
  destruct (unknown_tool_is_reported Examples.stopped_tools "run-1" "no_such_tool" []
              Examples.world_after_a_run)
    as (Hsent & Hcache & Hlive & Hreplies & Hruns & _).
  - cbn. intros Hin. apply elem_of_singleton in Hin. discriminate.
  - repeat split; assumption.
Defined.

Lemma setFrom_fresh_prefix (seen xs ys : list string) :
  NoDup xs ->
  (forall x, x ∈ xs -> x ∉ seen) ->
  setFrom seen (xs ++ ys) = xs ++ setFrom (rev xs ++ seen) ys.
Proof.
  revert seen. induction xs as [| x rest IH]; intros seen Hnodup Hfresh;
    [reflexivity |].
  apply NoDup_cons in Hnodup as [Hx Hrest]. cbn [app setFrom].
  rewrite bool_decide_eq_false_2 by (apply Hfresh; apply list_elem_of_here).
  rewrite IH.
  - cbn [rev]. now rewrite <- app_assoc.
  - exact Hrest.
  - intros y Hy Hseen. apply elem_of_cons in Hseen as [-> | Hseen]; [contradiction |].
    eapply Hfresh; [apply list_elem_of_further, Hy | exact Hseen].
Qed.

(** X22: The files a finished run reports begin with the paths the tool
    returned, in the tool's order (when the tool returned no path twice);
    after them come, once each, the paths that the file cache lists for the
    tool when the run ends and that the tool did not return. While no other
    run takes a turn, this report is the last notification sent and the
    paths from the cache are those this run recorded for the tool. *)
Theorem returned_files_come_first (toolSystem : ToolSystem)
    (uuid toolName : string) (optionValues : OptionValues)
    (following : list Turn) (w : World) (files : list string) :
  let b := toolSystem toolName optionValues uuid in
  let k := length (runs w) in
  toolName ∈ toolRegistry w ->
  outcome b = Returns (ResultObject (Some files)) ->
  liveAtSettle k (length (later b)) (windowLive w) following = Some true ->
  NoDup files ->
  exists cachedOnly,
    last (notificationsOfRun toolSystem uuid toolName optionValues following w)
    = Some (ToolFinished uuid 0 (files ++ cachedOnly)) /\
    (forall p, p ∈ cachedOnly -> p ∉ files) /\
    NoDup cachedOnly /\
    (forallb (onlyRun k) following = true ->
     last (sent (eventLoop toolSystem
                   (StartToolRun uuid toolName optionValues :: following) w))
     = Some (ToolFinished uuid 0 (files ++ cachedOnly)) /\
     forall p, p ∈ cachedOnly <->
               (p ∉ files) /\ exists run, Records toolName run p ∈ allActions b).
Proof.
  cbn zeta. intros Hin Hout Hlive Hnodup.
  destruct (started_run toolSystem uuid toolName optionValues w Hin)
    as (Hk & Hlive1 & Hcache1).
  cbn zeta in Hk, Hlive1, Hcache1.
  destruct (run_in_flight toolSystem _ following _ _ Hk eq_refl)
    as (before & cache & Hdel & _ & _ & Hsolo).
  cbn [run_later run_runId run_toolName run_outcome] in Hdel, Hsolo.
  rewrite Hlive1, Hlive, Hout in Hdel. cbn [terminalOf default] in Hdel.
  unfold uniqueInOrder in Hdel.
  rewrite setFrom_fresh_prefix in Hdel by (auto using not_elem_of_nil).
  assert (Hown : notificationsOfRun toolSystem uuid toolName optionValues following w
                 = (sendsOf toolSystem (StartToolRun uuid toolName optionValues) w
                    ++ before)
                   ++ [ToolFinished uuid 0
                         (files ++ setFrom (rev files ++ [])
                                     (map path (getFiles cache toolName)))]).
  { unfold notificationsOfRun. rewrite bool_decide_eq_true_2 by exact Hin.
    now rewrite Hdel, app_assoc. }
  assert (Hfresh : forall p,
             p ∈ setFrom (rev files ++ []) (map path (getFiles cache toolName))
             <-> (p ∉ files) /\ p ∈ map path (getFiles cache toolName)).
  { intros p. rewrite setFrom_elem, app_nil_r.
    assert (Hrev : p ∈ rev files <-> p ∈ files)
      by (rewrite !list_elem_of_In; symmetry; apply in_rev).
    rewrite Hrev. tauto. }
  eexists. split; [rewrite Hown; apply last_snoc |].
  split; [intros p Hp; now apply Hfresh in Hp |].
  split; [apply setFrom_NoDup |].
  intros Honly. split.
  - cbn [eventLoop].
    rewrite (only_run_sends toolSystem _ following _ Honly), turn_sent, <- app_assoc.
    unfold notificationsOfRun in Hown.
    rewrite bool_decide_eq_true_2 in Hown by exact Hin.
    now rewrite Hown, app_assoc, last_snoc.
  - intros p. rewrite Hfresh, (Hsolo Honly), Hcache1, <- recordAll_app.
    fold (allActions (toolSystem toolName optionValues uuid)).
    now rewrite cleared_then_recorded.
Qed.

Lemma returned_files_come_first_witness :
  exists cachedOnly,
    last (notificationsOfRun Examples.stopped_tools "run-1" "line_editing" []
            Examples.to_the_end Examples.world)
    = Some (ToolFinished "run-1" 0 (["/out/new.txt"] ++ cachedOnly)) /\
    (forall p, p ∈ cachedOnly -> p ∉ ["/out/new.txt"]) /\
    last (sent (eventLoop Examples.stopped_tools
                  (StartToolRun "run-1" "line_editing" [] :: Examples.to_the_end)
                  Examples.world))
    = Some (ToolFinished "run-1" 0 (["/out/new.txt"] ++ cachedOnly)).
Proof.
  destruct (returned_files_come_first Examples.stopped_tools "run-1" "line_editing" []
              Examples.to_the_end Examples.world ["/out/new.txt"])
    as (cachedOnly & Hlast & Hfresh & _ & Hsolo).
  - cbn. apply elem_of_singleton. reflexivity.
  - reflexivity.
  - reflexivity.
  - apply NoDup_singleton.
  - exists cachedOnly. split; [exact Hlast |]. split; [exact Hfresh |].
    apply Hsolo. reflexivity.
Defined.

Lemma firstSegment_no_hyphen (s : string) :
  hasHyphen s = false -> firstSegment s = s.
Proof.
  induction s as [| a s IH]; [reflexivity |].
  cbn. destruct (Ascii.eqb a _); [discriminate |].
  cbn. intros H. now rewrite IH.
Qed.

Lemma firstSegment_before_hyphen (name rest : string) :
  hasHyphen name = false ->
  hasHyphen (name +:+ "-" +:+ rest) = true /\
  firstSegment (name +:+ "-" +:+ rest) = name.
Proof.
  induction name as [| a name IH]; [intros _; split; reflexivity |].
  change (String a name +:+ "-" +:+ rest) with (String a (name +:+ "-" +:+ rest)).
  cbn [hasHyphen firstSegment].
  destruct (Ascii.eqb a _) eqn:Ha; [discriminate |].
  cbn [orb]. intros H. destruct (IH H) as [Hh Hf].
  split; [exact Hh | now rewrite Hf].
Qed.

(** X23: ['get-tool-output-files'] looks the files up under the part of its
    argument before the first hyphen: a tool name without hyphen finds its
    own files, and so does any id made of such a name, a hyphen and
    anything after it. *)
Theorem output_files_found_by_tool_name
    (cache : gmap string (list CachedFile)) (name rest : string) :
  hasHyphen name = false ->
  getToolOutputFiles cache (Some name) = getFiles cache name /\
  getToolOutputFiles cache (Some (name +:+ "-" +:+ rest)) = getFiles cache name.
Proof.
  intros Hname. unfold getToolOutputFiles. rewrite Hname.
  destruct (firstSegment_before_hyphen name rest Hname) as [-> ->].
  split; reflexivity.
Qed.

Lemma output_files_found_by_tool_name_witness :
  getToolOutputFiles (fileCache Examples.world_after_a_run) (Some "line_editing")
    = getFiles (fileCache Examples.world_after_a_run) "line_editing" /\
  getToolOutputFiles (fileCache Examples.world_after_a_run)
    (Some ("line_editing" +:+ "-" +:+ "0b5c7a52-7d7c"))
    = getFiles (fileCache Examples.world_after_a_run) "line_editing".
Proof.
  apply (output_files_found_by_tool_name (fileCache Examples.world_after_a_run)
           "line_editing" "0b5c7a52-7d7c"). reflexivity.
Defined.

End MoreToolRuns.

(** ** Settings, provider choice and model listing *)

Section MoreSettings.
Import Settings.

Lemma truthy_default (s : option string) :
  truthy s = true -> s = Some (default EmptyString s).
Proof. destruct s as [[] |]; [discriminate | reflexivity | discriminate]. Qed.

(** X24: Saving a provider and a model with an initialised store succeeds, and
    the values are read back by the settings dialog
    ([getCurrentSettings]) and by the client set-up
    ([getCompleteApiSettings]); the provider is also kept in the state and
    in the saved ['settings'] object. The dialog is closed, and the
    application quits exactly when asked to. *)
Theorem saved_settings_are_read_back (settings : SettingsInput) (w : SettingsWorld)
    (m : gmap string StoreValue) (provider model : string) :
  store (appState w) = Some m ->
  in_aiProvider settings = Some provider -> truthy (Some provider) = true ->
  in_aiModel settings = Some model -> truthy (Some model) = true ->
  let reply := fst (saveSettingsHandler settings w) in
  let st' := appState (snd (saveSettingsHandler settings w)) in
  reply = {| success := true; error := None |} /\
  aiProvider (getCurrentSettings st') = Some (VString provider) /\
  aiModel (getCurrentSettings st') = Some (VString model) /\
  getCompleteApiSettings st' = Some (VString model) /\
  AI_PROVIDER st' = Some provider /\
  (exists saved, storeGet st' "settings" = Some (VSettings saved) /\
                 ai_provider saved = Some provider) /\
  settingsWindowLive (snd (saveSettingsHandler settings w)) = false /\
  quitRequested (snd (saveSettingsHandler settings w))
    = (in_shouldQuit settings || quitRequested w).
Proof.
  intros Hstore Hp Hpt Hm Hmt. cbn zeta.
  destruct provider as [| pa provider]; [discriminate |].
  destruct model as [| ma model]; [discriminate |].
  unfold saveSettingsHandler, andThen, when, modify, storeSet.
  rewrite Hp, Hm, Hpt, Hmt. cbn [default].
  destruct w as [st live quit]. cbn in Hstore.
  destruct st as [dir project projectPath provider0 lang store0]. cbn in Hstore.
  subst store0. cbn.
  destruct (truthyLanguage (in_language settings)) eqn:Hl;
    destruct (in_shouldQuit settings) eqn:Hq; cbn;
    unfold getCurrentSettings, getCompleteApiSettings, storeGet; cbn;
    rewrite ?lookup_insert_eq, ?lookup_insert_ne by discriminate;
    rewrite ?lookup_insert_eq, ?lookup_insert_ne by discriminate;
    rewrite ?lookup_insert_eq; cbn;
    repeat split; eauto.
Qed.

Lemma saved_settings_are_read_back_witness :
  let reply := fst (saveSettingsHandler Examples.claude_settings Examples.settings_world) in
  let st' := appState (snd (saveSettingsHandler Examples.claude_settings
                              Examples.settings_world)) in
  reply = {| success := true; error := None |} /\
  aiProvider (getCurrentSettings st') = Some (VString "claude") /\
  aiModel (getCurrentSettings st') = Some (VString "claude-sonnet-4-20250514") /\
  getCompleteApiSettings st' = Some (VString "claude-sonnet-4-20250514") /\
  AI_PROVIDER st' = Some "claude" /\
  (exists saved, storeGet st' "settings" = Some (VSettings saved) /\
                 ai_provider saved = Some "claude") /\
  settingsWindowLive (snd (saveSettingsHandler Examples.claude_settings
                             Examples.settings_world)) = false /\
  quitRequested (snd (saveSettingsHandler Examples.claude_settings
                        Examples.settings_world))
    = (in_shouldQuit Examples.claude_settings || quitRequested Examples.settings_world).
Proof.
  apply (saved_settings_are_read_back Examples.claude_settings Examples.settings_world
           ∅ "claude" "claude-sonnet-4-20250514"); reflexivity.
Defined.

(** X25: What the dialog leaves empty is left alone: without a provider in the
    settings the stored provider and the state's provider are unchanged,
    and without a model the stored model is unchanged. *)
Theorem absent_settings_are_kept (settings : SettingsInput) (w : SettingsWorld)
    (m : gmap string StoreValue) :
  store (appState w) = Some m ->
  let st' := appState (snd (saveSettingsHandler settings w)) in
  fst (saveSettingsHandler settings w) = {| success := true; error := None |} /\
  (truthy (in_aiProvider settings) = false ->
   storeGet st' "selectedApiProvider" = storeGet (appState w) "selectedApiProvider" /\
   AI_PROVIDER st' = AI_PROVIDER (appState w)) /\
  (truthy (in_aiModel settings) = false ->
   storeGet st' "selectedAiModel" = storeGet (appState w) "selectedAiModel").
Proof.
  intros Hstore. cbn zeta.
  unfold saveSettingsHandler, andThen, when, modify, storeSet.
  destruct w as [st live quit]. cbn in Hstore.
  destruct st as [dir project projectPath provider0 lang store0]. cbn in Hstore.
  subst store0.
  destruct (truthy (in_aiProvider settings)) eqn:Hp;
    destruct (truthy (in_aiModel settings)) eqn:Hm;
    destruct (truthyLanguage (in_language settings)) eqn:Hl;
    destruct (in_shouldQuit settings) eqn:Hq; cbn;
    unfold storeGet; cbn;
    (split; [reflexivity |]);
    (split; [intros Hf; try discriminate Hf | intros Hf; try discriminate Hf]);
    rewrite ?lookup_insert_ne by discriminate;
    rewrite ?lookup_insert_ne by discriminate;
    rewrite ?lookup_insert_ne by discriminate;
    try split; reflexivity.
Qed.

Lemma absent_settings_are_kept_witness :
  let empty := {| in_aiProvider := None; in_aiModel := None;
                  in_language := None; in_shouldQuit := false |} in
  let saved := snd (saveSettingsHandler Examples.claude_settings Examples.settings_world) in
  let st' := appState (snd (saveSettingsHandler empty saved)) in
  storeGet st' "selectedApiProvider" = Some (VString "claude") /\
  AI_PROVIDER st' = Some "claude" /\
  storeGet st' "selectedAiModel" = Some (VString "claude-sonnet-4-20250514").
Proof.
  cbn zeta.
  destruct (absent_settings_are_kept
              {| in_aiProvider := None; in_aiModel := None;
                 in_language := None; in_shouldQuit := false |}
              (snd (saveSettingsHandler Examples.claude_settings Examples.settings_world))
              _ eq_refl) as (_ & Hprovider & Hmodel).
  destruct (Hprovider eq_refl) as [-> ->]. rewrite (Hmodel eq_refl).
  repeat split; reflexivity.
Defined.

(** X26: Before the store is initialised, saving a provider or a model fails:
    the reply carries the error, the dialog stays open, the application
    does not quit even when asked to, and nothing is stored. *)
Theorem saving_without_store_fails (settings : SettingsInput) (w : SettingsWorld) :
  store (appState w) = None ->
  truthy (in_aiProvider settings) || truthy (in_aiModel settings) = true ->
  let w' := snd (saveSettingsHandler settings w) in
  fst (saveSettingsHandler settings w)
    = {| success := false; error := Some nullStoreError |} /\
  settingsWindowLive w' = settingsWindowLive w /\
  quitRequested w' = quitRequested w /\
  store (appState w') = None.
Proof.
  intros Hstore Hgiven. cbn zeta.
  unfold saveSettingsHandler, andThen, when, modify, storeSet.
  destruct w as [st live quit]. cbn in Hstore.
  destruct st as [dir project projectPath provider0 lang store0]. cbn in Hstore.
  subst store0.
  destruct (truthy (in_aiProvider settings)) eqn:Hp;
    destruct (truthy (in_aiModel settings)) eqn:Hm;
    try discriminate Hgiven; cbn; repeat split; reflexivity.
Qed.

Lemma saving_without_store_fails_witness :
  let w' := snd (saveSettingsHandler Examples.claude_settings
                   Examples.settings_world_without_store) in
  fst (saveSettingsHandler Examples.claude_settings Examples.settings_world_without_store)
    = {| success := false; error := Some nullStoreError |} /\
  settingsWindowLive w' = settingsWindowLive Examples.settings_world_without_store /\
  quitRequested w' = quitRequested Examples.settings_world_without_store /\
  store (appState w') = None.
Proof.
  apply (saving_without_store_fails Examples.claude_settings
           Examples.settings_world_without_store); reflexivity.
Defined.

(** X27: When the start-up check [checkApiProviderConfiguration] passes, the
    client class chosen by [createApiService] is the one of the provider
    whose key was checked: a Claude or OpenAI client then built from the
    same environment has its key and is initialised. *)
Theorem checked_provider_gives_working_client (st : State) (env : Env)
    (cfg : Claude.Config) (model : string) :
  checkApiProviderConfiguration st env = true ->
  exists class,
    createApiService st = Some class /\
    (class = ClientClaude -> Claude.notInitialized (newClaude env cfg) = false) /\
    (class = ClientOpenAI -> OpenAI.notInitialized (newOpenAI env model) = false) /\
    (class = ClientGemini -> truthy (env "GEMINI_API_KEY") = true).
Proof.
  unfold checkApiProviderConfiguration, createApiService.
  destruct (storeGet st "selectedApiProvider") as [[provider | saved] |];
    [| discriminate | discriminate].
  cbn [truthyValue].
  destruct (truthy (Some provider)) eqn:Htruthy; [| discriminate]. cbn [negb orb].
  destruct (String.eqb provider "skipped") eqn:Hskipped; [discriminate |].
  destruct (String.eqb provider "gemini") eqn:Hgemini.
  { intros Hkey. exists ClientGemini. repeat split; (discriminate || auto). }
  destruct (String.eqb provider "openai") eqn:Hopenai.
  { intros Hkey. exists ClientOpenAI. split; [reflexivity |].
    split; [discriminate |]. split; [| discriminate].
    intros _. unfold newOpenAI, OpenAI.construct. now rewrite Hkey. }
  destruct (String.eqb provider "claude") eqn:Hclaude; [| discriminate].
  intros Hkey. exists ClientClaude. split; [reflexivity |].
  split; [| split; discriminate].
  intros _. unfold newClaude, Claude.construct. now rewrite Hkey.
Qed.

Lemma checked_provider_gives_working_client_witness :
  exists class,
    createApiService
      (appState (snd (saveSettingsHandler Examples.claude_settings Examples.settings_world)))
    = Some class /\
    (class = ClientClaude ->
     Claude.notInitialized (newClaude Examples.env Claude.default_config) = false) /\
    (class = ClientOpenAI ->
     OpenAI.notInitialized (newOpenAI Examples.env OpenAI.default_model) = false) /\
    (class = ClientGemini -> truthy (Examples.env "GEMINI_API_KEY") = true).
Proof.
  apply (checked_provider_gives_working_client
           (appState (snd (saveSettingsHandler Examples.claude_settings
                             Examples.settings_world)))
           Examples.env Claude.default_config OpenAI.default_model).
  reflexivity.
Defined.

(** X28: The ['getAvailableModels'] handler only ever returns models that the
    provider listed: for Claude and OpenAI, a returned model means that the
    provider name is known, its key is in the environment and the listing
    succeeded; for OpenAI the model is moreover chat-compatible. *)
Theorem listed_models_only (env : Env) (gemini : GeminiClient)
    (listing : Models.ModelsList) (provider : string) (m : Models.ModelInfo) :
  In m (getAvailableModelsHandler env gemini listing provider) ->
  (provider = "gemini" /\ gemini_apiKeyMissing gemini = false /\
   exists models, gemini_models gemini = Ok models /\ In m models) \/
  (provider = "openai" /\ truthy (env "OPENAI_API_KEY") = true /\
   OpenAI.isChatCompatible m = true /\
   exists data, listing = Ok (Some data) /\ In m data) \/
  (provider = "claude" /\ truthy (env "ANTHROPIC_API_KEY") = true /\
   exists data, listing = Ok (Some data) /\ In m data).
Proof.
  unfold getAvailableModelsHandler.
  destruct (String.eqb_spec provider "gemini") as [-> | _].
  { destruct (gemini_apiKeyMissing gemini); [intros [] |].
    destruct (gemini_models gemini) as [models | message]; [| intros []].
    intros Hin. left. eauto. }
  destruct (String.eqb_spec provider "openai") as [-> | _].
  { unfold newOpenAI, OpenAI.construct, OpenAI.getAvailableModels.
    destruct (truthy (env "OPENAI_API_KEY")); cbn; [| intros []].
    destruct listing as [[data |] | message]; cbn; try (intros []).
    intros [Hin Hchat]%List.filter_In. right. left. eauto 10. }
  destruct (String.eqb_spec provider "claude") as [-> | _]; [| intros []].
  unfold newClaude, Claude.construct, Claude.getAvailableModels.
  destruct (truthy (env "ANTHROPIC_API_KEY")); cbn; [| intros []].
  destruct listing as [[data |] | message]; cbn; try (intros []).
  intros [Hin _]%List.filter_In. right. right. eauto 10.
Qed.

Lemma listed_models_only_witness :
  "claude" = "gemini" /\
  gemini_apiKeyMissing {| gemini_apiKeyMissing := true; gemini_models := Ok [] |} = false /\
  (exists models,
     gemini_models {| gemini_apiKeyMissing := true; gemini_models := Ok [] |} = Ok models /\
     In (Models.mkModelInfo (Some "claude-3-7-sonnet-20250219")) models) \/
  "claude" = "openai" /\ truthy (Examples.env "OPENAI_API_KEY") = true /\
  OpenAI.isChatCompatible (Models.mkModelInfo (Some "claude-3-7-sonnet-20250219")) = true /\
  (exists data, Examples.listing = Ok (Some data) /\
                In (Models.mkModelInfo (Some "claude-3-7-sonnet-20250219")) data) \/
  "claude" = "claude" /\ truthy (Examples.env "ANTHROPIC_API_KEY") = true /\
  exists data, Examples.listing = Ok (Some data) /\
               In (Models.mkModelInfo (Some "claude-3-7-sonnet-20250219")) data.
Proof.
  apply (listed_models_only Examples.env
           {| gemini_apiKeyMissing := true; gemini_models := Ok [] |}
           Examples.listing "claude"
           (Models.mkModelInfo (Some "claude-3-7-sonnet-20250219"))).
  cbn. left. reflexivity.
Defined.

End MoreSettings.

Section MoreClaudeWitnesses.
Import Claude.

Lemma prepare_loads_or_reports_witness :
  let loaded := fst (fst (prepareFileAndCache Examples.claude_ready (Ok "Once upon a time."))) in
  (snd (prepareFileAndCache loaded (Ok Examples.byte_order_mark_only))
     = ["Error loading manuscript: Manuscript file is empty"] /\
   manuscriptContent (fst (fst (prepareFileAndCache loaded
                                  (Ok Examples.byte_order_mark_only)))) = None) /\
  (snd (prepareFileAndCache loaded (Throw "ENOENT"))
     = ["Error loading manuscript: " +:+ "ENOENT"] /\
   manuscriptContent (fst (fst (prepareFileAndCache loaded (Throw "ENOENT")))) = None).
Proof.
  cbn zeta. split.
  - destruct (prepare_loads_or_reports
                (fst (fst (prepareFileAndCache Examples.claude_ready
                             (Ok "Once upon a time."))))
                (Ok Examples.byte_order_mark_only)) as (_ & Hblank & _).
    apply (Hblank Examples.byte_order_mark_only); reflexivity.
  - destruct (prepare_loads_or_reports
                (fst (fst (prepareFileAndCache Examples.claude_ready
                             (Ok "Once upon a time."))))
                (Throw "ENOENT")) as (Hfailed & _).
    apply (Hfailed "ENOENT"). reflexivity.
Defined.

Lemma verify_true_iff_model_listed_witness :
  fst (verifyAiAPI Examples.claude_ready Examples.listing) = true /\
  snd (verifyAiAPI Examples.claude_without_key Examples.listing) = false.
Proof.
  split.
  - destruct (verify_true_iff_model_listed Examples.claude_ready Examples.listing)
      as [[_ Hlisted] _].
    apply Hlisted. split; [reflexivity |].
    eexists _, _. split; [reflexivity |]. split; [left; reflexivity | reflexivity].
  - destruct (verify_true_iff_model_listed Examples.claude_without_key Examples.listing)
      as [_ Hquiet].
    apply Hquiet. reflexivity.
Defined.

End MoreClaudeWitnesses.

Section MoreClaudeClearing.
Import Claude.

(** X14: After [clearFilesAndCaches()] a loaded manuscript is no longer sent:
    the token count and the stream request are made on the instruction
    alone. *)
Theorem cleared_manuscript_is_not_sent (sdk : Sdk) (c : Client)
    (prompt : string) (noCache includeMetaData : bool) (options : StreamOptions) :
  notInitialized c = false ->
  calls (streamWithThinking sdk (clearFilesAndCaches c) prompt noCache
           includeMetaData options)
  = [CallCountTokens (model_name (config c)) prompt (thinking_budget_tokens (config c));
     CallStream
       {| mo_model := model_name (config c);
          mo_max_tokens := max_tokens (config c);
          mo_content := prompt;
          mo_budget_tokens := max_thinking_budget (config c) |}].
Proof.
  intros Hinit. rewrite claude_calls; [reflexivity |].
  unfold notInitialized, clearFilesAndCaches in *. exact Hinit.
Qed.

Lemma cleared_manuscript_is_not_sent_witness :
  calls (streamWithThinking Examples.claude_sdk
           (clearFilesAndCaches
              (fst (fst (prepareFileAndCache Examples.claude_ready
                           (Ok "Once upon a time.")))))
           "Edit this." false true {| includeThinking := false |})
  = [CallCountTokens "claude-3-7-sonnet-20250219" "Edit this." 32000;
     CallStream
       {| mo_model := "claude-3-7-sonnet-20250219";
          mo_max_tokens := 32000;
          mo_content := "Edit this.";
          mo_budget_tokens := 20000 |}].
Proof.
  apply (cleared_manuscript_is_not_sent Examples.claude_sdk
           (fst (fst (prepareFileAndCache Examples.claude_ready (Ok "Once upon a time.")))));
    reflexivity.
Defined.

End MoreClaudeClearing.
